(** * pagerduty-oncall-notifier: the state/transition engine

    A shallow embedding of [internal/state/manager.go] (the persisted
    state and its file, the transition detector and the
    advance-notification decision) and of the polling loop of
    [cmd/notifier/main.go], with the properties the specification
    states about them.

    Conventions.
    - A [time.Time] is the instant it denotes, counted in nanoseconds
      from the Unix epoch, with the offset from UTC its location has at
      that instant.  Every [Time] the engine creates comes from
      [time.Now().UTC()], which strips the monotonic reading and sets
      the location to UTC; a time read from a state file or from the
      PagerDuty API keeps the numeric zone offset it was written with,
      and is written with it again.
    - A [time.Duration] is an [int64] count of nanoseconds, kept in [Z];
      the only operation of the code that can leave the range is
      [Time.Sub], which saturates, and its saturation is written out.
    - [time.Now()] is an effect: the functions that read the clock take
      the reading as an explicit argument [now].
    - A Go [error] is the message it carries; [nil] is [None].
    - The state file is what [Save] writes and [Load] reads, byte for
      byte: the layout of [json.MarshalIndent], RFC 3339 timestamps,
      and a reader of JSON texts are part of the model.
    - The loop's collaborators (PagerDuty client, notifier, clock, file
      system) answer through the fields of a [Tick], one per call. *)

From Stdlib Require Import ZArith Lia Bool List String Ascii Sorted.
Import ListNotations.

Local Open Scope Z_scope.

(** ** Results of fallible calls *)

Inductive result (A : Type) : Type :=
| Ok (a : A)
| Err (msg : string).
Arguments Ok {A} a.
Arguments Err {A} msg.

Definition error := option string.

Definition bind {A B} (r : result A) (k : A -> result B) : result B :=
  match r with
  | Ok a => k a
  | Err e => Err e
  end.

Notation "x <- r ;; k" := (bind r (fun x => k))
  (at level 61, r at next level, right associativity).

Definition obind {A B} (o : option A) (k : A -> option B) : option B :=
  match o with
  | Some a => k a
  | None => None
  end.

Notation "x <-? o ;; k" := (obind o (fun x => k))
  (at level 61, o at next level, right associativity).

Notation "' p <-? o ;; k" := (obind o (fun p => k))
  (at level 61, p pattern, o at next level, right associativity).

(** [fmt.Errorf("<ctx>: %w", err)] *)
Definition wrap (ctx : string) (e : string) : string :=
  (ctx ++ ": " ++ e)%string.

(** ** Bytes

    A [[]byte] is a [string] of 8-bit characters. *)

Abbreviation dquote := ("034"%char) (only parsing).
Abbreviation newline := ("010"%char) (only parsing).
Abbreviation backslash := ("092"%char) (only parsing).

Definition isDigit (c : ascii) : bool :=
  ((48 <=? N_of_ascii c) && (N_of_ascii c <=? 57))%N.

Definition digitVal (c : ascii) : Z := Z.of_N (N_of_ascii c) - 48.

Definition digitChar (n : Z) : ascii := ascii_of_N (Z.to_N (48 + n)).

(** ** Package [time] *)

Module GoTime.

(** A [time.Time] without monotonic reading: [nanos] is the instant,
    in nanoseconds from the Unix epoch; [zone] is the offset east of
    UTC that the time's location has at that instant, in minutes.  The
    locations this program meets are UTC and those [Time.UnmarshalJSON]
    and [time.Parse] make of an RFC 3339 offset [+hh:mm] (the local
    zone when it has that offset at that instant, a fixed zone
    otherwise): their offsets are whole minutes. *)
Record Time : Set := mkTime { nanos : Z; zone : Z }.

(** The time in UTC at an instant: what [t.UTC()] gives. *)
Definition Instant (n : Z) : Time := {| nanos := n; zone := 0 |}.

Definition Duration := Z.

Definition minDuration : Duration := - 2 ^ 63.
Definition maxDuration : Duration := 2 ^ 63 - 1.

Definition Nanosecond : Duration := 1.
Definition Microsecond : Duration := 1000 * Nanosecond.
Definition Millisecond : Duration := 1000 * Microsecond.
Definition Second : Duration := 1000 * Millisecond.
Definition Minute : Duration := 60 * Second.
Definition Hour : Duration := 60 * Minute.

(** [t.Sub(u)]: the duration [t - u]; when it does not fit a
    [Duration] the maximum (or minimum) duration is returned. *)
Definition Sub (t u : Time) : Duration :=
  let d := nanos t - nanos u in
  if d <? minDuration then minDuration
  else if maxDuration <? d then maxDuration
  else d.

(** *** The calendar: proleptic Gregorian, astronomical years *)

Definition isLeap (year : Z) : bool :=
  (year mod 4 =? 0) && (negb (year mod 100 =? 0) || (year mod 400 =? 0)).

(** Days from 0000-01-01 to the first of January of [year]. *)
Definition daysBeforeYear (year : Z) : Z :=
  365 * year + (year + 3) / 4 - (year + 99) / 100 + (year + 399) / 400.

(** 1970-01-01 counted from 0000-01-01. *)
Definition unixEpochDay : Z := 719528.

Definition daysBeforeMonth (leap : bool) (month : Z) : Z :=
  let l := if leap then 1 else 0 in
  match month with
  | 1 => 0
  | 2 => 31
  | 3 => 59 + l
  | 4 => 90 + l
  | 5 => 120 + l
  | 6 => 151 + l
  | 7 => 181 + l
  | 8 => 212 + l
  | 9 => 243 + l
  | 10 => 273 + l
  | 11 => 304 + l
  | 12 => 334 + l
  | _ => 365 + l
  end.

Definition daysIn (month year : Z) : Z :=
  match month with
  | 2 => if isLeap year then 29 else 28
  | 4 | 6 | 9 | 11 => 30
  | _ => 31
  end.

(** The year a day falls in: an estimate from the mean length of a
    year, corrected by one where the estimate is off. *)
Definition yearOfDay (day : Z) : Z :=
  let y := 400 * day / 146097 in
  if day <? daysBeforeYear y then y - 1
  else if daysBeforeYear (y + 1) <=? day then y + 1
  else y.

Definition monthOfYearDay (leap : bool) (yday : Z) : Z :=
  if yday <? daysBeforeMonth leap 2 then 1
  else if yday <? daysBeforeMonth leap 3 then 2
  else if yday <? daysBeforeMonth leap 4 then 3
  else if yday <? daysBeforeMonth leap 5 then 4
  else if yday <? daysBeforeMonth leap 6 then 5
  else if yday <? daysBeforeMonth leap 7 then 6
  else if yday <? daysBeforeMonth leap 8 then 7
  else if yday <? daysBeforeMonth leap 9 then 8
  else if yday <? daysBeforeMonth leap 10 then 9
  else if yday <? daysBeforeMonth leap 11 then 10
  else if yday <? daysBeforeMonth leap 12 then 11
  else 12.

(** The fields [t.Date()], [t.Clock()] and [t.Nanosecond()] give:
    the date and the clock in the time's location. *)
Record civil : Set := mkCivil {
  c_year : Z; c_month : Z; c_day : Z;
  c_hour : Z; c_min : Z; c_sec : Z; c_nsec : Z
}.

Definition unixSec (t : Time) : Z := nanos t / 1000000000.

(** [t.abs()], counted from the Unix epoch: the seconds on the clock
    of the time's location. *)
Definition localSec (t : Time) : Z := unixSec t + zone t * 60.

Definition dayOf (t : Time) : Z := localSec t / 86400 + unixEpochDay.

(** [t.Year()] *)
Definition Year (t : Time) : Z := yearOfDay (dayOf t).

Definition civilOf (t : Time) : civil :=
  let sod := localSec t mod 86400 in
  let y := Year t in
  let yday := dayOf t - daysBeforeYear y in
  let m := monthOfYearDay (isLeap y) yday in
  {| c_year := y;
     c_month := m;
     c_day := yday - daysBeforeMonth (isLeap y) m + 1;
     c_hour := sod / 3600;
     c_min := sod mod 3600 / 60;
     c_sec := sod mod 60;
     c_nsec := nanos t mod 1000000000 |}.

(** [time.Date(year, month, day, hour, min, sec, nsec, time.UTC)],
    for fields in their normal ranges. *)
Definition Date (year month day hour min sec nsec : Z) : Time :=
  let days :=
    daysBeforeYear year + daysBeforeMonth (isLeap year) month
    + (day - 1) - unixEpochDay in
  Instant
    ((days * 86400 + hour * 3600 + min * 60 + sec) * 1000000000 + nsec).

(** *** RFC 3339 with nanoseconds, as [Time.MarshalJSON] writes it

    Layout [2006-01-02T15:04:05.999999999Z07:00]: the date and the
    clock of the time's location; the fraction is dropped when it is
    zero and loses its trailing zeros otherwise; the zone is [Z] for
    the offset zero, and the sign, the hours and the minutes of the
    offset otherwise.  [pad4] and [pad2] are [appendInt] with width 4
    and 2 on the numbers [MarshalJSON] lets through: a year from 0 to
    9999, a zone hour up to 23. *)

Definition pad2 (n : Z) : string :=
  String (digitChar (n / 10)) (String (digitChar (n mod 10)) EmptyString).

Definition pad4 (n : Z) : string :=
  String (digitChar (n / 1000))
    (String (digitChar (n / 100 mod 10))
       (String (digitChar (n / 10 mod 10))
          (String (digitChar (n mod 10)) EmptyString))).

(** The first [width] decimals of [nsec / 10^width], up to the last
    one that is not zero. *)
Fixpoint fractionDigits (width : nat) (nsec : Z) : string :=
  match width with
  | O => EmptyString
  | S w =>
      if nsec =? 0 then EmptyString
      else String (digitChar (nsec / 10 ^ Z.of_nat w))
             (fractionDigits w (nsec mod 10 ^ Z.of_nat w))
  end.

Definition formatFraction (nsec : Z) : string :=
  if nsec =? 0 then EmptyString
  else String "." (fractionDigits 9 nsec).

Definition formatZone (zone : Z) : string :=
  let sign : ascii := if zone <? 0 then "-"%char else "+"%char in
  let hours := Z.abs zone / 60 in
  let minutes := Z.abs zone mod 60 in
  if zone =? 0 then String "Z" EmptyString
  else String sign (pad2 hours ++ String ":" (pad2 minutes)).

Definition formatRFC3339Nano (t : Time) : string :=
  let c := civilOf t in
  (pad4 (c_year c) ++ "-" ++ pad2 (c_month c) ++ "-" ++ pad2 (c_day c)
   ++ "T" ++ pad2 (c_hour c) ++ ":" ++ pad2 (c_min c) ++ ":"
   ++ pad2 (c_sec c) ++ formatFraction (c_nsec c)
   ++ formatZone (zone t))%string.

(** *** [parseRFC3339], the parser behind [Time.UnmarshalJSON]

    The bytes between the quotes are taken as they are (no escape is
    undone).  What this parser refuses Go hands to its general layout
    parser, which lets a few timestamps outside RFC 3339 through (an
    hour of one digit, a comma before the fraction, a zone hour of
    24); here they are refused.  A timestamp [MarshalJSON] wrote never
    takes that path.  The time returned is at the instant the
    timestamp names and in a location with the offset it carries
    ([t.addSec(-zoneOffset)], then [t.setLoc]); [Z] gives UTC. *)

(** The closure [parseUint]: a run of decimal digits whose value
    lies in [[min, max]]. *)
Definition parseUint (digits : list ascii) (min max : Z) : option Z :=
  if forallb isDigit digits then
    let x := fold_left (fun x c => x * 10 + digitVal c) digits 0 in
    if (x <? min) || (max <? x) then None else Some x
  else None.

(** [parseNanoseconds] on the digits after the point: nine of them
    count, scaled to nanoseconds; the rest of the run is skipped. *)
Fixpoint parseFractionDigits (width : nat) (s : string) : Z * string :=
  match s with
  | String c s' =>
      if isDigit c then
        match width with
        | S w =>
            let '(v, rest) := parseFractionDigits w s' in
            (digitVal c * 10 ^ Z.of_nat w + v, rest)
        | O => parseFractionDigits O s'
        end
      else (0, s)
  | EmptyString => (0, EmptyString)
  end.

Definition parseFraction (s : string) : Z * string :=
  match s with
  | String "." (String c s') =>
      if isDigit c then parseFractionDigits 9 (String c s') else (0, s)
  | _ => (0, s)
  end.

(** The zone: [Z], or a numeric offset [+hh:mm] / [-hh:mm], in
    seconds east of UTC. *)
Definition parseZone (s : string) : option Z :=
  match s with
  | String "Z" EmptyString => Some 0
  | String sign (String h1 (String h2 (String colon
      (String m1 (String m2 EmptyString))))) =>
      hr <-? parseUint [h1; h2] 0 23 ;;
      mm <-? parseUint [m1; m2] 0 59 ;;
      if (Ascii.eqb sign "-" || Ascii.eqb sign "+") && Ascii.eqb colon ":"
      then
        let zoneOffset := (hr * 60 + mm) * 60 in
        Some (if Ascii.eqb sign "-" then - zoneOffset else zoneOffset)
      else None
  | _ => None
  end.

Definition parseRFC3339 (s : string) : option Time :=
  match s with
  | String y1 (String y2 (String y3 (String y4 (String p4
      (String m1 (String m2 (String p7
      (String d1 (String d2 (String p10
      (String h1 (String h2 (String p13
      (String i1 (String i2 (String p16
      (String s1 (String s2 rest)))))))))))))))))) =>
      year <-? parseUint [y1; y2; y3; y4] 0 9999 ;;
      month <-? parseUint [m1; m2] 1 12 ;;
      day <-? parseUint [d1; d2] 1 (daysIn month year) ;;
      hour <-? parseUint [h1; h2] 0 23 ;;
      min <-? parseUint [i1; i2] 0 59 ;;
      sec <-? parseUint [s1; s2] 0 59 ;;
      if Ascii.eqb p4 "-" && Ascii.eqb p7 "-" && Ascii.eqb p10 "T"
         && Ascii.eqb p13 ":" && Ascii.eqb p16 ":"
      then
        let '(nsec, rest') := parseFraction rest in
        zoneOffset <-? parseZone rest' ;;
        let t := Date year month day hour min sec nsec in
        Some {| nanos := nanos t - zoneOffset * 1000000000;
                zone := zoneOffset / 60 |}
      else None
  | _ => None
  end.

End GoTime.

(** ** Package [encoding/json]

    The part of the library [Save] and [Load] go through: the syntax
    of JSON texts ([checkValid] and the decoder's scanner), the layout
    [MarshalIndent] gives a value, and the names of struct fields.
    A string value keeps the bytes between its quotes as they stand in
    the text; [unquote] gives the bytes they denote. *)

Module json.

#[warnings="-register-all"] Inductive value : Type :=
| JNull
| JBool (b : bool)
| JNumber (literal : string)
| JString (raw : string)
| JArray (elements : list value)
| JObject (members : list (string * value)).

(** *** Reading *)

Definition isSpace (c : ascii) : bool :=
  Ascii.eqb c " " || Ascii.eqb c "009" || Ascii.eqb c "013"
  || Ascii.eqb c newline.

Fixpoint skipSpace (s : string) : string :=
  match s with
  | String c s' => if isSpace c then skipSpace s' else s
  | EmptyString => s
  end.

Definition isHex (c : ascii) : bool :=
  let n := N_of_ascii c in
  (isDigit c || ((97 <=? n) && (n <=? 102)) || ((65 <=? n) && (n <=? 70)))%N.

Definition isSimpleEscape (c : ascii) : bool :=
  Ascii.eqb c dquote || Ascii.eqb c backslash || Ascii.eqb c "/"
  || Ascii.eqb c "b" || Ascii.eqb c "f" || Ascii.eqb c "n"
  || Ascii.eqb c "r" || Ascii.eqb c "t".

(** The body of a string literal, from just after the opening quote
    to the closing one, and what follows it. *)
Fixpoint scanString (s : string) : option (string * string) :=
  match s with
  | EmptyString => None
  | String c s1 =>
      if Ascii.eqb c dquote then Some (EmptyString, s1)
      else if Ascii.eqb c backslash then
        match s1 with
        | String e s2 =>
            if isSimpleEscape e then
              ' (body, rest) <-? scanString s2 ;;
              Some (String c (String e body), rest)
            else if Ascii.eqb e "u" then
              match s2 with
              | String h1 (String h2 (String h3 (String h4 s3))) =>
                  if isHex h1 && isHex h2 && isHex h3 && isHex h4 then
                    ' (body, rest) <-? scanString s3 ;;
                    Some (String c (String e (String h1 (String h2
                            (String h3 (String h4 body))))), rest)
                  else None
              | _ => None
              end
            else None
        | EmptyString => None
        end
      else if (N_of_ascii c <? 32)%N then None
      else
        ' (body, rest) <-? scanString s1 ;;
        Some (String c body, rest)
  end.

Fixpoint spanDigits (s : string) : string * string :=
  match s with
  | String c s' =>
      if isDigit c then
        let '(ds, rest) := spanDigits s' in (String c ds, rest)
      else (EmptyString, s)
  | EmptyString => (EmptyString, EmptyString)
  end.

(** A number literal: an optional minus sign; a zero, or a digit
    from 1 to 9 and any digits; optionally a point and digits;
    optionally an exponent, [e] or [E], a sign and digits. *)
Definition scanNumber (s : string) : option (string * string) :=
  let '(sign, s1) :=
    match s with
    | String "-" s' => ("-"%string, s')
    | _ => (EmptyString, s)
    end in
  ' (int, s2) <-?
    match s1 with
    | String c s' =>
        if Ascii.eqb c "0" then Some ("0"%string, s')
        else if isDigit c then
          let '(ds, rest) := spanDigits s' in Some (String c ds, rest)
        else None
    | EmptyString => None
    end ;;
  ' (frac, s3) <-?
    match s2 with
    | String "." s' =>
        match spanDigits s' with
        | (EmptyString, _) => None
        | (ds, rest) => Some (String "." ds, rest)
        end
    | _ => Some (EmptyString, s2)
    end ;;
  ' (exp, s4) <-?
    match s3 with
    | String e s' =>
        if Ascii.eqb e "e" || Ascii.eqb e "E" then
          let '(esign, s'') :=
            match s' with
            | String "+" r => ("+"%string, r)
            | String "-" r => ("-"%string, r)
            | _ => (EmptyString, s')
            end in
          match spanDigits s'' with
          | (EmptyString, _) => None
          | (ds, rest) => Some ((String e esign ++ ds)%string, rest)
          end
        else Some (EmptyString, s3)
    | EmptyString => Some (EmptyString, s3)
    end ;;
  Some ((sign ++ int ++ frac ++ exp)%string, s4).

Definition maxNestingDepth : Z := 10000.

(** A value at the head of [s] (no space before it) and the rest of
    the text.  [depth] counts the arrays and objects that are open,
    as the scanner's [parseState] does.  [fuel] bounds the chain of
    nested calls; a container costs two of them and takes two bytes
    at least, a member or element after the first costs one and
    takes two bytes at least, so the length of the text is enough. *)
Fixpoint parseValue (fuel : nat) (depth : Z) (s : string) {struct fuel}
  : option (value * string) :=
  match fuel with
  | O => None
  | S fuel' =>
      match s with
      | EmptyString => None
      | String c s1 =>
          if Ascii.eqb c "{" then
            if maxNestingDepth <? depth + 1 then None
            else
              match skipSpace s1 with
              | String "}" s2 => Some (JObject [], s2)
              | s2 =>
                  ' (ms, rest) <-? parseMembers fuel' (depth + 1) s2 ;;
                  Some (JObject ms, rest)
              end
          else if Ascii.eqb c "[" then
            if maxNestingDepth <? depth + 1 then None
            else
              match skipSpace s1 with
              | String "]" s2 => Some (JArray [], s2)
              | s2 =>
                  ' (vs, rest) <-? parseElements fuel' (depth + 1) s2 ;;
                  Some (JArray vs, rest)
              end
          else if Ascii.eqb c dquote then
            ' (raw, rest) <-? scanString s1 ;;
            Some (JString raw, rest)
          else if Ascii.eqb c "t" then
            match s1 with
            | String "r" (String "u" (String "e" rest)) =>
                Some (JBool true, rest)
            | _ => None
            end
          else if Ascii.eqb c "f" then
            match s1 with
            | String "a" (String "l" (String "s" (String "e" rest))) =>
                Some (JBool false, rest)
            | _ => None
            end
          else if Ascii.eqb c "n" then
            match s1 with
            | String "u" (String "l" (String "l" rest)) =>
                Some (JNull, rest)
            | _ => None
            end
          else
            ' (lit, rest) <-? scanNumber s ;;
            Some (JNumber lit, rest)
      end
  end

with parseMembers (fuel : nat) (depth : Z) (s : string) {struct fuel}
  : option (list (string * value) * string) :=
  match fuel with
  | O => None
  | S fuel' =>
      match s with
      | String c s1 =>
          if Ascii.eqb c dquote then
            ' (key, s2) <-? scanString s1 ;;
            match skipSpace s2 with
            | String ":" s3 =>
                ' (v, s4) <-? parseValue fuel' depth (skipSpace s3) ;;
                match skipSpace s4 with
                | String "," s5 =>
                    ' (ms, rest) <-?
                      parseMembers fuel' depth (skipSpace s5) ;;
                    Some ((key, v) :: ms, rest)
                | String "}" s5 => Some ([(key, v)], s5)
                | _ => None
                end
            | _ => None
            end
          else None
      | EmptyString => None
      end
  end

with parseElements (fuel : nat) (depth : Z) (s : string) {struct fuel}
  : option (list value * string) :=
  match fuel with
  | O => None
  | S fuel' =>
      ' (v, s1) <-? parseValue fuel' depth s ;;
      match skipSpace s1 with
      | String "," s2 =>
          ' (vs, rest) <-? parseElements fuel' depth (skipSpace s2) ;;
          Some (v :: vs, rest)
      | String "]" s2 => Some ([v], s2)
      | _ => None
      end
  end.

(** The whole text is one value, with space around it at most. *)
Definition parse (data : string) : result value :=
  match parseValue (S (String.length data)) 0 (skipSpace data) with
  | Some (v, rest) =>
      match skipSpace rest with
      | EmptyString => Ok v
      | _ => Err "invalid character after top-level value"
      end
  | None => Err "invalid JSON text"
  end.

(** Bytes that stand for themselves inside a string literal. *)
Definition plainByte (c : ascii) : bool :=
  negb (Ascii.eqb c dquote) && negb (Ascii.eqb c backslash)
  && negb (N_of_ascii c <? 32)%N.

Fixpoint allPlain (s : string) : bool :=
  match s with
  | EmptyString => true
  | String c s' => plainByte c && allPlain s'
  end.

(** *** The bytes a string literal denotes *)

Definition hexVal (c : ascii) : Z :=
  let n := Z.of_N (N_of_ascii c) in
  if isDigit c then n - 48
  else if 97 <=? n then n - 87
  else n - 55.

Definition byteOf (n : Z) : ascii := ascii_of_N (Z.to_N n).

(** [utf8.AppendRune] *)
Definition utf8 (r : Z) : string :=
  if r <? 128 then String (byteOf r) EmptyString
  else if r <? 2048 then
    String (byteOf (192 + r / 64))
      (String (byteOf (128 + r mod 64)) EmptyString)
  else if r <? 65536 then
    String (byteOf (224 + r / 4096))
      (String (byteOf (128 + r / 64 mod 64))
         (String (byteOf (128 + r mod 64)) EmptyString))
  else
    String (byteOf (240 + r / 262144))
      (String (byteOf (128 + r / 4096 mod 64))
         (String (byteOf (128 + r / 64 mod 64))
            (String (byteOf (128 + r mod 64)) EmptyString))).

Definition replacementChar : Z := 65533.

Definition hex4 (h1 h2 h3 h4 : ascii) : Z :=
  ((hexVal h1 * 16 + hexVal h2) * 16 + hexVal h3) * 16 + hexVal h4.

Definition escaped (e : ascii) : ascii :=
  if Ascii.eqb e "b" then "008"
  else if Ascii.eqb e "f" then "012"
  else if Ascii.eqb e "n" then newline
  else if Ascii.eqb e "r" then "013"
  else if Ascii.eqb e "t" then "009"
  else e.

Definition isHighSurrogate (r : Z) : bool := (55296 <=? r) && (r <? 56320).
Definition isLowSurrogate (r : Z) : bool := (56320 <=? r) && (r <? 57344).

(** [unquote], on a body [scanString] accepted.  A half of a
    surrogate pair without its other half is the replacement
    character. *)
Fixpoint unquote (raw : string) : string :=
  match raw with
  | EmptyString => EmptyString
  | String c s1 =>
      if Ascii.eqb c backslash then
        match s1 with
        | String "u" (String h1 (String h2 (String h3 (String h4 s2)))) =>
            let r := hex4 h1 h2 h3 h4 in
            if isHighSurrogate r then
              match s2 with
              | String b (String "u"
                  (String l1 (String l2 (String l3 (String l4 s3))))) =>
                  let r2 := hex4 l1 l2 l3 l4 in
                  if Ascii.eqb b backslash && isLowSurrogate r2 then
                    (utf8 (65536 + (r - 55296) * 1024 + (r2 - 56320))
                     ++ unquote s3)%string
                  else (utf8 replacementChar ++ unquote s2)%string
              | _ => (utf8 replacementChar ++ unquote s2)%string
              end
            else if isLowSurrogate r then
              (utf8 replacementChar ++ unquote s2)%string
            else (utf8 r ++ unquote s2)%string
        | String e s2 => String (escaped e) (unquote s2)
        | EmptyString => EmptyString
        end
      else String c (unquote s1)
  end.

(** *** Matching a key with a field name

    [foldName]: ASCII letters in upper case; of the letters outside
    ASCII only U+017F and U+212A fold onto ASCII ones ([S] and [K]),
    so for a comparison with an ASCII field name the other bytes may
    stay as they are. *)
Definition upper (c : ascii) : ascii :=
  let n := N_of_ascii c in
  if ((97 <=? n) && (n <=? 122))%N then ascii_of_N (n - 32) else c.

Fixpoint foldName (s : string) : string :=
  match s with
  | EmptyString => EmptyString
  | String "197" (String "191" s') => String "S" (foldName s')
  | String "226" (String "132" (String "170" s')) =>
      String "K" (foldName s')
  | String c s' => String (upper c) (foldName s')
  end.

(** A key names a field when it is the field's name, or is it up to
    folding. *)
Fixpoint lookupField {F : Type} (fields : list (string * F))
    (key : string) : option F :=
  match fields with
  | [] => None
  | (name, f) :: fields' =>
      if String.eqb key name then Some f else lookupField fields' key
  end.

Definition fieldFor {F : Type} (fields : list (string * F))
    (key : string) : option F :=
  match lookupField fields key with
  | Some f => Some f
  | None =>
      lookupField (map (fun nf => (foldName (fst nf), snd nf)) fields)
        (foldName key)
  end.

(** *** Writing: the layout of [MarshalIndent(v, prefix, indent)] with
    an empty prefix and an indent of two spaces *)

Fixpoint indentation (depth : nat) : string :=
  match depth with
  | O => EmptyString
  | S d => ("  " ++ indentation d)%string
  end.

Definition lineBreak (depth : nat) : string :=
  String newline (indentation depth).

Definition quoted (raw : string) : string :=
  String dquote (raw ++ String dquote EmptyString).

Fixpoint render (depth : nat) (v : value) {struct v} : string :=
  match v with
  | JNull => "null"
  | JBool true => "true"
  | JBool false => "false"
  | JNumber literal => literal
  | JString raw => quoted raw
  | JArray [] => "[]"
  | JArray (x :: xs) =>
      ("[" ++ lineBreak (S depth) ++ render (S depth) x
       ++ (fix items (l : list value) : string :=
             match l with
             | [] => EmptyString
             | y :: l' =>
                 ("," ++ lineBreak (S depth) ++ render (S depth) y
                  ++ items l')%string
             end) xs
       ++ lineBreak depth ++ "]")%string
  | JObject [] => "{}"
  | JObject ((k, x) :: ms) =>
      ("{" ++ lineBreak (S depth) ++ quoted k ++ ": " ++ render (S depth) x
       ++ (fix items (l : list (string * value)) : string :=
             match l with
             | [] => EmptyString
             | (k', y) :: l' =>
                 ("," ++ lineBreak (S depth) ++ quoted k' ++ ": "
                  ++ render (S depth) y ++ items l')%string
             end) ms
       ++ lineBreak depth ++ "}")%string
  end.

End json.

(** ** Package [os]: the one path the state manager reads and writes *)

Module os.

(** What is at the path: nothing, something that cannot be read (a
    directory, a file without permission, a failing device; [statOk]
    tells whether [Stat] succeeds on it), or a regular file. *)
Inductive node : Type :=
| Absent
| Unreadable (statOk : bool) (reason : string)
| Regular (data : string).

Inductive PathError : Type :=
| ErrNotExist
| ErrOther (reason : string).

Definition message (e : PathError) : string :=
  match e with
  | ErrNotExist => "no such file or directory"
  | ErrOther reason => reason
  end.

Definition Stat (n : node) : option PathError :=
  match n with
  | Absent => Some ErrNotExist
  | Unreadable false reason => Some (ErrOther reason)
  | Unreadable true _ => None
  | Regular _ => None
  end.

Definition IsNotExist (err : option PathError) : bool :=
  match err with
  | Some ErrNotExist => true
  | _ => false
  end.

Definition ReadFile (n : node) : result string :=
  match n with
  | Absent => Err (message ErrNotExist)
  | Unreadable _ reason => Err reason
  | Regular data => Ok data
  end.

(** What the file system answers to one [Save]: both calls succeed,
    [MkdirAll] fails, or [WriteFile] fails and leaves [residue] at the
    path. *)
Inductive outcome : Type :=
| Written
| MkdirAllFails (reason : string)
| WriteFileFails (reason : string) (residue : node).

Definition MkdirAll (io : outcome) : error :=
  match io with
  | MkdirAllFails reason => Some reason
  | _ => None
  end.

Definition WriteFile (io : outcome) (n : node) (data : string)
  : node * error :=
  match io with
  | WriteFileFails reason residue => (residue, Some reason)
  | _ => (Regular data, None)
  end.

End os.

(** ** Package [state] ([internal/state/manager.go]) *)

Module state.
Import GoTime.

(** [State] represents the persisted on-call state.  The pointer
    field [*time.Time] is an [option]. *)
Record State : Set := mkState {
  WasOnCall : bool;
  LastAdvanceNotificationSent : option Time
}.

(** The value [&State{WasOnCall: false}]. *)
Definition defaultState : State :=
  {| WasOnCall := false; LastAdvanceNotificationSent := None |}.

(** [HasTransitionToOnCall] checks if there was a transition from
    not-on-call to on-call. *)
Definition HasTransitionToOnCall
    (previousState : State) (currentlyOnCall : bool) : bool :=
  negb (WasOnCall previousState) && currentlyOnCall.

(** [ShouldSendAdvanceNotification]; [now] is the reading of
    [time.Now().UTC()] taken inside the call. *)
Definition ShouldSendAdvanceNotification
    (now : Time) (state : State) (shiftStartTime : Time)
    (advanceTime : Duration) : bool :=
  if advanceTime <=? 0 then false
  else
    let timeUntilShift := Sub shiftStartTime now in
    if (timeUntilShift <=? 0) || (timeUntilShift >? advanceTime)
    then false
    else
      match LastAdvanceNotificationSent state with
      | Some last =>
          let timeSinceLastNotification := Sub now last in
          if timeSinceLastNotification <? 24 * Hour then false
          else true
      | None => true
      end.

(** [RecordAdvanceNotificationSent]: the in-place update of
    [state.LastAdvanceNotificationSent], returned as the new value
    of the state object. *)
Definition RecordAdvanceNotificationSent
    (now : Time) (state : State) : State :=
  {| WasOnCall := WasOnCall state;
     LastAdvanceNotificationSent := Some now |}.

(** The dedup guard of [ShouldSendAdvanceNotification] as a
    proposition, on the duration the code computes. *)
Definition cooldown_over (now : Time) (st : State) : Prop :=
  LastAdvanceNotificationSent st = None \/
  exists last, LastAdvanceNotificationSent st = Some last /\
               24 * Hour <= Sub now last.

(** *** The persisted record

    [State] as [encoding/json] sees it: two named fields, the second
    one [omitempty] and holding a [time.Time], which writes and reads
    itself ([MarshalJSON], [UnmarshalJSON]). *)

Inductive field : Set :=
| F_WasOnCall
| F_LastAdvanceNotificationSent.

Definition fields : list (string * field) :=
  [ ("was_on_call"%string, F_WasOnCall);
    ("last_advance_notification_sent"%string,
     F_LastAdvanceNotificationSent) ].

(** [Time.MarshalJSON]: the timestamp is written for the time's
    location and refused when its year does not take four digits or
    the hours of its zone offset are 24 or more. *)
Definition Time_MarshalJSON (t : Time) : result json.value :=
  let y := Year t in
  if (y <? 0) || (10000 <=? y)
  then Err "Time.MarshalJSON: year outside of range [0,9999]"
  else if 24 <=? Z.abs (zone t) / 60
  then Err "Time.MarshalJSON: timezone hour outside of range [0,23]"
  else Ok (json.JString (formatRFC3339Nano t)).

Definition encode (state : State) : result json.value :=
  match LastAdvanceNotificationSent state with
  | None =>
      Ok (json.JObject
            [ ("was_on_call"%string, json.JBool (WasOnCall state)) ])
  | Some t =>
      match Time_MarshalJSON t with
      | Err e =>
          Err (wrap "json: error calling MarshalJSON for type *time.Time" e)
      | Ok ts =>
          Ok (json.JObject
                [ ("was_on_call"%string, json.JBool (WasOnCall state));
                  ("last_advance_notification_sent"%string, ts) ])
      end
  end.

(** [json.MarshalIndent] of the state, with an empty prefix and an
    indent of two spaces. *)
Definition MarshalIndent (state : State) : result string :=
  v <- encode state ;; Ok (json.render 0 v).

(** One member of the object read into the struct: a key that names
    no field is skipped; [null] leaves a [bool] as it is and clears a
    pointer. *)
Definition decodeMember (state : State) (key : string) (v : json.value)
  : result State :=
  match json.fieldFor fields (json.unquote key) with
  | None => Ok state
  | Some F_WasOnCall =>
      match v with
      | json.JBool b =>
          Ok {| WasOnCall := b;
                LastAdvanceNotificationSent :=
                  LastAdvanceNotificationSent state |}
      | json.JNull => Ok state
      | _ =>
          Err "json: cannot unmarshal into Go struct field State.was_on_call of type bool"
      end
  | Some F_LastAdvanceNotificationSent =>
      match v with
      | json.JNull =>
          Ok {| WasOnCall := WasOnCall state;
                LastAdvanceNotificationSent := None |}
      | json.JString raw =>
          match parseRFC3339 raw with
          | Some t =>
              Ok {| WasOnCall := WasOnCall state;
                    LastAdvanceNotificationSent := Some t |}
          | None => Err "parsing time: not an RFC 3339 timestamp"
          end
      | _ => Err "Time.UnmarshalJSON: input is not a JSON string"
      end
  end.

Fixpoint decodeMembers (state : State) (ms : list (string * json.value))
  : result State :=
  match ms with
  | [] => Ok state
  | (key, v) :: ms' =>
      state' <- decodeMember state key v ;; decodeMembers state' ms'
  end.

(** The value read into [var state State]. *)
Definition decode (v : json.value) : result State :=
  match v with
  | json.JNull => Ok defaultState
  | json.JObject ms => decodeMembers defaultState ms
  | _ => Err "json: cannot unmarshal into Go value of type state.State"
  end.

(** [json.Unmarshal(data, &state)] *)
Definition Unmarshal (data : string) : result State :=
  v <- json.parse data ;; decode v.

(** A state [Save] can write: its timestamp, when there is one, has
    a year of four digits on the calendar of its location and a zone
    offset under 24 hours, which is what [Time.MarshalJSON] asks. *)
Definition marshalable (st : State) : Prop :=
  match LastAdvanceNotificationSent st with
  | Some t => 0 <= Year t <= 9999 /\ Z.abs (zone t) / 60 < 24
  | None => True
  end.

(** *** The manager *)

(** [Load] loads the state from disk, returning default state if the
    file doesn't exist. *)
Definition Load (file : os.node) : result State :=
  if os.IsNotExist (os.Stat file) then Ok defaultState
  else
    match os.ReadFile file with
    | Err err => Err (wrap "failed to read state file" err)
    | Ok data =>
        match Unmarshal data with
        | Err err => Err (wrap "failed to unmarshal state" err)
        | Ok state => Ok state
        end
    end.

(** [Save] persists the state to disk: what is at the path afterwards,
    and the error returned. *)
Definition Save (io : os.outcome) (file : os.node) (state : State)
  : os.node * error :=
  match os.MkdirAll io with
  | Some err => (file, Some (wrap "failed to create state directory" err))
  | None =>
      match MarshalIndent state with
      | Err err => (file, Some (wrap "failed to marshal state" err))
      | Ok data =>
          match os.WriteFile io file data with
          | (file', Some err) =>
              (file', Some (wrap "failed to write state file" err))
          | (file', None) => (file', None)
          end
      end
  end.

End state.

(** ** Package [notifier]: the events handed to a backend *)

Module notifier.

Inductive NotificationEvent : Set :=
| EventShiftStarted
| EventUpcomingShift
| EventShiftEnded.

End notifier.

(** ** Package [pagerduty]: what the client hands back *)

Module pagerduty.

Record UpcomingShift : Set := mkUpcomingShift {
  StartTime : GoTime.Time;
  EndTime : GoTime.Time
}.

End pagerduty.

(** ** Package [config]: the one setting the loop reads *)

Module config.

Record Config : Set := mkConfig {
  AdvanceNotificationTime : GoTime.Duration
}.

End config.

(** ** The polling loop ([cmd/notifier/main.go])

    The loop body talks to four collaborators: the PagerDuty client,
    the notifier, the clock and the file system.  A [Tick] holds what
    each of them answers during one iteration, one field per call
    site; a call the iteration does not reach leaves its field unread.
    What the iteration asks of the notifier and of [Save] is logged as
    a list of [call]s.  Log lines are left out. *)

Module main.
Import GoTime state notifier pagerduty config.

Record Tick : Type := mkTick {
  (** [pdClient.IsOnCall(ctx)] *)
  isOnCall : result bool;
  (** [pdClient.GetUpcomingShift(ctx)] *)
  upcomingShift : result (option UpcomingShift);
  (** the clock inside [ShouldSendAdvanceNotification] *)
  nowCheck : Time;
  (** [n.NotifyWithEvent(EventUpcomingShift, ...)] *)
  notifyUpcoming : error;
  (** the clock inside [RecordAdvanceNotificationSent] *)
  nowRecord : Time;
  (** the clock read for the shift-started event *)
  nowStarted : Time;
  (** [n.NotifyWithEvent(EventShiftStarted, ...)] *)
  notifyStarted : error;
  (** the file system during [stateManager.Save] *)
  saveIO : os.outcome
}.

Inductive call : Type :=
| NotifyWithEvent (event : NotificationEvent) (shiftStartTime : Time)
    (err : error)
| SaveState (written : State) (err : error).

(** The loop's variables: the state object [currentState] points to,
    what is at the state file's path, and the calls made so far. *)
Record Loop : Type := mkLoop {
  currentState : State;
  stateFile : os.node;
  calls : list call
}.

(** "Check for upcoming shifts if advance notification is enabled":
    the state after the block and the calls it made. *)
Definition advanceStep (cfg : Config) (tk : Tick) (currentState : State)
  : State * list call :=
  if AdvanceNotificationTime cfg >? 0 then
    match upcomingShift tk with
    | Err _ => (currentState, [])
    | Ok (Some shift) =>
        if ShouldSendAdvanceNotification (nowCheck tk) currentState
             (StartTime shift) (AdvanceNotificationTime cfg)
        then
          let event := EventUpcomingShift in
          match notifyUpcoming tk with
          | Some err =>
              (currentState,
               [NotifyWithEvent event (StartTime shift) (Some err)])
          | None =>
              (RecordAdvanceNotificationSent (nowRecord tk) currentState,
               [NotifyWithEvent event (StartTime shift) None])
          end
        else (currentState, [])
    | Ok None => (currentState, [])
    end
  else (currentState, []).

(** "Check for transition to on-call" *)
Definition shiftStartedStep (tk : Tick) (currentState : State)
    (isOnCall : bool) : list call :=
  if HasTransitionToOnCall currentState isOnCall then
    let event := EventShiftStarted in
    [NotifyWithEvent event (nowStarted tk) (notifyStarted tk)]
  else [].

(** One iteration of the [case <-ticker.C] branch. *)
Definition pollCycle (cfg : Config) (tk : Tick) (l : Loop) : Loop :=
  match isOnCall tk with
  | Err _ => l
  | Ok isOnCall =>
      let '(state1, calls1) := advanceStep cfg tk (currentState l) in
      let calls2 := shiftStartedStep tk state1 isOnCall in
      let state2 :=
        {| WasOnCall := isOnCall;
           LastAdvanceNotificationSent :=
             LastAdvanceNotificationSent state1 |} in
      let '(file', err) := Save (saveIO tk) (stateFile l) state2 in
      {| currentState := state2;
         stateFile := file';
         calls := calls l ++ calls1 ++ calls2 ++ [SaveState state2 err] |}
  end.

Definition pollCycles (cfg : Config) (ticks : list Tick) (l : Loop) : Loop :=
  fold_left (fun l tk => pollCycle cfg tk l) ticks l.

(** [runPollingLoop], for the ticks that fire before [ctx.Done()]:
    the error returned, or the loop's variables when it returns
    [nil]. *)
Definition runPollingLoop (cfg : Config) (file : os.node)
    (ticks : list Tick) : result Loop :=
  match Load file with
  | Err err => Err (wrap "failed to load initial state" err)
  | Ok currentState =>
      Ok (pollCycles cfg ticks
            {| currentState := currentState;
               stateFile := file;
               calls := [] |})
  end.

(** *** Reading the log of calls *)

Definition isShiftStarted (c : call) : bool :=
  match c with
  | NotifyWithEvent EventShiftStarted _ _ => true
  | _ => false
  end.

Definition shiftStartedCount (cs : list call) : nat :=
  List.length (filter isShiftStarted cs).

(** The dedup markers of the states handed to [Save], oldest first. *)
Fixpoint savedMarkers (cs : list call) : list (option Time) :=
  match cs with
  | [] => []
  | SaveState written _ :: cs' =>
      LastAdvanceNotificationSent written :: savedMarkers cs'
  | _ :: cs' => savedMarkers cs'
  end.

(** A marker that is present stays present and does not move back. *)
Definition marker_le (a b : option Time) : Prop :=
  match a with
  | None => True
  | Some t => exists t', b = Some t' /\ nanos t <= nanos t'
  end.

(** What the run keeps true: the markers handed to [Save] so far are in
    order, and none is past the marker of the loop's state. *)
Definition markers_in_order (l : Loop) : Prop :=
  StronglySorted marker_le (savedMarkers (calls l))
  /\ Forall
       (fun m => marker_le m (LastAdvanceNotificationSent (currentState l)))
       (savedMarkers (calls l)).

End main.

(** ** The shift-ended transition

    [internal/state/manager_test.go] calls [HasTransitionToOffCall]
    and [notifier.go] declares [EventShiftEnded]; the manager and the
    loop under study do not hold the code behind them. *)

Module spec.
Import GoTime state notifier.

(** Modelled from the spec: [Manager.HasTransitionToOffCall], missing
    from the manager's source; "true iff [previous.wasOnCall == true
    && currentlyOnCall == false]". *)
Definition HasTransitionToOffCall
    (previousState : State) (currentlyOnCall : bool) : bool :=
  WasOnCall previousState && negb currentlyOnCall.

(** Modelled from the spec: the loop's shift-ended block, missing from
    the loop's source; the transition triggers "the shift ended event
    when that feature is enabled", and the event is delivered through
    the sink like the shift-started one.  [enabled] is the feature's
    switch, [now] the clock reading passed along and [err] the sink's
    answer. *)
Definition shiftEndedStep (enabled : bool) (now : Time) (err : error)
    (currentState : State) (isOnCall : bool) : list main.call :=
  if enabled && HasTransitionToOffCall currentState isOnCall then
    [main.NotifyWithEvent EventShiftEnded now err]
  else [].

End spec.

(** ** Package [pagerduty]: the client ([internal/pagerduty/client.go])

    The PagerDuty API is a collaborator: what
    [ListOnCallsWithContext] returns is an input.  Of an entry of
    [response.OnCalls] the client reads the user's id and the two
    timestamps. *)

Module client.
Import GoTime pagerduty.

Record OnCall : Set := mkOnCall {
  User_ID : string;
  Start : string;
  End' : string
}.

Record ListOnCallOptions : Set := mkListOnCallOptions {
  ScheduleIDs : list string;
  Since : string;
  Until : string
}.

(** [t.After(u)] and [t.Before(u)], on times without monotonic
    reading. *)
Definition After (t u : Time) : bool := nanos u <? nanos t.
Definition Before (t u : Time) : bool := nanos t <? nanos u.

(** The loop of [IsOnCall] over [response.OnCalls]. *)
Fixpoint anyOnCall (userID : string) (onCalls : list OnCall) : bool :=
  match onCalls with
  | [] => false
  | oncall :: rest =>
      if String.eqb (User_ID oncall) userID then true
      else anyOnCall userID rest
  end.

(** [IsOnCall]: [response] is the API's answer. *)
Definition IsOnCall (userID : string) (response : result (list OnCall))
  : result bool :=
  match response with
  | Err err => Err (wrap "failed to fetch on-call status" err)
  | Ok onCalls => Ok (anyOnCall userID onCalls)
  end.

(** *** What [GetUpcomingShift] asks for *)







(** The options of the request in [IsOnCall] and in
    [GetUpcomingShift]; [now] is the clock read at the top of the
    latter. *)
Definition onCallOptions (scheduleID : string) : ListOnCallOptions :=
  {| ScheduleIDs := [scheduleID];
     Since := EmptyString;
     Until := EmptyString |}.


(** *** What [GetUpcomingShift] makes of the answer *)

Section GetUpcomingShift.

(** [time.Parse(time.RFC3339, _)], of which the client only asks
    whether it failed. *)
Variable Parse_RFC3339 : string -> option Time.

(** The loop over [response.OnCalls]; [nextShift] is the variable of
    that name. *)
Fixpoint nextShiftLoop (userID : string) (now : Time)
    (nextShift : option UpcomingShift) (onCalls : list OnCall)
  : option UpcomingShift :=
  match onCalls with
  | [] => nextShift
  | oncall :: rest =>
      match Parse_RFC3339 (Start oncall) with
      | None => nextShiftLoop userID now nextShift rest
      | Some startTime =>
          if String.eqb (User_ID oncall) userID && After startTime now then
            match Parse_RFC3339 (End' oncall) with
            | None => nextShiftLoop userID now nextShift rest
            | Some endTime =>
                let shift :=
                  {| StartTime := startTime; EndTime := endTime |} in
                match nextShift with
                | None => nextShiftLoop userID now (Some shift) rest
                | Some current =>
                    if Before (StartTime shift) (StartTime current)
                    then nextShiftLoop userID now (Some shift) rest
                    else nextShiftLoop userID now nextShift rest
                end
            end
          else nextShiftLoop userID now nextShift rest
      end
  end.

Definition GetUpcomingShift (userID : string) (now : Time)
    (response : result (list OnCall)) : result (option UpcomingShift) :=
  match response with
  | Err err => Err (wrap "failed to fetch upcoming shifts" err)
  | Ok onCalls => Ok (nextShiftLoop userID now None onCalls)
  end.

(** An entry the loop takes into account, with its two times. *)
Definition candidate (userID : string) (now : Time) (oncall : OnCall)
    (shift : UpcomingShift) : Prop :=
  Parse_RFC3339 (Start oncall) = Some (StartTime shift)
  /\ User_ID oncall = userID
  /\ nanos now < nanos (StartTime shift)
  /\ Parse_RFC3339 (End' oncall) = Some (EndTime shift).

(** What the loop has found after a part of the response: [found] is
    at least as early as every candidate of that part and as the
    shift the loop started with, and is one of them. *)
Definition earliest_of (userID : string) (now : Time)
    (start : option UpcomingShift) (part : list OnCall)
    (found : option UpcomingShift) : Prop :=
  match found with
  | None =>
      start = None
      /\ forall oncall shift, In oncall part -> ~ candidate userID now oncall shift
  | Some shift =>
      (start = Some shift
       \/ exists oncall, In oncall part /\ candidate userID now oncall shift)
      /\ (forall oncall shift',
             In oncall part -> candidate userID now oncall shift' ->
             nanos (StartTime shift) <= nanos (StartTime shift'))
      /\ (forall s, start = Some s ->
                    nanos (StartTime shift) <= nanos (StartTime s))
  end.

End GetUpcomingShift.

End client.

(** ** Package [strconv]: [Atoi] *)

Module strconv.

Definition maxInt : Z := 2 ^ 63 - 1.
Definition minInt : Z := - 2 ^ 63.

(** The value of a run of decimal digits, or nothing when a byte is
    not a digit. *)
Fixpoint digitsValue (acc : Z) (s : string) : option Z :=
  match s with
  | EmptyString => Some acc
  | String c s' =>
      if isDigit c then digitsValue (acc * 10 + digitVal c) s' else None
  end.

(** [Atoi]: an optional sign and one decimal digit at least, in base
    ten, within the range of [int] (64 bits).  Of the error the text
    keeps the function and the reason and leaves out the quoted
    input. *)
Definition Atoi (s : string) : result Z :=
  let '(neg, body) :=
    match s with
    | String "-" s' => (true, s')
    | String "+" s' => (false, s')
    | _ => (false, s)
    end in
  match body with
  | EmptyString => Err "strconv.Atoi: invalid syntax"
  | _ =>
      match digitsValue 0 body with
      | None => Err "strconv.Atoi: invalid syntax"
      | Some u =>
          let n := if neg then - u else u in
          if (n <? minInt) || (maxInt <? n)
          then Err "strconv.Atoi: value out of range"
          else Ok n
      end
  end.

End strconv.

(** ** Package [config] ([internal/config/config.go])

    The whole [Config] and [Load].  The environment is the function
    [os.Getenv] computes (the empty string for a variable that is not
    set); [time.ParseDuration] is taken as given. *)

Module configload.
Import GoTime.
Local Open Scope string_scope.
Local Open Scope Z_scope.

Definition NotificationBackendName := string.

Definition BackendWebhook : NotificationBackendName := "webhook".
Definition BackendNtfy : NotificationBackendName := "ntfy".

Record Config : Set := mkConfig {
  PagerDutyAPIToken : string;
  PagerDutyScheduleID : string;
  PagerDutyUserID : string;
  CheckInterval : Duration;
  AdvanceNotificationTime : Duration;
  NotificationBackend : NotificationBackendName;
  NotificationWebhookURL : string;
  NtfyServerURL : string;
  NtfyTopic : string;
  NtfyAPIKey : string;
  StateFilePath : string
}.

(** [int64] multiplication keeps the low 64 bits. *)
Definition wrap64 (z : Z) : Z := (z + 2 ^ 63) mod 2 ^ 64 - 2 ^ 63.

Definition isEmpty (s : string) : bool :=
  match s with
  | EmptyString => true
  | String _ _ => false
  end.

(** The settings of the chosen backend, in the order of the fields
    [NotificationWebhookURL], [NtfyServerURL], [NtfyTopic],
    [NtfyAPIKey]. *)
Definition backendSettings (Getenv : string -> string)
    (backend : NotificationBackendName)
  : result (string * string * string * string) :=
  if String.eqb backend BackendWebhook then
    let url := Getenv "NOTIFICATION_WEBHOOK_URL" in
    if isEmpty url then
      Err "NOTIFICATION_WEBHOOK_URL environment variable is required when using webhook backend"
    else Ok (url, EmptyString, EmptyString, EmptyString)
  else if String.eqb backend BackendNtfy then
    let server := Getenv "NTFY_SERVER_URL" in
    if isEmpty server then
      Err "NTFY_SERVER_URL environment variable is required when using ntfy backend"
    else
      let topic := Getenv "NTFY_TOPIC" in
      if isEmpty topic then
        Err "NTFY_TOPIC environment variable is required when using ntfy backend"
      else Ok (EmptyString, server, topic, Getenv "NTFY_API_KEY")
  else Ok (EmptyString, EmptyString, EmptyString, EmptyString).

(** "Optional: Check Interval (default: 300 seconds / 5 minutes)" *)
Definition checkInterval (Getenv : string -> string) : result Duration :=
  let checkIntervalStr := Getenv "CHECK_INTERVAL" in
  if isEmpty checkIntervalStr then Ok (5 * Minute)
  else
    match strconv.Atoi checkIntervalStr with
    | Err err => Err (wrap "CHECK_INTERVAL must be a valid integer" err)
    | Ok interval =>
        if interval <=? 0 then Err "CHECK_INTERVAL must be greater than 0"
        else Ok (wrap64 (interval * Second))
    end.

(** "Optional: Advance Notification Time (default: disabled/0 if not
    set)" *)
Definition advanceNotificationTime (Getenv : string -> string)
    (ParseDuration : string -> result Duration) : result Duration :=
  let advanceTimeStr := Getenv "ADVANCE_NOTIFICATION_TIME" in
  if isEmpty advanceTimeStr then Ok 0
  else
    match ParseDuration advanceTimeStr with
    | Err err =>
        Err (wrap
               "ADVANCE_NOTIFICATION_TIME must be a valid duration (e.g., '2h', '30m', '1h30m')"
               err)
    | Ok advanceTime =>
        if advanceTime <=? 0
        then Err "ADVANCE_NOTIFICATION_TIME must be greater than 0"
        else Ok advanceTime
    end.

(** [Load] loads configuration from environment variables. *)
Definition Load (Getenv : string -> string)
    (ParseDuration : string -> result Duration) : result Config :=
  let token := Getenv "PD_API_TOKEN" in
  if isEmpty token then Err "PD_API_TOKEN environment variable is required"
  else
  let scheduleID := Getenv "PD_SCHEDULE_ID" in
  if isEmpty scheduleID
  then Err "PD_SCHEDULE_ID environment variable is required"
  else
  let userID := Getenv "PD_USER_ID" in
  if isEmpty userID then Err "PD_USER_ID environment variable is required"
  else
  let backendStr := Getenv "NOTIFICATION_BACKEND" in
  if isEmpty backendStr then
    Err "NOTIFICATION_BACKEND environment variable is required (must be 'webhook' or 'ntfy')"
  else
  if negb (String.eqb backendStr BackendWebhook)
     && negb (String.eqb backendStr BackendNtfy)
  then
    Err ("NOTIFICATION_BACKEND must be 'webhook' or 'ntfy', got: "
         ++ backendStr)
  else
  match backendSettings Getenv backendStr with
  | Err err => Err err
  | Ok (webhookURL, ntfyServerURL, ntfyTopic, ntfyAPIKey) =>
      interval <- checkInterval Getenv ;;
      advance <- advanceNotificationTime Getenv ParseDuration ;;
      let stateFilePath := Getenv "STATE_FILE_PATH" in
      Ok {| PagerDutyAPIToken := token;
            PagerDutyScheduleID := scheduleID;
            PagerDutyUserID := userID;
            CheckInterval := interval;
            AdvanceNotificationTime := advance;
            NotificationBackend := backendStr;
            NotificationWebhookURL := webhookURL;
            NtfyServerURL := ntfyServerURL;
            NtfyTopic := ntfyTopic;
            NtfyAPIKey := ntfyAPIKey;
            StateFilePath :=
              if isEmpty stateFilePath then "/data/state.json"
              else stateFilePath |}
  end.

(** What [runPollingLoop] reads of the configuration. *)
Definition forLoop (cfg : Config) : config.Config :=
  {| config.AdvanceNotificationTime := AdvanceNotificationTime cfg |}.

End configload.

(** ** Runs of the loop: what the ticks show and what the log holds *)

Module runs.
Import GoTime state notifier pagerduty config main.

(** The ticks on which PagerDuty answered, and what it answered. *)
Definition answered (tk : Tick) : bool :=
  match isOnCall tk with
  | Ok _ => true
  | Err _ => false
  end.

Fixpoint observations (ticks : list Tick) : list bool :=
  match ticks with
  | [] => []
  | tk :: ticks' =>
      match isOnCall tk with
      | Ok b => b :: observations ticks'
      | Err _ => observations ticks'
      end
  end.

(** The changes from off call to on call in a sequence of
    observations that starts after [previous]. *)
Fixpoint risingEdges (previous : bool) (obs : list bool) : nat :=
  match obs with
  | [] => O
  | b :: obs' =>
      ((if negb previous && b then 1 else 0) + risingEdges b obs')%nat
  end.

Definition isUpcomingShift (c : call) : bool :=
  match c with
  | NotifyWithEvent EventUpcomingShift _ _ => true
  | _ => false
  end.

Definition isSave (c : call) : bool :=
  match c with
  | SaveState _ _ => true
  | NotifyWithEvent _ _ _ => false
  end.

(** The calls to the notifier, in order. *)
Definition notifications (cs : list call) : list call :=
  filter (fun c => negb (isSave c)) cs.

(** The error of the last [Save] of the log; [nil] when there was no
    [Save]. *)
Fixpoint lastSaveError (cs : list call) (sofar : error) : error :=
  match cs with
  | [] => sofar
  | SaveState _ err :: cs' => lastSaveError cs' err
  | NotifyWithEvent _ _ _ :: cs' => lastSaveError cs' sofar
  end.

(** Two ticks with the same answers from PagerDuty, the notifier and
    the clock, on file systems that may differ. *)
Definition sameButSaveIO (tk tk' : Tick) : Prop :=
  isOnCall tk = isOnCall tk'
  /\ upcomingShift tk = upcomingShift tk'
  /\ nowCheck tk = nowCheck tk'
  /\ notifyUpcoming tk = notifyUpcoming tk'
  /\ nowRecord tk = nowRecord tk'
  /\ nowStarted tk = nowStarted tk'
  /\ notifyStarted tk = notifyStarted tk'.

(** A marker that is present is followed by itself or by one a full
    cooldown later. *)
Definition cooldown_apart (a b : option Time) : Prop :=
  match a with
  | None => True
  | Some ta =>
      exists tb,
        b = Some tb /\ (tb = ta \/ nanos ta + 24 * Hour <= nanos tb)
  end.

(** The states handed to [Save], oldest first. *)
Fixpoint savedStates (cs : list call) : list State :=
  match cs with
  | [] => []
  | SaveState written _ :: cs' => written :: savedStates cs'
  | NotifyWithEvent _ _ _ :: cs' => savedStates cs'
  end.

(** The loop's variables with earlier calls put before its log. *)
Definition prepend (earlier : list call) (l : Loop) : Loop :=
  {| currentState := currentState l;
     stateFile := stateFile l;
     calls := earlier ++ calls l |}.

End runs.

(** ** Sample inputs

    An instant, a state with a marker, and two ticks of a run in which
    every collaborator answers and every delivery succeeds. *)

Module sample.
Import GoTime state notifier pagerduty config main.

(** 2026-10-30T22:40:00.123456Z *)
Definition t0 : Time := Instant 1793400000123456000.

Definition later (t : Time) (d : Duration) : Time := Instant (nanos t + d).

(** Dates of the Gregorian calendar and their Unix time in seconds. *)
Definition referenceDates : list (Z * string) :=
  [ (-62167219200, "0000-01-01T00:00:00Z"%string);
    (-62135596800, "0001-01-01T00:00:00Z"%string);
    (-11670998400, "1600-02-29T00:00:00Z"%string);
    (-2203891200, "1900-03-01T00:00:00Z"%string);
    (-1, "1969-12-31T23:59:59Z"%string);
    (0, "1970-01-01T00:00:00Z"%string);
    (951782400, "2000-02-29T00:00:00Z"%string);
    (1612137599, "2021-01-31T23:59:59Z"%string);
    (1614513600, "2021-02-28T12:00:00Z"%string);
    (1614556800, "2021-03-01T00:00:00Z"%string);
    (1619740800, "2021-04-30T00:00:00Z"%string);
    (1622419200, "2021-05-31T00:00:00Z"%string);
    (1622505600, "2021-06-01T00:00:00Z"%string);
    (1625356800, "2021-07-04T00:00:00Z"%string);
    (1627776000, "2021-08-01T00:00:00Z"%string);
    (1633042800, "2021-09-30T23:00:00Z"%string);
    (1633046400, "2021-10-01T00:00:00Z"%string);
    (1635724800, "2021-11-01T00:00:00Z"%string);
    (1640995199, "2021-12-31T23:59:59Z"%string);
    (1709186828, "2024-02-29T06:07:08Z"%string);
    (1709251200, "2024-03-01T00:00:00Z"%string);
    (1735603200, "2024-12-31T00:00:00Z"%string);
    (4107456000, "2100-02-28T00:00:00Z"%string);
    (4107542400, "2100-03-01T00:00:00Z"%string);
    (253402300799, "9999-12-31T23:59:59Z"%string) ].

Definition marked : State :=
  {| WasOnCall := true; LastAdvanceNotificationSent := Some t0 |}.

Definition cfg1 : Config := {| AdvanceNotificationTime := Hour |}.

Definition shift1 : UpcomingShift :=
  {| StartTime := later t0 (30 * Minute); EndTime := later t0 (9 * Hour) |}.

(** A tick on which PagerDuty answers "on call" and a shift starting
    in half an hour, every delivery succeeds and the write goes
    through; and the tick five minutes later. *)
Definition tick1 : Tick :=
  {| isOnCall := Ok true;
     upcomingShift := Ok (Some shift1);
     nowCheck := t0;
     notifyUpcoming := None;
     nowRecord := later t0 Second;
     nowStarted := later t0 (2 * Second);
     notifyStarted := None;
     saveIO := os.Written |}.

Definition tick2 : Tick :=
  {| isOnCall := Ok true;
     upcomingShift := Ok (Some shift1);
     nowCheck := later t0 (5 * Minute);
     notifyUpcoming := None;
     nowRecord := later t0 (5 * Minute + Second);
     nowStarted := later t0 (5 * Minute + 2 * Second);
     notifyStarted := None;
     saveIO := os.Written |}.

Definition loop0 : Loop :=
  {| currentState := defaultState; stateFile := os.Absent; calls := [] |}.

End sample.

(** ** A longer run, a roster and two environments

    Six ticks of a run in which PagerDuty answers "off call", then "on
    call", fails once, and in which one write of the state fails; the
    same ticks on a file system that takes no write; a response of the
    PagerDuty API; the environment of a deployment with the [ntfy]
    backend and one with the [webhook] backend and the defaults. *)

Module scenario.
Import GoTime state notifier pagerduty config main sample.

Definition tickAt (answer : result bool) (minutes : Z) (io : os.outcome)
  : Tick :=
  {| isOnCall := answer;
     upcomingShift := Ok (Some shift1);
     nowCheck := later t0 (minutes * Minute);
     notifyUpcoming := None;
     nowRecord := later t0 (minutes * Minute + Second);
     nowStarted := later t0 (minutes * Minute + 2 * Second);
     notifyStarted := None;
     saveIO := io |}.

Definition day : list Tick :=
  [ tickAt (Ok false) 0 os.Written;
    tickAt (Ok true) 5 os.Written;
    tickAt (Err "failed to fetch on-call status: timeout") 10 os.Written;
    tickAt (Ok true) 15 (os.WriteFileFails "no space left on device" os.Absent);
    tickAt (Ok false) 20 os.Written;
    tickAt (Ok true) 25 os.Written ].

Definition onReadOnlyDisk (tk : Tick) : Tick :=
  {| isOnCall := isOnCall tk;
     upcomingShift := upcomingShift tk;
     nowCheck := nowCheck tk;
     notifyUpcoming := notifyUpcoming tk;
     nowRecord := nowRecord tk;
     nowStarted := nowStarted tk;
     notifyStarted := notifyStarted tk;
     saveIO := os.MkdirAllFails "read-only file system" |}.

Definition cfgOff : Config := {| AdvanceNotificationTime := 0 |}.

(** The loop after [tick1], where a run may stop. *)
Definition stopped : Loop := pollCycle cfg1 tick1 loop0.

(** A response of the API: an entry of somebody else, a shift of the
    user that has started, two that have not, one with a timestamp
    that does not parse. *)
Definition roster : list client.OnCall :=
  [ client.mkOnCall "PCOLLEAGUE" "2026-10-30T23:00:00Z" "2026-10-31T09:00:00Z";
    client.mkOnCall "PUSER01" "2026-10-29T09:00:00Z" "2026-10-30T09:00:00Z";
    client.mkOnCall "PUSER01" "2026-11-02T10:00:00+01:00"
      "2026-11-03T10:00:00+01:00";
    client.mkOnCall "PUSER01" "2026-10-31T09:00:00Z" "2026-11-01T09:00:00Z";
    client.mkOnCall "PUSER01" "tomorrow" "2026-10-31T09:00:00Z" ]%string.

Definition nextOnRoster : UpcomingShift :=
  {| StartTime := Instant 1793437200000000000;
     EndTime := Instant 1793523600000000000 |}.

(** An environment as a list of variables; a variable that is not
    listed reads as the empty string. *)
Definition environ (vars : list (string * string)) (name : string)
  : string :=
  match find (fun p => String.eqb (fst p) name) vars with
  | Some p => snd p
  | None => EmptyString
  end.

Definition ntfyEnv : string -> string :=
  environ
    [ ("PD_API_TOKEN", "y_NbAkKc66ryYTWUXYEu");
      ("PD_SCHEDULE_ID", "PSCHED1");
      ("PD_USER_ID", "PUSER01");
      ("NOTIFICATION_BACKEND", "ntfy");
      ("NTFY_SERVER_URL", "https://ntfy.example.org");
      ("NTFY_TOPIC", "oncall");
      ("CHECK_INTERVAL", "60");
      ("ADVANCE_NOTIFICATION_TIME", "2h") ]%string.

Definition webhookEnv : string -> string :=
  environ
    [ ("PD_API_TOKEN", "y_NbAkKc66ryYTWUXYEu");
      ("PD_SCHEDULE_ID", "PSCHED1");
      ("PD_USER_ID", "PUSER01");
      ("NOTIFICATION_BACKEND", "webhook");
      ("NOTIFICATION_WEBHOOK_URL", "https://hooks.example.org/oncall") ]%string.

(** The durations of the samples, as [time.ParseDuration] reads
    them. *)
Definition sampleDurations (s : string) : result Duration :=
  if String.eqb s "2h" then Ok (2 * Hour)
  else if String.eqb s "30m" then Ok (30 * Minute)
  else Err ("time: invalid duration " ++ s).

Definition fromNtfyEnv : configload.Config :=
  {| configload.PagerDutyAPIToken := "y_NbAkKc66ryYTWUXYEu";
     configload.PagerDutyScheduleID := "PSCHED1";
     configload.PagerDutyUserID := "PUSER01";
     configload.CheckInterval := 60 * Second;
     configload.AdvanceNotificationTime := 2 * Hour;
     configload.NotificationBackend := configload.BackendNtfy;
     configload.NotificationWebhookURL := EmptyString;
     configload.NtfyServerURL := "https://ntfy.example.org";
     configload.NtfyTopic := "oncall";
     configload.NtfyAPIKey := EmptyString;
     configload.StateFilePath := "/data/state.json" |}.

Definition fromWebhookEnv : configload.Config :=
  {| configload.PagerDutyAPIToken := "y_NbAkKc66ryYTWUXYEu";
     configload.PagerDutyScheduleID := "PSCHED1";
     configload.PagerDutyUserID := "PUSER01";
     configload.CheckInterval := 5 * Minute;
     configload.AdvanceNotificationTime := 0;
     configload.NotificationBackend := configload.BackendWebhook;
     configload.NotificationWebhookURL := "https://hooks.example.org/oncall";
     configload.NtfyServerURL := EmptyString;
     configload.NtfyTopic := EmptyString;
     configload.NtfyAPIKey := EmptyString;
     configload.StateFilePath := "/data/state.json" |}.

Definition overflowEnv (name : string) : string :=
  if String.eqb name "CHECK_INTERVAL" then "9223372037"%string
  else webhookEnv name.

Definition fromOverflowEnv : configload.Config :=
  {| configload.PagerDutyAPIToken := "y_NbAkKc66ryYTWUXYEu";
     configload.PagerDutyScheduleID := "PSCHED1";
     configload.PagerDutyUserID := "PUSER01";
     configload.CheckInterval := 9223372037 * Second - 2 ^ 64;
     configload.AdvanceNotificationTime := 0;
     configload.NotificationBackend := configload.BackendWebhook;
     configload.NotificationWebhookURL := "https://hooks.example.org/oncall";
     configload.NtfyServerURL := EmptyString;
     configload.NtfyTopic := EmptyString;
     configload.NtfyAPIKey := EmptyString;
     configload.StateFilePath := "/data/state.json" |}.

End scenario.

(** * Properties *)

(** ** Facts about [time] *)

Section TimeFacts.
Import GoTime.

Lemma Time_ext (t u : Time) :
  nanos t = nanos u -> zone t = zone u -> t = u.
Proof. destruct t, u; cbn [nanos zone]; congruence. Qed.

Lemma Hour_value : Hour = 3600000000000.
Proof. reflexivity. Qed.

Lemma day_is_a_Duration : minDuration < 24 * Hour <= maxDuration.
Proof. rewrite Hour_value. unfold minDuration, maxDuration. lia. Qed.

Lemma Sub_cases (t u : Time) :
  let d := nanos t - nanos u in
  (d < minDuration /\ Sub t u = minDuration) \/
  (maxDuration < d /\ Sub t u = maxDuration) \/
  (minDuration <= d <= maxDuration /\ Sub t u = d).
Proof.
  unfold Sub; cbv zeta.
  destruct (Z.ltb_spec (nanos t - nanos u) minDuration); [ now left | ].
  destruct (Z.ltb_spec maxDuration (nanos t - nanos u)).
  - right; left; now split.
  - right; right; split; [ lia | reflexivity ].
Qed.

Lemma Sub_range (t u : Time) : minDuration <= Sub t u <= maxDuration.
Proof.
  destruct (Sub_cases t u) as [[? ->] | [[? ->] | [? ->]]];
    unfold minDuration, maxDuration in *; lia.
Qed.

(** Saturation never moves a difference across a threshold that is
    itself a [Duration]. *)
Lemma Sub_le_iff (t u : Time) (c : Z) :
  minDuration <= c < maxDuration ->
  (Sub t u <= c <-> nanos t - nanos u <= c).
Proof.
  intros Hc.
  destruct (Sub_cases t u) as [[? ->] | [[? ->] | [? ->]]];
    unfold minDuration, maxDuration in *; lia.
Qed.

Lemma Sub_lt_iff (t u : Time) (c : Z) :
  minDuration < c <= maxDuration ->
  (Sub t u < c <-> nanos t - nanos u < c).
Proof.
  intros Hc.
  destruct (Sub_cases t u) as [[? ->] | [[? ->] | [? ->]]];
    unfold minDuration, maxDuration in *; lia.
Qed.

End TimeFacts.

(** ** The transition and scheduling engine *)

Section Engine.
Import GoTime state.

Lemma cooldown_check (now : Time) (st : State) :
  match LastAdvanceNotificationSent st with
  | Some last => if Sub now last <? 24 * Hour then false else true
  | None => true
  end = true <-> cooldown_over now st.
Proof.
  unfold cooldown_over.
  destruct (LastAdvanceNotificationSent st) as [last|].
  - destruct (Z.ltb_spec (Sub now last) (24 * Hour)); split.
    + discriminate.
    + intros [Hn | (l & Hl & Hge)]; [ discriminate | ].
      injection Hl as <-. lia.
    + intros _. right. exists last. split; [ reflexivity | lia ].
    + reflexivity.
  - split; [ now left | reflexivity ].
Qed.

Lemma should_send_true_iff
    (now : Time) (st : State) (shift : Time) (adv : Duration) :
  ShouldSendAdvanceNotification now st shift adv = true
  <-> 0 < adv /\ 0 < Sub shift now <= adv /\ cooldown_over now st.
Proof.
  unfold ShouldSendAdvanceNotification.
  destruct (Z.leb_spec adv 0) as [Hadv | Hadv].
  - split; [ discriminate | lia ].
  - cbv zeta.
    destruct (Z.leb_spec (Sub shift now) 0) as [Hpast | Hfut]; simpl.
    + split; [ discriminate | lia ].
    + destruct (Z.gtb_spec (Sub shift now) adv) as [Hfar | Hin].
      * split; [ discriminate | lia ].
      * rewrite cooldown_check.
        split; [ intros H; repeat split; [ lia .. | exact H ]
               | intros (_ & _ & H); exact H ].
Qed.

Lemma should_send_disabled
    (now : Time) (st : State) (shift : Time) (adv : Duration) :
  adv <= 0 -> ShouldSendAdvanceNotification now st shift adv = false.
Proof.
  intros Hadv. unfold ShouldSendAdvanceNotification.
  destruct (Z.leb_spec adv 0); [ reflexivity | lia ].
Qed.

(** The same window read on the exact difference of the two
    instants: saturation of [Sub] only shows when the window is the
    largest [Duration] there is. *)
Lemma window_on_instants (now shiftStartTime : Time) (w : Duration) :
  w < maxDuration ->
  (0 < Sub shiftStartTime now <= w
   <-> 0 < nanos shiftStartTime - nanos now <= w).
Proof.
  intros Hw.
  destruct (Sub_cases shiftStartTime now) as [[? ->] | [[? ->] | [? ->]]];
    unfold minDuration, maxDuration in *; lia.
Qed.

Lemma cooldown_on_instants (now last : Time) :
  24 * Hour <= Sub now last <-> 24 * Hour <= nanos now - nanos last.
Proof.
  pose proof day_is_a_Duration as Hd.
  destruct (Sub_cases now last) as [[? ->] | [[? ->] | [? ->]]];
    unfold minDuration, maxDuration in *; lia.
Qed.

(** C1. [ShouldSendAdvanceNotification] returns true exactly when
    the advance window is positive, the shift starts in the future
    and no later than the window ([0 < shiftStartTime - now <=
    advanceWindow]), and the last advance notification is absent or
    at least 24 hours old; in particular it returns false whenever
    the window is zero or negative, whatever the other inputs.  The
    differences are the durations [Time.Sub] gives; for every window
    below the largest [Duration] they can be read on the instants
    themselves. *)
Theorem ShouldSendAdvanceNotification_spec :
  forall (now : Time) (st : State) (shiftStartTime : Time)
         (advanceWindow : Duration),
    (ShouldSendAdvanceNotification now st shiftStartTime advanceWindow
       = true
     <-> 0 < advanceWindow
         /\ 0 < Sub shiftStartTime now <= advanceWindow
         /\ (LastAdvanceNotificationSent st = None \/
             exists last,
               LastAdvanceNotificationSent st = Some last /\
               24 * Hour <= Sub now last))
    /\ (advanceWindow <= 0 ->
        ShouldSendAdvanceNotification now st shiftStartTime advanceWindow
          = false)
    /\ (advanceWindow < maxDuration ->
        (ShouldSendAdvanceNotification now st shiftStartTime advanceWindow
           = true
         <-> 0 < advanceWindow
             /\ 0 < nanos shiftStartTime - nanos now <= advanceWindow
             /\ (LastAdvanceNotificationSent st = None \/
                 exists last,
                   LastAdvanceNotificationSent st = Some last /\
                   24 * Hour <= nanos now - nanos last))).
Proof.
  intros now st shift adv. split; [ | split ].
  - apply should_send_true_iff.
  - apply should_send_disabled.
  - intros Hadv. rewrite should_send_true_iff.
    rewrite (window_on_instants now shift adv Hadv).
    unfold cooldown_over.
    split; intros (H0 & Hw & [Hn | (last & Hl & Hc)]);
      (split; [ exact H0 | split; [ exact Hw | ] ]);
      try (left; exact Hn);
      right; exists last; (split; [ exact Hl | ]);
      apply cooldown_on_instants; exact Hc.
Qed.

(** C2. [HasTransitionToOnCall] is true exactly when the previous
    state was off call and the subject is on call now; so it is true
    at [true] for every state that was off call and false at [true]
    for every state that was on call. *)
Theorem HasTransitionToOnCall_spec :
  forall (previous : State) (currentlyOnCall : bool),
    (HasTransitionToOnCall previous currentlyOnCall = true
     <-> WasOnCall previous = false /\ currentlyOnCall = true)
    /\ (WasOnCall previous = false ->
        HasTransitionToOnCall previous true = true)
    /\ (WasOnCall previous = true ->
        HasTransitionToOnCall previous true = false).
Proof.
  intros [w l] c. unfold HasTransitionToOnCall. simpl.
  destruct w, c; simpl; repeat split; intros; intuition congruence.
Qed.

(** C9. Once [RecordAdvanceNotificationSent] has run at time [t],
    [ShouldSendAdvanceNotification] is false for every shift start
    and every window at any instant less than 24 hours after [t]. *)
Theorem recorded_marker_suppresses :
  forall (s : State) (t now : Time) (shiftStartTime : Time)
         (advanceWindow : Duration),
    nanos now - nanos t < 24 * Hour ->
    ShouldSendAdvanceNotification now
      (RecordAdvanceNotificationSent t s) shiftStartTime advanceWindow
      = false.
Proof.
  intros s t now shift adv Hsoon.
  destruct (ShouldSendAdvanceNotification now
              (RecordAdvanceNotificationSent t s) shift adv) eqn:E;
    [ | reflexivity ].
  apply should_send_true_iff in E.
  exfalso.
  destruct E as (_ & _ & [Hnone | (last & Hlast & Hold)]);
    [ discriminate | ].
  injection Hlast as <-.
  apply cooldown_on_instants in Hold. lia.
Qed.

(** C10. [RecordAdvanceNotificationSent] changes the timestamp field
    only: [WasOnCall] is what it was before the call, whatever the
    state and the time. *)
Theorem RecordAdvanceNotificationSent_frame :
  forall (now : Time) (st : State),
    WasOnCall (RecordAdvanceNotificationSent now st) = WasOnCall st
    /\ LastAdvanceNotificationSent (RecordAdvanceNotificationSent now st)
       = Some now.
Proof. intros now st. split; reflexivity. Qed.

End Engine.

(** ** Timestamps: writing and reading back *)

Section Digits.

Lemma digit_cases (n : Z) :
  0 <= n <= 9 -> In n [0; 1; 2; 3; 4; 5; 6; 7; 8; 9].
Proof. cbn [In]. lia. Qed.

Ltac each_digit n H :=
  let Hin := fresh "Hin" in
  pose proof (digit_cases n H) as Hin;
  cbn [In] in Hin;
  repeat (destruct Hin as [<- | Hin]); [ .. | contradiction ].

Lemma isDigit_digitChar (n : Z) : 0 <= n <= 9 -> isDigit (digitChar n) = true.
Proof. intros H. each_digit n H; reflexivity. Qed.

Lemma digitVal_digitChar (n : Z) : 0 <= n <= 9 -> digitVal (digitChar n) = n.
Proof. intros H. each_digit n H; reflexivity. Qed.

End Digits.

(** Linear arithmetic with the quotients and remainders of divisions
    by constants. *)
Ltac div_lia := Z.div_mod_to_equations; lia.

Section Calendar.
Import GoTime.

Lemma daysBeforeYear_mean (y : Z) :
  146097 * y - 396 <= 400 * daysBeforeYear y <= 146097 * y + 699.
Proof. unfold daysBeforeYear. div_lia. Qed.

Lemma yearOfDay_spec (day : Z) :
  daysBeforeYear (yearOfDay day) <= day < daysBeforeYear (yearOfDay day + 1).
Proof.
  unfold yearOfDay.
  set (y := 400 * day / 146097).
  assert (Hy : 146097 * y <= 400 * day < 146097 * (y + 1)) by (subst y; div_lia).
  pose proof (daysBeforeYear_mean (y - 1)) as Hm.
  pose proof (daysBeforeYear_mean (y + 1 + 1)) as Hp.
  destruct (Z.ltb_spec day (daysBeforeYear y)) as [Hlt | Hge].
  - replace (y - 1 + 1) with y by lia. lia.
  - destruct (Z.leb_spec (daysBeforeYear (y + 1)) day) as [Hle | Hgt]; lia.
Qed.

Lemma year_length (y : Z) :
  daysBeforeYear (y + 1) - daysBeforeYear y
  = 365 + (if isLeap y then 1 else 0).
Proof.
  unfold daysBeforeYear, isLeap.
  destruct (Z.eqb_spec (y mod 4) 0);
    destruct (Z.eqb_spec (y mod 100) 0);
    destruct (Z.eqb_spec (y mod 400) 0); cbn [andb orb negb]; div_lia.
Qed.

Lemma daysBeforeYear_mono (y y' : Z) :
  y <= y' -> daysBeforeYear y <= daysBeforeYear y'.
Proof.
  intros H. unfold daysBeforeYear. div_lia.
Qed.

End Calendar.

Section Timestamps.
Import GoTime.

Lemma month_day_spec (y yday : Z) :
  0 <= yday < 365 + (if isLeap y then 1 else 0) ->
  let m := monthOfYearDay (isLeap y) yday in
  1 <= m <= 12 /\ 1 <= yday - daysBeforeMonth (isLeap y) m + 1 <= daysIn m y.
Proof.
  intros H. unfold monthOfYearDay, daysIn.
  destruct (isLeap y); cbn [daysBeforeMonth] in *;
    repeat match goal with
      | |- context [ ?a <? ?b ] => destruct (Z.ltb_spec a b)
      end;
    cbn [daysBeforeMonth]; lia.
Qed.

Lemma civil_ranges (t : Time) :
  let c := civilOf t in
  1 <= c_month c <= 12 /\ 1 <= c_day c <= daysIn (c_month c) (c_year c)
  /\ 0 <= c_hour c <= 23 /\ 0 <= c_min c <= 59 /\ 0 <= c_sec c <= 59
  /\ 0 <= c_nsec c < 1000000000.
Proof.
  unfold civilOf; cbn [c_year c_month c_day c_hour c_min c_sec c_nsec].
  pose proof (yearOfDay_spec (dayOf t)) as Hy. fold (Year t) in Hy.
  pose proof (year_length (Year t)) as Hl.
  pose proof (month_day_spec (Year t) (dayOf t - daysBeforeYear (Year t)))
    as Hm.
  cbv zeta in Hm.
  destruct Hm as [Hm Hd]; [ lia | ].
  generalize (localSec t). intros ls.
  repeat split; try apply Hm; try apply Hd; div_lia.
Qed.

(** The date and the clock of a time, read as a time in UTC, are the
    offset of its zone past its instant. *)
Lemma Date_civilOf (t : Time) :
  let c := civilOf t in
  Date (c_year c) (c_month c) (c_day c) (c_hour c) (c_min c) (c_sec c)
    (c_nsec c)
  = Instant (nanos t + zone t * 60 * 1000000000).
Proof.
  unfold civilOf; cbn [c_year c_month c_day c_hour c_min c_sec c_nsec].
  apply Time_ext; [ | reflexivity ].
  unfold Date, Instant; cbn [nanos].
  set (y := Year t).
  set (b := daysBeforeMonth (isLeap y) _).
  unfold dayOf, localSec, unixSec.
  generalize (daysBeforeYear y) b (zone t). intros dy db z.
  div_lia.
Qed.

Lemma parseUint_2 (a b lo hi : Z) :
  0 <= a <= 9 -> 0 <= b <= 9 -> lo <= a * 10 + b <= hi ->
  parseUint [digitChar a; digitChar b] lo hi = Some (a * 10 + b).
Proof.
  intros Ha Hb Hr. unfold parseUint. cbn [forallb fold_left].
  rewrite !isDigit_digitChar, !digitVal_digitChar by assumption.
  cbn [andb].
  replace ((0 * 10 + a) * 10 + b) with (a * 10 + b) by lia.
  destruct (Z.ltb_spec (a * 10 + b) lo); [ lia | ].
  destruct (Z.ltb_spec hi (a * 10 + b)); [ lia | ].
  reflexivity.
Qed.

Lemma parseUint_pad2 (n lo hi : Z) :
  0 <= n <= 99 -> lo <= n <= hi ->
  parseUint [digitChar (n / 10); digitChar (n mod 10)] lo hi = Some n.
Proof.
  intros Hn Hr.
  rewrite parseUint_2 by div_lia. f_equal. div_lia.
Qed.

Lemma parseUint_pad4 (n lo hi : Z) :
  0 <= n <= 9999 -> lo <= n <= hi ->
  parseUint
    [digitChar (n / 1000); digitChar (n / 100 mod 10);
     digitChar (n / 10 mod 10); digitChar (n mod 10)] lo hi = Some n.
Proof.
  intros Hn Hr. unfold parseUint. cbn [forallb fold_left].
  rewrite !isDigit_digitChar, !digitVal_digitChar by div_lia.
  cbn [andb].
  assert (E : (((0 * 10 + n / 1000) * 10 + n / 100 mod 10) * 10
               + n / 10 mod 10) * 10 + n mod 10 = n) by div_lia.
  rewrite E.
  destruct (Z.ltb_spec n lo); [ lia | ].
  destruct (Z.ltb_spec hi n); [ lia | ].
  reflexivity.
Qed.

Lemma pow10_succ (w : nat) : 10 ^ Z.of_nat (S w) = 10 * 10 ^ Z.of_nat w.
Proof. rewrite Nat2Z.inj_succ, Z.pow_succ_r by lia. reflexivity. Qed.

Lemma pow10_pos (w : nat) : 0 < 10 ^ Z.of_nat w.
Proof. apply Z.pow_pos_nonneg; lia. Qed.

Lemma parseFractionDigits_fractionDigits (w : nat) :
  forall (n : Z) (c : ascii) (rest : string),
    0 <= n < 10 ^ Z.of_nat w -> isDigit c = false ->
    parseFractionDigits w (fractionDigits w n ++ String c rest)
    = (n, String c rest).
Proof.
  induction w as [| w IH]; intros n c rest Hn Hc.
  - cbn [fractionDigits append parseFractionDigits]. rewrite Hc.
    f_equal. change (10 ^ Z.of_nat 0) with 1 in Hn. lia.
  - cbn [fractionDigits].
    destruct (Z.eqb_spec n 0) as [-> | Hnz].
    + cbn [append parseFractionDigits]. rewrite Hc. reflexivity.
    + rewrite pow10_succ in Hn. pose proof (pow10_pos w) as Hp.
      cbn [append parseFractionDigits].
      assert (Hq : 0 <= n / 10 ^ Z.of_nat w <= 9).
      { split; [ apply Z.div_pos; lia | ].
        apply Z.lt_succ_r. apply Z.div_lt_upper_bound; lia. }
      rewrite isDigit_digitChar, digitVal_digitChar by exact Hq.
      rewrite IH; [ | apply Z.mod_pos_bound; lia | exact Hc ].
      f_equal.
      rewrite (Z.div_mod n (10 ^ Z.of_nat w)) at 3 by lia. lia.
Qed.

(** A zone starts with [Z] or with a sign. *)
Lemma formatZone_head (z : Z) :
  exists (c : ascii) (rest : string),
    formatZone z = String c rest /\ In c ["Z"; "+"; "-"]%char.
Proof.
  unfold formatZone. cbv zeta.
  destruct (z =? 0); [ eexists _, _; split; [ reflexivity | now left ] | ].
  destruct (z <? 0); eexists _, _; (split; [ reflexivity | ]).
  - right. right. now left.
  - right. now left.
Qed.

Lemma parseFraction_formatFraction (nsec : Z) (c : ascii) (rest : string) :
  0 <= nsec < 1000000000 -> In c ["Z"; "+"; "-"]%char ->
  parseFraction (formatFraction nsec ++ String c rest)
  = (nsec, String c rest).
Proof.
  intros Hn Hc.
  assert (Hnd : isDigit c = false)
    by (cbn [In] in Hc; destruct Hc as [<- | [<- | [<- | []]]]; reflexivity).
  unfold formatFraction.
  destruct (Z.eqb_spec nsec 0) as [-> | Hnz].
  { cbn [In] in Hc. destruct Hc as [<- | [<- | [<- | []]]]; reflexivity. }
  pose proof (parseFractionDigits_fractionDigits 9 nsec c rest) as Hd.
  change (10 ^ Z.of_nat 9) with 1000000000 in Hd.
  specialize (Hd Hn Hnd).
  cbn [fractionDigits] in Hd |- *.
  destruct (Z.eqb_spec nsec 0) as [? | _]; [ contradiction | ].
  cbn [append parseFraction] in Hd |- *.
  rewrite isDigit_digitChar.
  - exact Hd.
  - change (10 ^ Z.of_nat 8) with 100000000. div_lia.
Qed.

Lemma daysIn_le_31 (m y : Z) : daysIn m y <= 31.
Proof.
  unfold daysIn.
  destruct m as [| p | p]; try lia.
  destruct (isLeap y);
    repeat (destruct p as [p | p |]; try lia).
Qed.

(** A zone that was written reads back as its offset in seconds. *)
Lemma parseZone_formatZone (z : Z) :
  Z.abs z / 60 < 24 -> parseZone (formatZone z) = Some (z * 60).
Proof.
  intros Hz. unfold formatZone. cbv zeta.
  destruct (Z.eqb_spec z 0) as [-> | Hnz]; [ reflexivity | ].
  assert (Hh : 0 <= Z.abs z / 60 <= 23) by div_lia.
  assert (Hm : 0 <= Z.abs z mod 60 <= 59) by div_lia.
  destruct (Z.ltb_spec z 0) as [Hneg | Hpos];
    cbn [pad2 append parseZone];
    rewrite (parseUint_pad2 (Z.abs z / 60)) by lia; cbn [obind];
    rewrite (parseUint_pad2 (Z.abs z mod 60)) by lia; cbn [obind];
    cbn; f_equal; div_lia.
Qed.

Lemma parseRFC3339_fields (y m d h mi s ns z : Z) :
  0 <= y <= 9999 -> 1 <= m <= 12 -> 1 <= d <= daysIn m y ->
  0 <= h <= 23 -> 0 <= mi <= 59 -> 0 <= s <= 59 ->
  0 <= ns < 1000000000 -> Z.abs z / 60 < 24 ->
  parseRFC3339
    (pad4 y ++ "-" ++ pad2 m ++ "-" ++ pad2 d ++ "T" ++ pad2 h ++ ":"
     ++ pad2 mi ++ ":" ++ pad2 s ++ formatFraction ns ++ formatZone z)
  = Some {| nanos := nanos (Date y m d h mi s ns) - z * 60 * 1000000000;
            zone := z |}.
Proof.
  intros Hy Hm Hd Hh Hmi Hs Hns Hz.
  pose proof (daysIn_le_31 m y) as H31.
  pose proof (parseZone_formatZone z Hz) as Pz.
  destruct (formatZone_head z) as (c & rest & Ez & Hc).
  rewrite Ez in Pz |- *.
  cbn [pad4 pad2 append parseRFC3339].
  rewrite parseUint_pad4 by lia. cbn [obind].
  rewrite (parseUint_pad2 m) by lia. cbn [obind].
  rewrite (parseUint_pad2 d) by lia. cbn [obind].
  rewrite (parseUint_pad2 h) by lia. cbn [obind].
  rewrite (parseUint_pad2 mi) by lia. cbn [obind].
  rewrite (parseUint_pad2 s) by lia. cbn [obind].
  rewrite !Ascii.eqb_refl. cbn [andb].
  rewrite parseFraction_formatFraction by assumption.
  rewrite Pz. cbn [obind]. f_equal.
  apply Time_ext; cbn [nanos zone]; [ lia | ].
  apply Z.div_mul. lia.
Qed.

(** Within the years and the zones [MarshalJSON] accepts, reading a
    timestamp back gives the time that was written, zone and all. *)
Lemma parseRFC3339_formatRFC3339Nano (t : Time) :
  0 <= Year t <= 9999 -> Z.abs (zone t) / 60 < 24 ->
  parseRFC3339 (formatRFC3339Nano t) = Some t.
Proof.
  intros Hy Hz. unfold formatRFC3339Nano. cbv zeta.
  pose proof (civil_ranges t) as R. cbv zeta in R.
  destruct R as (Hm & Hd & Hh & Hmi & Hs & Hns).
  rewrite parseRFC3339_fields by assumption.
  f_equal. pose proof (Date_civilOf t) as D. cbv zeta in D. rewrite D.
  apply Time_ext; cbn [Instant nanos zone]; [ lia | reflexivity ].
Qed.

End Timestamps.

(** ** The state file: writing and reading back *)

Section StateFile.
Import GoTime state.

Lemma scanString_plain (body rest : string) :
  json.allPlain body = true ->
  json.scanString (body ++ String dquote rest) = Some (body, rest).
Proof.
  induction body as [| c body IH]; intros Hp.
  - reflexivity.
  - cbn [json.allPlain] in Hp. apply andb_prop in Hp as [Hc Hb].
    unfold json.plainByte in Hc.
    apply andb_prop in Hc as [Hc H32]. apply andb_prop in Hc as [Hq Hbs].
    apply negb_true_iff in Hq, Hbs, H32.
    cbn [append json.scanString]. rewrite Hq, Hbs, H32, (IH Hb).
    reflexivity.
Qed.

Lemma append_assoc (a b c : string) :
  ((a ++ b) ++ c = a ++ (b ++ c))%string.
Proof.
  induction a as [| x a IH]; cbn [append]; [ reflexivity | ].
  f_equal. exact IH.
Qed.

Lemma quoted_app (raw rest : string) :
  (json.quoted raw ++ rest = String dquote (raw ++ String dquote rest))%string.
Proof.
  unfold json.quoted. cbn [append]. f_equal. apply append_assoc.
Qed.

Lemma allPlain_app (a b : string) :
  json.allPlain (a ++ b) = json.allPlain a && json.allPlain b.
Proof.
  induction a as [| c a IH]; cbn [append json.allPlain]; [ reflexivity | ].
  rewrite IH. apply andb_assoc.
Qed.

Lemma plainByte_digitChar (n : Z) :
  0 <= n <= 9 -> json.plainByte (digitChar n) = true.
Proof.
  intros H.
  pose proof (digit_cases n H) as Hin. cbn [In] in Hin.
  repeat (destruct Hin as [<- | Hin]); try reflexivity. contradiction.
Qed.

Lemma allPlain_pad2 (n : Z) : 0 <= n <= 99 -> json.allPlain (pad2 n) = true.
Proof.
  intros H. unfold pad2. cbn [json.allPlain].
  rewrite !plainByte_digitChar by div_lia. reflexivity.
Qed.

Lemma allPlain_pad4 (n : Z) : 0 <= n <= 9999 -> json.allPlain (pad4 n) = true.
Proof.
  intros H. unfold pad4. cbn [json.allPlain].
  rewrite !plainByte_digitChar by div_lia. reflexivity.
Qed.

Lemma allPlain_fractionDigits (w : nat) :
  forall n : Z,
    0 <= n < 10 ^ Z.of_nat w -> json.allPlain (fractionDigits w n) = true.
Proof.
  induction w as [| w IH]; intros n Hn; cbn [fractionDigits].
  - reflexivity.
  - destruct (Z.eqb_spec n 0) as [-> | Hnz]; [ reflexivity | ].
    rewrite pow10_succ in Hn. pose proof (pow10_pos w) as Hp.
    cbn [json.allPlain].
    rewrite plainByte_digitChar, IH.
    + reflexivity.
    + apply Z.mod_pos_bound; lia.
    + split; [ apply Z.div_pos; lia | ].
      apply Z.lt_succ_r. apply Z.div_lt_upper_bound; lia.
Qed.

Lemma allPlain_formatFraction (nsec : Z) :
  0 <= nsec < 1000000000 -> json.allPlain (formatFraction nsec) = true.
Proof.
  intros H. unfold formatFraction.
  destruct (Z.eqb_spec nsec 0); [ reflexivity | ].
  cbn [json.allPlain].
  rewrite allPlain_fractionDigits; [ reflexivity | ].
  change (10 ^ Z.of_nat 9) with 1000000000. exact H.
Qed.

(** A timestamp [MarshalJSON] writes holds no quote, no backslash and
    no control byte. *)
Lemma allPlain_formatZone (z : Z) :
  Z.abs z / 60 < 24 -> json.allPlain (formatZone z) = true.
Proof.
  intros Hz. unfold formatZone. cbv zeta.
  destruct (z =? 0); [ reflexivity | ].
  assert (Hh : 0 <= Z.abs z / 60 <= 99) by div_lia.
  assert (Hm : 0 <= Z.abs z mod 60 <= 99) by div_lia.
  destruct (z <? 0); cbn [json.allPlain];
    rewrite allPlain_app; cbn [json.allPlain];
    rewrite !allPlain_pad2 by assumption; reflexivity.
Qed.

Lemma allPlain_formatRFC3339Nano (t : Time) :
  0 <= Year t <= 9999 -> Z.abs (zone t) / 60 < 24 ->
  json.allPlain (formatRFC3339Nano t) = true.
Proof.
  intros Hy Hz. unfold formatRFC3339Nano. cbv zeta.
  pose proof (civil_ranges t) as R. cbv zeta in R.
  destruct R as (Hm & Hd & Hh & Hmi & Hs & Hns).
  pose proof (daysIn_le_31 (c_month (civilOf t)) (c_year (civilOf t))).
  rewrite !allPlain_app.
  rewrite allPlain_pad4 by exact Hy.
  rewrite !allPlain_pad2 by lia.
  rewrite allPlain_formatFraction by exact Hns.
  rewrite allPlain_formatZone by exact Hz.
  reflexivity.
Qed.

(** *** Reading the two layouts [Save] writes *)

Ltac eval_bytes :=
  repeat match goal with
    | |- context [json.isSpace ?c] =>
        let b := eval vm_compute in (json.isSpace c) in
        change (json.isSpace c) with b; cbv iota
    | |- context [Ascii.eqb ?a ?c] =>
        let b := eval vm_compute in (Ascii.eqb a c) in
        change (Ascii.eqb a c) with b; cbv iota
    | |- context [Z.ltb ?a ?c] =>
        let b := eval vm_compute in (Z.ltb a c) in
        change (Z.ltb a c) with b; cbv iota
    end.

Ltac json_run Hp :=
  repeat first
    [ rewrite scanString_plain by (exact Hp || reflexivity)
    | progress cbn [json.parseValue json.parseMembers obind json.skipSpace]
    | progress eval_bytes ].

Lemma parseValue_record_marked (f : nat) (b : bool) (ts : string) :
  json.allPlain ts = true ->
  json.parseValue (S (S (S (S f)))) 0
    (String "{" (String newline (String " " (String " " (String dquote
       ("was_on_call" ++ String dquote (String ":" (String " "
          ((if b then "true" else "false") ++ String "," (String newline
             (String " " (String " " (String dquote
                ("last_advance_notification_sent" ++ String dquote
                   (String ":" (String " " (String dquote
                      (ts ++ String dquote (String newline
                         (String "}" EmptyString))))))))))))))))))))
  = Some (json.JObject
            [ ("was_on_call"%string, json.JBool b);
              ("last_advance_notification_sent"%string, json.JString ts) ],
          EmptyString).
Proof.
  intros Hp.
  destruct b.
  - change ("true" ++ ?x)%string with (String "t" (String "r" (String "u" (String "e" x)))).
    json_run Hp. reflexivity.
  - change ("false" ++ ?x)%string with (String "f" (String "a" (String "l" (String "s" (String "e" x))))).
    json_run Hp. reflexivity.
Qed.

Lemma render_record_marked (b : bool) (ts : string) :
  json.render 0
    (json.JObject
       [ ("was_on_call"%string, json.JBool b);
         ("last_advance_notification_sent"%string, json.JString ts) ])
  = String "{" (String newline (String " " (String " " (String dquote
      ("was_on_call" ++ String dquote (String ":" (String " "
         ((if b then "true" else "false") ++ String "," (String newline
            (String " " (String " " (String dquote
               ("last_advance_notification_sent" ++ String dquote
                  (String ":" (String " " (String dquote
                     (ts ++ String dquote (String newline
                        (String "}" EmptyString))))))))))))))))))).
Proof.
  destruct b;
    cbn [json.render json.quoted json.lineBreak json.indentation append];
    rewrite !append_assoc; reflexivity.
Qed.

Lemma parse_record_marked (b : bool) (ts : string) :
  json.allPlain ts = true ->
  json.parse
    (json.render 0
       (json.JObject
          [ ("was_on_call"%string, json.JBool b);
            ("last_advance_notification_sent"%string, json.JString ts) ]))
  = Ok (json.JObject
          [ ("was_on_call"%string, json.JBool b);
            ("last_advance_notification_sent"%string, json.JString ts) ]).
Proof.
  intros Hp. rewrite render_record_marked. unfold json.parse.
  cbn [String.length json.skipSpace]. eval_bytes.
  rewrite parseValue_record_marked by exact Hp.
  reflexivity.
Qed.

Lemma parse_record_unmarked (b : bool) :
  json.parse
    (json.render 0 (json.JObject [ ("was_on_call"%string, json.JBool b) ]))
  = Ok (json.JObject [ ("was_on_call"%string, json.JBool b) ]).
Proof. destruct b; vm_compute; reflexivity. Qed.

Lemma encode_ok (st : State) :
  marshalable st ->
  encode st
  = Ok (match LastAdvanceNotificationSent st with
        | None =>
            json.JObject
              [ ("was_on_call"%string, json.JBool (WasOnCall st)) ]
        | Some t =>
            json.JObject
              [ ("was_on_call"%string, json.JBool (WasOnCall st));
                ("last_advance_notification_sent"%string,
                 json.JString (formatRFC3339Nano t)) ]
        end).
Proof.
  unfold marshalable, encode, Time_MarshalJSON.
  destruct (LastAdvanceNotificationSent st) as [t |]; [ | reflexivity ].
  intros [Hy Hz]. cbv zeta.
  destruct (Z.ltb_spec (Year t) 0); [ lia | ].
  destruct (Z.leb_spec 10000 (Year t)); [ lia | ].
  destruct (Z.leb_spec 24 (Z.abs (zone t) / 60)); [ lia | ].
  reflexivity.
Qed.

Lemma encode_error (st : State) :
  (exists e, encode st = Err e) <-> ~ marshalable st.
Proof.
  unfold marshalable, encode, Time_MarshalJSON.
  destruct (LastAdvanceNotificationSent st) as [t |].
  - cbv zeta.
    destruct (Z.ltb_spec (Year t) 0);
      destruct (Z.leb_spec 10000 (Year t));
      destruct (Z.leb_spec 24 (Z.abs (zone t) / 60)); cbn [orb];
      split; try lia; try (intros _; eexists; reflexivity);
      intros [e He]; discriminate.
  - split; [ intros [e He]; discriminate | tauto ].
Qed.

(** Reading back what [MarshalIndent] wrote gives the state again. *)
Lemma Unmarshal_MarshalIndent (st : State) (data : string) :
  MarshalIndent st = Ok data -> Unmarshal data = Ok st.
Proof.
  unfold MarshalIndent, Unmarshal. intros Hm.
  assert (Hv : marshalable st).
  { destruct (encode st) as [v | e] eqn:E; [ | discriminate ].
    unfold marshalable.
    destruct (LastAdvanceNotificationSent st) as [t |] eqn:El; [ | exact I ].
    unfold encode, Time_MarshalJSON in E. rewrite El in E. cbv zeta in E.
    destruct (Z.ltb_spec (Year t) 0);
      destruct (Z.leb_spec 10000 (Year t));
      destruct (Z.leb_spec 24 (Z.abs (zone t) / 60)); cbn [orb] in E;
      try discriminate. lia. }
  rewrite (encode_ok st Hv) in Hm. cbn [bind] in Hm.
  injection Hm as <-.
  destruct st as [w [t |]]; cbn [WasOnCall LastAdvanceNotificationSent] in *.
  - unfold marshalable in Hv. cbn [LastAdvanceNotificationSent] in Hv.
    destruct Hv as [Hy Hz].
    rewrite parse_record_marked
      by (apply allPlain_formatRFC3339Nano; assumption).
    cbn [bind decode decodeMembers].
    change (decodeMember defaultState "was_on_call" (json.JBool w))
      with (Ok {| WasOnCall := w; LastAdvanceNotificationSent := None |}).
    cbn [bind]. unfold decodeMember.
    change (json.fieldFor fields
              (json.unquote "last_advance_notification_sent"))
      with (Some F_LastAdvanceNotificationSent).
    cbv iota. rewrite parseRFC3339_formatRFC3339Nano by assumption.
    reflexivity.
  - rewrite parse_record_unmarked. destruct w; reflexivity.
Qed.

End StateFile.

(** ** The persistent state store *)

Section Store.
Import GoTime state.

Lemma Load_Regular (data : string) :
  Load (os.Regular data)
  = match Unmarshal data with
    | Err err => Err (wrap "failed to unmarshal state" err)
    | Ok st => Ok st
    end.
Proof. reflexivity. Qed.

(** A [Save] that returns [nil] leaves a file [Load] reads back as the
    state that was saved. *)
Lemma Save_nil_Load (io : os.outcome) (file file' : os.node) (st : State) :
  Save io file st = (file', None) -> Load file' = Ok st.
Proof.
  unfold Save.
  destruct (os.MkdirAll io) as [e |] eqn:Em; [ discriminate | ].
  destruct (MarshalIndent st) as [data | e] eqn:Ed; [ | discriminate ].
  destruct io; cbn [os.WriteFile os.MkdirAll] in *; try discriminate.
  intros H. injection H as <-.
  rewrite Load_Regular, (Unmarshal_MarshalIndent st data Ed). reflexivity.
Qed.

Lemma MarshalIndent_ok (st : State) :
  marshalable st -> exists data, MarshalIndent st = Ok data.
Proof.
  intros Hv. unfold MarshalIndent. rewrite (encode_ok st Hv).
  cbn [bind]. eexists. reflexivity.
Qed.

Lemma Save_Written (file : os.node) (st : State) :
  marshalable st ->
  exists data,
    MarshalIndent st = Ok data
    /\ Save os.Written file st = (os.Regular data, None).
Proof.
  intros Hv. destruct (MarshalIndent_ok st Hv) as [data Hd].
  exists data. split; [ exact Hd | ].
  unfold Save. cbn [os.MkdirAll]. rewrite Hd. reflexivity.
Qed.

(** C5. For every state [Save] can write (the timestamp absent, or
    present with a four-digit year and a zone offset under 24 hours,
    as every time in UTC from the year 0 to the year 9999 is), a
    [Save] on a file system that takes the write, followed by [Load],
    returns that state, the zone of its timestamp included; and a
    state without timestamp is written as an object with the single
    member [was_on_call]: the absent field is left out, not written
    as [null]. *)
Theorem Save_Load_round_trip :
  forall (S : State) (file : os.node),
    marshalable S ->
    (exists data,
        Save os.Written file S = (os.Regular data, None)
        /\ Load (os.Regular data) = Ok S)
    /\ (LastAdvanceNotificationSent S = None ->
        encode S
        = Ok (json.JObject
                [ ("was_on_call"%string, json.JBool (WasOnCall S)) ])).
Proof.
  intros S file Hv. split.
  - destruct (Save_Written file S Hv) as (data & Hd & Hs).
    exists data. split; [ exact Hs | ].
    exact (Save_nil_Load _ _ _ _ Hs).
  - intros Hn. rewrite (encode_ok S Hv), Hn. reflexivity.
Qed.

(** C6. [Load] returns the default state, off call and without
    timestamp, and no error when there is no record; when there is a
    record that cannot be read, or whose content [Unmarshal] rejects,
    it returns an error; so a state it does return is the default of a
    missing record or the state read from the record's content. *)
Theorem Load_default_or_error :
  Load os.Absent
  = Ok {| WasOnCall := false; LastAdvanceNotificationSent := None |}
  /\ (forall (statOk : bool) (reason : string),
         Load (os.Unreadable statOk reason)
         = Err (wrap "failed to read state file" reason))
  /\ (forall (data err : string),
         Unmarshal data = Err err ->
         Load (os.Regular data)
         = Err (wrap "failed to unmarshal state" err))
  /\ (forall (file : os.node) (st : State),
         Load file = Ok st ->
         (file = os.Absent /\ st = defaultState)
         \/ (exists data, file = os.Regular data /\ Unmarshal data = Ok st)).
Proof.
  repeat split.
  - intros [|] reason; reflexivity.
  - intros data err H. rewrite Load_Regular, H. reflexivity.
  - intros [| statOk reason | data] st H.
    + left. split; [ reflexivity | ].
      cbn in H. injection H as <-. reflexivity.
    + destruct statOk; discriminate.
    + right. exists data. split; [ reflexivity | ].
      rewrite Load_Regular in H.
      destruct (Unmarshal data); [ exact H | discriminate ].
Qed.

End Store.

(** ** The poll orchestrator *)

Section Orchestrator.
Import GoTime state notifier pagerduty config main.

Lemma advanceStep_sending (cfg : Config) (tk : Tick) (st : State)
    (shift : UpcomingShift) :
  upcomingShift tk = Ok (Some shift) ->
  ShouldSendAdvanceNotification (nowCheck tk) st (StartTime shift)
    (AdvanceNotificationTime cfg) = true ->
  advanceStep cfg tk st
  = match notifyUpcoming tk with
    | Some err =>
        (st, [NotifyWithEvent EventUpcomingShift (StartTime shift) (Some err)])
    | None =>
        (RecordAdvanceNotificationSent (nowRecord tk) st,
         [NotifyWithEvent EventUpcomingShift (StartTime shift) None])
    end.
Proof.
  intros Hu Hs. unfold advanceStep. rewrite Hu, Hs.
  destruct (Z.gtb_spec (AdvanceNotificationTime cfg) 0) as [_ | Hle];
    [ reflexivity | ].
  rewrite should_send_disabled in Hs by exact Hle. discriminate.
Qed.

Lemma pollCycle_marker (cfg : Config) (tk : Tick) (l : Loop) (b : bool) :
  isOnCall tk = Ok b ->
  LastAdvanceNotificationSent (currentState (pollCycle cfg tk l))
  = LastAdvanceNotificationSent (fst (advanceStep cfg tk (currentState l))).
Proof.
  intros Hb. unfold pollCycle. rewrite Hb.
  destruct (advanceStep cfg tk (currentState l)) as [st1 cs1].
  destruct (Save _ _ _) as [file' err]. reflexivity.
Qed.

Lemma decision_reads_marker_only (now : Time) (st st' : State)
    (shiftStartTime : Time) (advanceTime : Duration) :
  LastAdvanceNotificationSent st = LastAdvanceNotificationSent st' ->
  ShouldSendAdvanceNotification now st shiftStartTime advanceTime
  = ShouldSendAdvanceNotification now st' shiftStartTime advanceTime.
Proof.
  intros E. unfold ShouldSendAdvanceNotification. rewrite E. reflexivity.
Qed.

(** C4. In a poll cycle where [ShouldSendAdvanceNotification] returns
    true, the advance step delivers the upcoming-shift event and then
    records the dedup marker when the delivery succeeds, and leaves
    the state as it was when the delivery fails; the cycle's state
    carries the marker of that step, so after a failed delivery the
    next cycle's decision is the one the unchanged state gives: it can
    send again within the same window. *)
Theorem marker_recorded_iff_delivered :
  forall (cfg : Config) (tk : Tick) (l : Loop) (shift : UpcomingShift)
         (onCall : bool),
    isOnCall tk = Ok onCall ->
    upcomingShift tk = Ok (Some shift) ->
    ShouldSendAdvanceNotification (nowCheck tk) (currentState l)
      (StartTime shift) (AdvanceNotificationTime cfg) = true ->
    (notifyUpcoming tk = None ->
     advanceStep cfg tk (currentState l)
     = (RecordAdvanceNotificationSent (nowRecord tk) (currentState l),
        [NotifyWithEvent EventUpcomingShift (StartTime shift) None])
     /\ LastAdvanceNotificationSent (currentState (pollCycle cfg tk l))
        = Some (nowRecord tk))
    /\ (forall err,
           notifyUpcoming tk = Some err ->
           advanceStep cfg tk (currentState l)
           = (currentState l,
              [NotifyWithEvent EventUpcomingShift (StartTime shift)
                 (Some err)])
           /\ LastAdvanceNotificationSent (currentState (pollCycle cfg tk l))
              = LastAdvanceNotificationSent (currentState l)
           /\ (forall (now' start' : Time),
                  ShouldSendAdvanceNotification now'
                    (currentState (pollCycle cfg tk l)) start'
                    (AdvanceNotificationTime cfg)
                  = ShouldSendAdvanceNotification now' (currentState l)
                      start' (AdvanceNotificationTime cfg))).
Proof.
  intros cfg tk l shift onCall Hb Hu Hs.
  pose proof (advanceStep_sending cfg tk (currentState l) shift Hu Hs) as E.
  pose proof (pollCycle_marker cfg tk l onCall Hb) as Hm.
  split.
  - intros Hn. rewrite Hn in E. rewrite Hm, E. split; reflexivity.
  - intros err He. rewrite He in E. rewrite E in Hm. cbn [fst] in Hm.
    split; [ exact E | ]. split; [ exact Hm | ].
    intros now' start'. apply decision_reads_marker_only. exact Hm.
Qed.

(** *** Shift-started events *)

Lemma shiftStartedCount_app (a b : list call) :
  shiftStartedCount (a ++ b) = (shiftStartedCount a + shiftStartedCount b)%nat.
Proof.
  unfold shiftStartedCount. rewrite filter_app, length_app. reflexivity.
Qed.

Lemma advanceStep_no_shiftStarted (cfg : Config) (tk : Tick) (st : State) :
  shiftStartedCount (snd (advanceStep cfg tk st)) = 0%nat.
Proof.
  unfold advanceStep.
  destruct (AdvanceNotificationTime cfg >? 0); [ | reflexivity ].
  destruct (upcomingShift tk) as [[shift |] | e]; try reflexivity.
  destruct (ShouldSendAdvanceNotification _ _ _ _); [ | reflexivity ].
  destruct (notifyUpcoming tk); reflexivity.
Qed.

Lemma advanceStep_WasOnCall (cfg : Config) (tk : Tick) (st : State) :
  WasOnCall (fst (advanceStep cfg tk st)) = WasOnCall st.
Proof.
  unfold advanceStep.
  destruct (AdvanceNotificationTime cfg >? 0); [ | reflexivity ].
  destruct (upcomingShift tk) as [[shift |] | e]; try reflexivity.
  destruct (ShouldSendAdvanceNotification _ _ _ _); [ | reflexivity ].
  destruct (notifyUpcoming tk); reflexivity.
Qed.

(** What one iteration that got an answer from PagerDuty does. *)
Lemma pollCycle_answered (cfg : Config) (tk : Tick) (l : Loop) (b : bool) :
  isOnCall tk = Ok b ->
  let st1 := fst (advanceStep cfg tk (currentState l)) in
  let st2 :=
    {| WasOnCall := b;
       LastAdvanceNotificationSent := LastAdvanceNotificationSent st1 |} in
  currentState (pollCycle cfg tk l) = st2
  /\ stateFile (pollCycle cfg tk l)
     = fst (Save (saveIO tk) (stateFile l) st2)
  /\ calls (pollCycle cfg tk l)
     = calls l ++ snd (advanceStep cfg tk (currentState l))
       ++ shiftStartedStep tk st1 b
       ++ [SaveState st2 (snd (Save (saveIO tk) (stateFile l) st2))].
Proof.
  intros Hb. unfold pollCycle. rewrite Hb.
  destruct (advanceStep cfg tk (currentState l)) as [st1 cs1].
  cbn [fst snd].
  destruct (Save _ _ _) as [file' err]. cbn [fst snd].
  repeat split.
Qed.

Lemma pollCycle_shiftStartedCount (cfg : Config) (tk : Tick) (l : Loop)
    (b : bool) :
  isOnCall tk = Ok b ->
  shiftStartedCount (calls (pollCycle cfg tk l))
  = (shiftStartedCount (calls l)
     + if HasTransitionToOnCall (currentState l) b then 1 else 0)%nat.
Proof.
  intros Hb.
  destruct (pollCycle_answered cfg tk l b Hb) as (_ & _ & ->).
  rewrite !shiftStartedCount_app, advanceStep_no_shiftStarted.
  unfold shiftStartedStep, HasTransitionToOnCall.
  rewrite advanceStep_WasOnCall.
  destruct (negb (WasOnCall (currentState l)) && b); cbn; lia.
Qed.

(** C3. From a store that loads as the default state, a first cycle
    that observes the subject on call fires one shift-started event,
    leaves [WasOnCall] true in the loop's state and hands that state
    to [Save].  That [Save] returns no error whenever the file system
    takes the write and the state can be marshalled, and the record
    it leaves holds [WasOnCall] true: the state file then loads back
    as the state of the loop.  The state can be marshalled whenever
    the clock of the cycle reads a year from 0 to 9999 in a zone less
    than 24 hours from UTC, as [time.Now().UTC()] does until the end
    of the year 9999.  (When the [Save] fails the loop goes on with
    the state it holds.)  A second cycle that again observes the
    subject on call fires no further shift-started event. *)
Theorem first_on_call_cycle_fires_once :
  forall (cfg : Config) (file : os.node) (tk1 tk2 : Tick) (l1 l2 : Loop),
    Load file = Ok defaultState ->
    isOnCall tk1 = Ok true ->
    isOnCall tk2 = Ok true ->
    runPollingLoop cfg file [tk1] = Ok l1 ->
    runPollingLoop cfg file [tk1; tk2] = Ok l2 ->
    shiftStartedCount (calls l1) = 1%nat
    /\ WasOnCall (currentState l1) = true
    /\ (exists err,
           last (calls l1) (SaveState defaultState None)
           = SaveState (currentState l1) err
           /\ (err = None -> Load (stateFile l1) = Ok (currentState l1))
           /\ (saveIO tk1 = os.Written -> marshalable (currentState l1) ->
               err = None
               /\ (exists data,
                      MarshalIndent (currentState l1) = Ok data
                      /\ stateFile l1 = os.Regular data)
               /\ Load (stateFile l1) = Ok (currentState l1)))
    /\ (0 <= Year (nowRecord tk1) <= 9999 ->
        Z.abs (zone (nowRecord tk1)) / 60 < 24 ->
        marshalable (currentState l1))
    /\ shiftStartedCount (calls l2) = 1%nat.
Proof.
  intros cfg file tk1 tk2 l1 l2 Hload H1 H2 R1 R2.
  unfold runPollingLoop in R1, R2. rewrite Hload in R1, R2.
  cbn [pollCycles fold_left] in R1, R2.
  injection R1 as <-. injection R2 as <-.
  set (l0 := {| currentState := defaultState; stateFile := file;
                calls := [] |}).
  pose proof (pollCycle_answered cfg tk1 l0 true H1) as (Hst & Hfile & Hcalls).
  cbv zeta in Hst, Hfile, Hcalls.
  assert (Hw : WasOnCall (currentState (pollCycle cfg tk1 l0)) = true)
    by (rewrite Hst; reflexivity).
  assert (Hc1 : shiftStartedCount (calls (pollCycle cfg tk1 l0)) = 1%nat)
    by (rewrite (pollCycle_shiftStartedCount cfg tk1 l0 true H1);
        reflexivity).
  repeat split.
  - exact Hc1.
  - exact Hw.
  - rewrite Hcalls, Hfile, Hst.
    match goal with
    | |- context [Save ?io ?f ?st] => destruct (Save io f st) as [f' e] eqn:Es
    end.
    cbn [fst snd]. exists e. split; [ | split ].
    + rewrite !app_assoc, last_last. reflexivity.
    + intros ->. exact (Save_nil_Load _ _ _ _ Es).
    + intros Hio Hv. rewrite Hio in Es.
      destruct (Save_Written (stateFile l0) _ Hv) as (data & Hd & Hs).
      rewrite Hs in Es. injection Es as <- <-.
      split; [ reflexivity | ]. split.
      * exists data. split; [ exact Hd | reflexivity ].
      * exact (Save_nil_Load _ _ _ _ Hs).
  - intros Hy Hz. rewrite Hst. unfold marshalable, advanceStep.
    cbn [LastAdvanceNotificationSent currentState l0].
    destruct (AdvanceNotificationTime cfg >? 0); [ | exact I ].
    destruct (upcomingShift tk1) as [[shift |] | e]; try exact I.
    destruct (ShouldSendAdvanceNotification _ _ _ _); [ | exact I ].
    destruct (notifyUpcoming tk1); [ exact I | ].
    cbn [fst RecordAdvanceNotificationSent LastAdvanceNotificationSent].
    split; assumption.
  - rewrite (pollCycle_shiftStartedCount cfg tk2 _ true H2), Hc1.
    unfold HasTransitionToOnCall. rewrite Hw. reflexivity.
Qed.

End Orchestrator.

(** ** The dedup marker over a run *)

Section Markers.
Import GoTime state notifier pagerduty config main.

Lemma marker_le_refl (m : option Time) : marker_le m m.
Proof. destruct m as [t |]; cbn; [ exists t; split; [ reflexivity | lia ] | exact I ]. Qed.

Lemma marker_le_trans (a b c : option Time) :
  marker_le a b -> marker_le b c -> marker_le a c.
Proof.
  destruct a as [t |]; cbn; [ | trivial ].
  intros (t' & -> & Htt') (t'' & -> & Ht't''). cbn.
  exists t''. split; [ reflexivity | lia ].
Qed.

Lemma StronglySorted_snoc {A : Type} (R : A -> A -> Prop) (xs : list A)
    (x : A) :
  StronglySorted R xs -> Forall (fun y => R y x) xs ->
  StronglySorted R (xs ++ [x]).
Proof.
  induction 1 as [| y ys Hs IH Hy]; intros Hall; cbn.
  - constructor; constructor.
  - inversion Hall as [| ? ? Hyx Hrest]; subst.
    constructor; [ exact (IH Hrest) | ].
    apply Forall_app. split; [ exact Hy | ].
    constructor; [ exact Hyx | constructor ].
Qed.

Lemma savedMarkers_app (a b : list call) :
  savedMarkers (a ++ b) = savedMarkers a ++ savedMarkers b.
Proof.
  induction a as [| [ev t e | st e] a IH]; cbn; [ reflexivity | exact IH | ].
  f_equal. exact IH.
Qed.

Lemma advanceStep_no_save (cfg : Config) (tk : Tick) (st : State) :
  savedMarkers (snd (advanceStep cfg tk st)) = [].
Proof.
  unfold advanceStep.
  destruct (AdvanceNotificationTime cfg >? 0); [ | reflexivity ].
  destruct (upcomingShift tk) as [[shift |] | e]; try reflexivity.
  destruct (ShouldSendAdvanceNotification _ _ _ _); [ | reflexivity ].
  destruct (notifyUpcoming tk); reflexivity.
Qed.

Lemma shiftStartedStep_no_save (tk : Tick) (st : State) (b : bool) :
  savedMarkers (shiftStartedStep tk st b) = [].
Proof.
  unfold shiftStartedStep.
  destruct (HasTransitionToOnCall st b); reflexivity.
Qed.

(** The advance step leaves the marker alone or sets it to the clock
    reading of [RecordAdvanceNotificationSent]; with a clock that does
    not run backwards between the decision and the record, that
    reading is at least 24 hours past the marker it replaces. *)
Lemma advanceStep_marker (cfg : Config) (tk : Tick) (st : State) :
  nanos (nowCheck tk) <= nanos (nowRecord tk) ->
  let m := LastAdvanceNotificationSent st in
  let m' := LastAdvanceNotificationSent (fst (advanceStep cfg tk st)) in
  m' = m \/ (m' = Some (nowRecord tk) /\ marker_le m m').
Proof.
  intros Hclock. cbv zeta. unfold advanceStep.
  destruct (AdvanceNotificationTime cfg >? 0); [ | now left ].
  destruct (upcomingShift tk) as [[shift |] | e]; try now left.
  destruct (ShouldSendAdvanceNotification _ _ _ _) eqn:Hs; [ | now left ].
  destruct (notifyUpcoming tk); [ now left | ].
  right. cbn [fst RecordAdvanceNotificationSent LastAdvanceNotificationSent].
  split; [ reflexivity | ].
  apply should_send_true_iff in Hs.
  destruct Hs as (_ & _ & [Hnone | (last & Hlast & Hold)]).
  - rewrite Hnone. exact I.
  - rewrite Hlast. cbn. exists (nowRecord tk). split; [ reflexivity | ].
    apply cooldown_on_instants in Hold. rewrite Hour_value in Hold. lia.
Qed.

Lemma pollCycle_markers_in_order (cfg : Config) (tk : Tick) (l : Loop) :
  nanos (nowCheck tk) <= nanos (nowRecord tk) ->
  markers_in_order l -> markers_in_order (pollCycle cfg tk l).
Proof.
  intros Hclock [Hsorted Hbelow].
  destruct (isOnCall tk) as [b | e] eqn:Hb.
  - destruct (pollCycle_answered cfg tk l b Hb) as (Hst & _ & Hcalls).
    cbv zeta in Hst, Hcalls.
    unfold markers_in_order. rewrite Hcalls, Hst.
    rewrite !savedMarkers_app, advanceStep_no_save, shiftStartedStep_no_save.
    cbn [app savedMarkers LastAdvanceNotificationSent].
    assert (Hstep :
      marker_le (LastAdvanceNotificationSent (currentState l))
        (LastAdvanceNotificationSent
           (fst (advanceStep cfg tk (currentState l))))).
    { destruct (advanceStep_marker cfg tk (currentState l) Hclock)
        as [-> | [_ Hle]]; [ apply marker_le_refl | exact Hle ]. }
    assert (Hall :
      Forall
        (fun m =>
           marker_le m
             (LastAdvanceNotificationSent
                (fst (advanceStep cfg tk (currentState l)))))
        (savedMarkers (calls l))).
    { eapply Forall_impl; [ | exact Hbelow ].
      intros m Hm. exact (marker_le_trans _ _ _ Hm Hstep). }
    split.
    + apply StronglySorted_snoc; assumption.
    + apply Forall_app. split; [ exact Hall | ].
      constructor; [ apply marker_le_refl | constructor ].
  - unfold pollCycle. rewrite Hb. split; assumption.
Qed.

Lemma pollCycles_markers_in_order (cfg : Config) (ticks : list Tick) :
  forall l : Loop,
    (forall tk, In tk ticks -> nanos (nowCheck tk) <= nanos (nowRecord tk)) ->
    markers_in_order l -> markers_in_order (pollCycles cfg ticks l).
Proof.
  induction ticks as [| tk ticks IH]; intros l Hclock Hinv.
  - exact Hinv.
  - cbn [pollCycles fold_left]. apply IH.
    + intros tk' Hin. apply Hclock. now right.
    + apply pollCycle_markers_in_order; [ apply Hclock; now left | exact Hinv ].
Qed.

(** C8. With a clock that does not run backwards between the two
    readings of a cycle: every cycle leaves the marker of the loop's
    state unchanged or sets it to the current time, which is then not
    earlier than the marker it replaces; and over a whole run of
    [runPollingLoop] the markers of the states handed to [Save], in
    the order of the calls, never move back: one that is present is
    followed only by present ones that are not earlier. *)
Theorem marker_never_moves_back :
  forall (cfg : Config) (file : os.node) (ticks : list Tick) (l : Loop),
    (forall tk, In tk ticks -> nanos (nowCheck tk) <= nanos (nowRecord tk)) ->
    runPollingLoop cfg file ticks = Ok l ->
    StronglySorted marker_le (savedMarkers (calls l))
    /\ (forall (tk : Tick) (l' : Loop),
           nanos (nowCheck tk) <= nanos (nowRecord tk) ->
           let m := LastAdvanceNotificationSent (currentState l') in
           let m' :=
             LastAdvanceNotificationSent (currentState (pollCycle cfg tk l'))
           in
           m' = m \/ (m' = Some (nowRecord tk) /\ marker_le m m')).
Proof.
  intros cfg file ticks l Hclock Hrun. split.
  - unfold runPollingLoop in Hrun.
    destruct (Load file) as [st0 | e]; [ | discriminate ].
    injection Hrun as <-.
    apply pollCycles_markers_in_order; [ exact Hclock | ].
    split; cbn; constructor.
  - intros tk l' Hc. cbv zeta.
    destruct (isOnCall tk) as [b | e] eqn:Hb.
    + rewrite (pollCycle_marker cfg tk l' b Hb).
      exact (advanceStep_marker cfg tk (currentState l') Hc).
    + unfold pollCycle. rewrite Hb. now left.
Qed.

End Markers.

(** ** The shift-ended transition *)

Section ShiftEnded.
Import GoTime state notifier main.

(** C7. The symmetric detector [HasTransitionToOffCall] is true
    exactly when the previous state was on call and the subject is off
    call now, as the manager's test expects of it; and the shift-ended
    event is raised exactly when the feature is enabled and that
    transition is seen. *)
Theorem HasTransitionToOffCall_spec :
  forall (previous : State) (currentlyOnCall : bool),
    (spec.HasTransitionToOffCall previous currentlyOnCall = true
     <-> WasOnCall previous = true /\ currentlyOnCall = false)
    /\ (forall (enabled : bool) (now : Time) (err : error),
           spec.shiftEndedStep enabled now err previous currentlyOnCall
           = if enabled && WasOnCall previous && negb currentlyOnCall
             then [NotifyWithEvent EventShiftEnded now err]
             else []).
Proof.
  intros [w m] c. unfold spec.shiftEndedStep, spec.HasTransitionToOffCall.
  cbn [WasOnCall]. split.
  - destruct w, c; cbn; intuition congruence.
  - intros enabled now err. destruct enabled, w, c; reflexivity.
Qed.

End ShiftEnded.

(** ** The properties at concrete inputs *)

Section Instances.
Import GoTime state notifier pagerduty config main sample.

Example advance_within_window :
  ShouldSendAdvanceNotification t0 defaultState (later t0 (30 * Minute)) Hour
  = true.
Proof. reflexivity. Qed.

Example advance_outside_window :
  ShouldSendAdvanceNotification t0 defaultState (later t0 (3 * Hour))
    (2 * Hour) = false.
Proof. reflexivity. Qed.

Example advance_skipped_when_already_sent :
  ShouldSendAdvanceNotification t0
    {| WasOnCall := false;
       LastAdvanceNotificationSent := Some (later t0 (- Hour)) |}
    (later t0 (30 * Minute)) Hour = false.
Proof. reflexivity. Qed.

Example calendar_agrees_with_reference_dates :
  forallb
    (fun p =>
       String.eqb (formatRFC3339Nano (Instant (fst p * 1000000000))) (snd p)
       && match parseRFC3339 (snd p) with
          | Some t => nanos t =? fst p * 1000000000
          | None => false
          end)
    referenceDates = true.
Proof. vm_compute. reflexivity. Qed.

Example fraction_loses_trailing_zeros :
  formatRFC3339Nano (Instant 1500000000) = "1970-01-01T00:00:01.5Z"%string
  /\ formatRFC3339Nano (Instant 1000000001)
     = "1970-01-01T00:00:01.000000001Z"%string
  /\ parseRFC3339 "1970-01-01T00:00:01.0000000019Z" = Some (Instant 1000000001).
Proof. repeat split; vm_compute; reflexivity. Qed.

Example invalid_dates_are_refused :
  parseRFC3339 "2026-02-29T12:00:00Z" = None
  /\ parseRFC3339 "2026-13-01T12:00:00Z" = None
  /\ parseRFC3339 "2026-10-30T24:00:00Z" = None
  /\ parseRFC3339 "2026-10-30 12:00:00Z" = None
  /\ parseRFC3339 "2026-10-30T12:00:00" = None.
Proof. repeat split; vm_compute; reflexivity. Qed.

Example nested_text_is_read :
  json.parse "[[[[[[[[ ]]]]]]], {}, [-0.5e+3, true]]"
  = Ok (json.JArray
          [ json.JArray [json.JArray [json.JArray [json.JArray
              [json.JArray [json.JArray [json.JArray []]]]]]];
            json.JObject [];
            json.JArray [json.JNumber "-0.5e+3"; json.JBool true] ]).
Proof. vm_compute. reflexivity. Qed.

Example saved_record :
  Save os.Written os.Absent
    {| WasOnCall := true; LastAdvanceNotificationSent := Some t0 |}
  = (os.Regular
       (String "{" (String newline
          ("  " ++ String dquote ("was_on_call" ++ String dquote
             (": true," ++ String newline
                ("  " ++ String dquote
                   ("last_advance_notification_sent" ++ String dquote
                      (": " ++ String dquote
                         ("2026-10-30T22:40:00.123456Z" ++ String dquote
                            (String newline "}")))))))))),
     None).
Proof. vm_compute. reflexivity. Qed.

Example loaded_record_with_offset :
  Load
    (os.Regular
       ("{ " ++ String dquote ("Was_On_Call" ++ String dquote
          (": true, " ++ String dquote ("other" ++ String dquote
             (": [1, 2.5e3, null], " ++ String dquote
                ("last_advance_notification_sent" ++ String dquote
                   (": " ++ String dquote
                      ("2026-10-30T23:40:00.123456+01:00" ++ String dquote
                         " }")))))))))
  = Ok {| WasOnCall := true;
          LastAdvanceNotificationSent :=
            Some {| nanos := nanos t0; zone := 60 |} |}.
Proof. vm_compute. reflexivity. Qed.

(** A timestamp keeps the zone it was read with: the last second of
    the year 9999 one hour west of UTC is written again as it was
    read, where the same instant in UTC, in the year 10000, is
    refused. *)
Example offset_is_read_and_written_again :
  Load
    (os.Regular
       ("{" ++ String dquote ("last_advance_notification_sent" ++ String dquote
          (":" ++ String dquote
             ("9999-12-31T23:59:59-01:00" ++ String dquote "}")))))
  = Ok {| WasOnCall := false;
          LastAdvanceNotificationSent :=
            Some {| nanos := 253402304399000000000; zone := -60 |} |}
  /\ Save os.Written os.Absent
       {| WasOnCall := false;
          LastAdvanceNotificationSent :=
            Some {| nanos := 253402304399000000000; zone := -60 |} |}
     = (os.Regular
          (String "{" (String newline
             ("  " ++ String dquote ("was_on_call" ++ String dquote
                (": false," ++ String newline
                   ("  " ++ String dquote
                      ("last_advance_notification_sent" ++ String dquote
                         (": " ++ String dquote
                            ("9999-12-31T23:59:59-01:00" ++ String dquote
                               (String newline "}")))))))))),
        None)
  /\ Save os.Written os.Absent
       {| WasOnCall := false;
          LastAdvanceNotificationSent :=
            Some (Instant 253402304399000000000) |}
     = (os.Absent,
        Some
          "failed to marshal state: json: error calling MarshalJSON for type *time.Time: Time.MarshalJSON: year outside of range [0,9999]"%string).
Proof. repeat split; vm_compute; reflexivity. Qed.

Example zones_are_written :
  formatRFC3339Nano {| nanos := 0; zone := 330 |}
  = "1970-01-01T05:30:00+05:30"%string
  /\ formatRFC3339Nano {| nanos := -1; zone := -1439 |}
     = "1969-12-31T00:00:59.999999999-23:59"%string
  /\ parseRFC3339 "1969-12-31T00:00:59.999999999-23:59"
     = Some {| nanos := -1; zone := -1439 |}
  /\ parseRFC3339 "1970-01-01T00:00:00+00:00" = Some (Instant 0)
  /\ parseRFC3339 "1970-01-01T00:00:00+24:00" = None
  /\ Time_MarshalJSON {| nanos := 0; zone := 1440 |}
     = Err "Time.MarshalJSON: timezone hour outside of range [0,23]".
Proof. repeat split; vm_compute; reflexivity. Qed.

Example corrupt_record_is_an_error :
  Load (os.Regular "{") = Err "failed to unmarshal state: invalid JSON text".
Proof. vm_compute. reflexivity. Qed.

Lemma ShouldSendAdvanceNotification_spec_witness :
  ShouldSendAdvanceNotification t0 defaultState (later t0 (30 * Minute)) 0
  = false.
Proof.
  apply (proj1 (proj2
           (ShouldSendAdvanceNotification_spec t0 defaultState
              (later t0 (30 * Minute)) 0))).
  lia.
Defined.

Lemma HasTransitionToOnCall_spec_witness :
  HasTransitionToOnCall defaultState true = true.
Proof.
  apply (proj1 (proj2 (HasTransitionToOnCall_spec defaultState true))).
  reflexivity.
Defined.

Lemma recorded_marker_suppresses_witness :
  nanos (later t0 (23 * Hour)) - nanos t0 < 24 * Hour
  /\ ShouldSendAdvanceNotification (later t0 (23 * Hour))
       (RecordAdvanceNotificationSent t0 defaultState)
       (later t0 (23 * Hour + 30 * Minute)) Hour
     = false.
Proof.
  split.
  - vm_compute. reflexivity.
  - apply (recorded_marker_suppresses defaultState t0 (later t0 (23 * Hour))).
    vm_compute. reflexivity.
Defined.

Lemma marked_marshalable : marshalable marked.
Proof. vm_compute. repeat split; discriminate. Defined.

Lemma Save_Load_round_trip_witness :
  marshalable marked
  /\ exists data,
       Save os.Written os.Absent marked = (os.Regular data, None)
       /\ Load (os.Regular data) = Ok marked.
Proof.
  split.
  - exact marked_marshalable.
  - exact (proj1 (Save_Load_round_trip marked os.Absent marked_marshalable)).
Defined.

Lemma Load_default_or_error_witness :
  Unmarshal "{" = Err "invalid JSON text"
  /\ Load (os.Regular "{") = Err (wrap "failed to unmarshal state" "invalid JSON text").
Proof.
  split.
  - vm_compute. reflexivity.
  - apply (proj1 (proj2 (proj2 Load_default_or_error))).
    vm_compute. reflexivity.
Defined.

Lemma marker_recorded_iff_delivered_witness :
  LastAdvanceNotificationSent (currentState (pollCycle cfg1 tick1 loop0))
  = Some (later t0 Second).
Proof.
  apply (proj1
           (marker_recorded_iff_delivered cfg1 tick1 loop0 shift1 true
              eq_refl eq_refl eq_refl));
    reflexivity.
Defined.

Lemma first_on_call_cycle_fires_once_witness :
  shiftStartedCount (calls (pollCycle cfg1 tick1 loop0)) = 1%nat
  /\ WasOnCall (currentState (pollCycle cfg1 tick1 loop0)) = true
  /\ Load (stateFile (pollCycle cfg1 tick1 loop0))
     = Ok (currentState (pollCycle cfg1 tick1 loop0))
  /\ shiftStartedCount
       (calls (pollCycle cfg1 tick2 (pollCycle cfg1 tick1 loop0))) = 1%nat.
Proof.
  pose proof
    (first_on_call_cycle_fires_once cfg1 os.Absent tick1 tick2
       (pollCycle cfg1 tick1 loop0)
       (pollCycle cfg1 tick2 (pollCycle cfg1 tick1 loop0))
       eq_refl eq_refl eq_refl eq_refl eq_refl)
    as (H1 & Hw & (err & _ & _ & Hsaved) & Hclock & H2).
  destruct Hsaved as (_ & _ & Hfile).
  - reflexivity.
  - apply Hclock.
    + vm_compute. split; discriminate.
    + vm_compute. reflexivity.
  - repeat split; assumption.
Defined.

Lemma ticks_clock_forward :
  forall tk, In tk [tick1; tick2] -> nanos (nowCheck tk) <= nanos (nowRecord tk).
Proof.
  intros tk [<- | [<- | []]]; vm_compute; discriminate.
Defined.

Lemma marker_never_moves_back_witness :
  StronglySorted marker_le
    (savedMarkers
       (calls (pollCycle cfg1 tick2 (pollCycle cfg1 tick1 loop0)))).
Proof.
  exact (proj1
           (marker_never_moves_back cfg1 os.Absent [tick1; tick2]
              (pollCycle cfg1 tick2 (pollCycle cfg1 tick1 loop0))
              ticks_clock_forward eq_refl)).
Defined.

Lemma HasTransitionToOffCall_spec_witness :
  spec.HasTransitionToOffCall
    {| WasOnCall := true; LastAdvanceNotificationSent := None |} false
  = true.
Proof.
  apply (proj1 (HasTransitionToOffCall_spec
                  {| WasOnCall := true; LastAdvanceNotificationSent := None |}
                  false)).
  split; reflexivity.
Defined.

End Instances.

(** * Further properties *)

(** ** Runs of the polling loop *)

Section Runs.
Import GoTime state notifier pagerduty config main runs.

Lemma pollCycle_unanswered (cfg : Config) (tk : Tick) (l : Loop) :
  answered tk = false -> pollCycle cfg tk l = l.
Proof.
  unfold answered, pollCycle.
  destruct (isOnCall tk); [ discriminate | reflexivity ].
Qed.

(** X1. A tick on which the on-call query fails changes nothing: the run
    is the run over the ticks that got an answer. *)
Theorem failed_queries_are_skipped :
  forall (cfg : Config) (ticks : list Tick) (l : Loop),
    pollCycles cfg ticks l = pollCycles cfg (filter answered ticks) l.
Proof.
  intros cfg ticks. induction ticks as [| tk ticks IH]; intros l.
  - reflexivity.
  - cbn [filter pollCycles fold_left].
    destruct (answered tk) eqn:Ha.
    + cbn [fold_left]. apply IH.
    + rewrite (pollCycle_unanswered cfg tk l Ha). apply IH.
Qed.

Lemma last_cons {A : Type} (x d : A) (xs : list A) :
  last (x :: xs) d = last xs x.
Proof.
  revert x d. induction xs as [| y ys IH]; intros x d; [ reflexivity | ].
  change (last (x :: y :: ys) d) with (last (y :: ys) d).
  rewrite (IH y d), (IH y x). reflexivity.
Qed.

Lemma pollCycles_cons (cfg : Config) (tk : Tick) (ticks : list Tick)
    (l : Loop) :
  pollCycles cfg (tk :: ticks) l = pollCycles cfg ticks (pollCycle cfg tk l).
Proof. reflexivity. Qed.

Lemma pollCycles_app (cfg : Config) (ticks1 ticks2 : list Tick) (l : Loop) :
  pollCycles cfg (ticks1 ++ ticks2) l
  = pollCycles cfg ticks2 (pollCycles cfg ticks1 l).
Proof. unfold pollCycles. apply fold_left_app. Qed.

Lemma pollCycle_WasOnCall (cfg : Config) (tk : Tick) (l : Loop) (b : bool) :
  isOnCall tk = Ok b -> WasOnCall (currentState (pollCycle cfg tk l)) = b.
Proof.
  intros Hb. destruct (pollCycle_answered cfg tk l b Hb) as (-> & _).
  reflexivity.
Qed.

Lemma pollCycles_WasOnCall (cfg : Config) (ticks : list Tick) :
  forall l : Loop,
    WasOnCall (currentState (pollCycles cfg ticks l))
    = last (observations ticks) (WasOnCall (currentState l)).
Proof.
  induction ticks as [| tk ticks IH]; intros l; [ reflexivity | ].
  rewrite pollCycles_cons, IH. cbn [observations].
  destruct (isOnCall tk) as [b | e] eqn:Hb.
  - rewrite (pollCycle_WasOnCall cfg tk l b Hb), last_cons. reflexivity.
  - unfold pollCycle. rewrite Hb. reflexivity.
Qed.

Lemma pollCycles_shiftStartedCount (cfg : Config) (ticks : list Tick) :
  forall l : Loop,
    shiftStartedCount (calls (pollCycles cfg ticks l))
    = (shiftStartedCount (calls l)
       + risingEdges (WasOnCall (currentState l)) (observations ticks))%nat.
Proof.
  induction ticks as [| tk ticks IH]; intros l.
  - cbn. lia.
  - rewrite pollCycles_cons, IH. cbn [observations].
    destruct (isOnCall tk) as [b | e] eqn:Hb.
    + rewrite (pollCycle_shiftStartedCount cfg tk l b Hb),
        (pollCycle_WasOnCall cfg tk l b Hb).
      cbn [risingEdges]. unfold HasTransitionToOnCall. lia.
    + unfold pollCycle. rewrite Hb. reflexivity.
Qed.

(** X2. Whatever fails to be delivered or saved, the state of the loop
    holds the last answer of PagerDuty, and what was loaded when there
    was no answer. *)
Theorem run_tracks_last_observation :
  forall (cfg : Config) (file : os.node) (ticks : list Tick)
         (st0 : State) (l : Loop),
    Load file = Ok st0 ->
    runPollingLoop cfg file ticks = Ok l ->
    WasOnCall (currentState l) = last (observations ticks) (WasOnCall st0).
Proof.
  intros cfg file ticks st0 l Hload Hrun.
  unfold runPollingLoop in Hrun. rewrite Hload in Hrun.
  injection Hrun as <-. rewrite pollCycles_WasOnCall. reflexivity.
Qed.

(** X3. The shift-started events of a run are as many as the changes from
    off call to on call in PagerDuty's answers, counted from the state
    that was loaded: one per on-call period, however many ticks it
    lasts. *)
Theorem shift_started_once_per_period :
  forall (cfg : Config) (file : os.node) (ticks : list Tick)
         (st0 : State) (l : Loop),
    Load file = Ok st0 ->
    runPollingLoop cfg file ticks = Ok l ->
    shiftStartedCount (calls l)
    = risingEdges (WasOnCall st0) (observations ticks).
Proof.
  intros cfg file ticks st0 l Hload Hrun.
  unfold runPollingLoop in Hrun. rewrite Hload in Hrun.
  injection Hrun as <-. rewrite pollCycles_shiftStartedCount. reflexivity.
Qed.

(** *** Advance notifications over a run *)

Lemma advanceStep_disabled (cfg : Config) (tk : Tick) (st : State) :
  AdvanceNotificationTime cfg <= 0 -> advanceStep cfg tk st = (st, []).
Proof.
  intros H. unfold advanceStep.
  destruct (Z.gtb_spec (AdvanceNotificationTime cfg) 0); [ lia | reflexivity ].
Qed.

Lemma filter_upcoming_app (a b : list call) :
  filter isUpcomingShift (a ++ b)
  = filter isUpcomingShift a ++ filter isUpcomingShift b.
Proof. apply filter_app. Qed.

Lemma shiftStartedStep_no_upcoming (tk : Tick) (st : State) (b : bool) :
  filter isUpcomingShift (shiftStartedStep tk st b) = [].
Proof.
  unfold shiftStartedStep. destruct (HasTransitionToOnCall st b); reflexivity.
Qed.

Lemma pollCycles_disabled (cfg : Config) (ticks : list Tick) :
  AdvanceNotificationTime cfg <= 0 ->
  forall l : Loop,
    filter isUpcomingShift (calls (pollCycles cfg ticks l))
    = filter isUpcomingShift (calls l)
    /\ LastAdvanceNotificationSent (currentState (pollCycles cfg ticks l))
       = LastAdvanceNotificationSent (currentState l).
Proof.
  intros Hoff. induction ticks as [| tk ticks IH]; intros l.
  - split; reflexivity.
  - rewrite pollCycles_cons.
    destruct (IH (pollCycle cfg tk l)) as [-> ->].
    destruct (isOnCall tk) as [b | e] eqn:Hb.
    + destruct (pollCycle_answered cfg tk l b Hb) as (-> & _ & ->).
      rewrite (advanceStep_disabled cfg tk (currentState l) Hoff).
      cbn [fst snd app LastAdvanceNotificationSent].
      rewrite !filter_upcoming_app, shiftStartedStep_no_upcoming.
      cbn [filter isUpcomingShift app]. rewrite app_nil_r.
      split; reflexivity.
    + unfold pollCycle. rewrite Hb. split; reflexivity.
Qed.

(** X4. With the advance window at zero (or below), a run sends no
    upcoming-shift event and leaves the dedup marker as it was
    loaded. *)
Theorem disabled_window_sends_nothing :
  forall (cfg : Config) (file : os.node) (ticks : list Tick)
         (st0 : State) (l : Loop),
    AdvanceNotificationTime cfg <= 0 ->
    Load file = Ok st0 ->
    runPollingLoop cfg file ticks = Ok l ->
    filter isUpcomingShift (calls l) = []
    /\ LastAdvanceNotificationSent (currentState l)
       = LastAdvanceNotificationSent st0.
Proof.
  intros cfg file ticks st0 l Hoff Hload Hrun.
  unfold runPollingLoop in Hrun. rewrite Hload in Hrun.
  injection Hrun as <-.
  exact (pollCycles_disabled cfg ticks Hoff _).
Qed.

Lemma advanceStep_calls (cfg : Config) (tk : Tick) (st : State) (c : call) :
  In c (snd (advanceStep cfg tk st)) ->
  exists shift,
    upcomingShift tk = Ok (Some shift)
    /\ c = NotifyWithEvent EventUpcomingShift (StartTime shift)
             (notifyUpcoming tk)
    /\ ShouldSendAdvanceNotification (nowCheck tk) st (StartTime shift)
         (AdvanceNotificationTime cfg) = true.
Proof.
  unfold advanceStep.
  destruct (AdvanceNotificationTime cfg >? 0); [ | intros [] ].
  destruct (upcomingShift tk) as [[shift |] | e]; try (intros []).
  destruct (ShouldSendAdvanceNotification _ _ _ _) eqn:Hs; [ | intros [] ].
  destruct (notifyUpcoming tk) as [err |]; cbn [snd In];
    intros [<- | []]; exists shift; repeat split; assumption.
Qed.

Lemma pollCycles_upcoming_calls (cfg : Config) (ticks : list Tick) :
  forall (l : Loop) (s : Time) (e : error),
    In (NotifyWithEvent EventUpcomingShift s e)
      (calls (pollCycles cfg ticks l)) ->
    In (NotifyWithEvent EventUpcomingShift s e) (calls l)
    \/ exists tk shift,
         In tk ticks
         /\ upcomingShift tk = Ok (Some shift)
         /\ StartTime shift = s
         /\ notifyUpcoming tk = e
         /\ 0 < Sub s (nowCheck tk) <= AdvanceNotificationTime cfg.
Proof.
  induction ticks as [| tk ticks IH]; intros l s e Hin; [ now left | ].
  rewrite pollCycles_cons in Hin.
  destruct (IH _ _ _ Hin) as [Hold | (tk' & shift & Hi & Hrest)].
  - destruct (isOnCall tk) as [b | err] eqn:Hb.
    + destruct (pollCycle_answered cfg tk l b Hb) as (_ & _ & Hc).
      rewrite Hc in Hold.
      apply in_app_or in Hold as [Hold | Hold]; [ now left | ].
      apply in_app_or in Hold as [Hold | Hold].
      * right.
        destruct (advanceStep_calls cfg tk _ _ Hold)
          as (shift & Hu & Heq & Hs).
        injection Heq as Hs1 He1. subst s e.
        apply should_send_true_iff in Hs. destruct Hs as (_ & Hw & _).
        exists tk, shift. repeat split; try assumption; try lia.
        now left.
      * exfalso.
        apply in_app_or in Hold as [Hold | Hold].
        -- unfold shiftStartedStep in Hold.
           destruct (HasTransitionToOnCall _ _); cbn in Hold;
             [ destruct Hold as [Hold | []]; discriminate | contradiction ].
        -- destruct Hold as [Hold | []]. discriminate.
    + unfold pollCycle in Hold. rewrite Hb in Hold. now left.
  - right. exists tk', shift. split; [ now right | exact Hrest ].
Qed.

(** X5. Every upcoming-shift event of a run is about the shift PagerDuty
    returned on some tick, and at the time of the decision that shift
    had not started yet and was no further away than the advance
    window. *)
Theorem upcoming_events_are_within_window :
  forall (cfg : Config) (file : os.node) (ticks : list Tick) (l : Loop)
         (s : Time) (e : error),
    runPollingLoop cfg file ticks = Ok l ->
    In (NotifyWithEvent EventUpcomingShift s e) (calls l) ->
    exists tk shift,
      In tk ticks
      /\ upcomingShift tk = Ok (Some shift)
      /\ StartTime shift = s
      /\ notifyUpcoming tk = e
      /\ 0 < Sub s (nowCheck tk) <= AdvanceNotificationTime cfg.
Proof.
  intros cfg file ticks l s e Hrun Hin.
  unfold runPollingLoop in Hrun.
  destruct (Load file) as [st0 | err]; [ | discriminate ].
  injection Hrun as <-.
  destruct (pollCycles_upcoming_calls cfg ticks _ s e Hin) as [[] | H].
  exact H.
Qed.

(** *** The cooldown between advance notifications *)

Lemma cooldown_apart_refl (m : option Time) : cooldown_apart m m.
Proof.
  destruct m as [t |]; cbn [cooldown_apart]; [ | exact I ].
  exists t. split; [ reflexivity | now left ].
Qed.

Lemma cooldown_apart_trans (a b c : option Time) :
  cooldown_apart a b -> cooldown_apart b c -> cooldown_apart a c.
Proof.
  unfold cooldown_apart. rewrite Hour_value.
  destruct a as [ta |]; [ | trivial ].
  intros (tb & -> & Hab) (tc & -> & Hbc).
  exists tc. split; [ reflexivity | ].
  destruct Hab as [-> | Hab], Hbc as [-> | Hbc];
    [ now left | now right | now right | right; lia ].
Qed.

Lemma advanceStep_cooldown (cfg : Config) (tk : Tick) (st : State) :
  nanos (nowCheck tk) <= nanos (nowRecord tk) ->
  cooldown_apart (LastAdvanceNotificationSent st)
    (LastAdvanceNotificationSent (fst (advanceStep cfg tk st))).
Proof.
  intros Hclock. unfold advanceStep.
  destruct (AdvanceNotificationTime cfg >? 0);
    [ | apply cooldown_apart_refl ].
  destruct (upcomingShift tk) as [[shift |] | e];
    try apply cooldown_apart_refl.
  destruct (ShouldSendAdvanceNotification _ _ _ _) eqn:Hs;
    [ | apply cooldown_apart_refl ].
  destruct (notifyUpcoming tk); [ apply cooldown_apart_refl | ].
  cbn [fst RecordAdvanceNotificationSent LastAdvanceNotificationSent].
  apply should_send_true_iff in Hs.
  destruct Hs as (_ & _ & [Hnone | (last & Hlast & Hold)]).
  - rewrite Hnone. exact I.
  - rewrite Hlast. cbn [cooldown_apart].
    exists (nowRecord tk). split; [ reflexivity | ].
    right. apply cooldown_on_instants in Hold. lia.
Qed.

Lemma pollCycles_cooldown (cfg : Config) (ticks : list Tick) :
  forall l : Loop,
    (forall tk, In tk ticks -> nanos (nowCheck tk) <= nanos (nowRecord tk)) ->
    StronglySorted cooldown_apart (savedMarkers (calls l)) ->
    Forall
      (fun m =>
         cooldown_apart m (LastAdvanceNotificationSent (currentState l)))
      (savedMarkers (calls l)) ->
    StronglySorted cooldown_apart
      (savedMarkers (calls (pollCycles cfg ticks l)))
    /\ cooldown_apart (LastAdvanceNotificationSent (currentState l))
         (LastAdvanceNotificationSent (currentState (pollCycles cfg ticks l))).
Proof.
  induction ticks as [| tk ticks IH]; intros l Hclock Hsorted Hbelow.
  - split; [ exact Hsorted | apply cooldown_apart_refl ].
  - rewrite pollCycles_cons.
    assert (Hc : nanos (nowCheck tk) <= nanos (nowRecord tk))
      by (apply Hclock; now left).
    assert (Hrest :
      forall tk', In tk' ticks ->
                  nanos (nowCheck tk') <= nanos (nowRecord tk'))
      by (intros tk' Hin; apply Hclock; now right).
    destruct (isOnCall tk) as [b | e] eqn:Hb.
    + destruct (pollCycle_answered cfg tk l b Hb) as (Hst & _ & Hcalls).
      cbv zeta in Hst, Hcalls.
      pose proof (advanceStep_cooldown cfg tk (currentState l) Hc) as Hstep.
      assert (Hall :
        Forall
          (fun m =>
             cooldown_apart m
               (LastAdvanceNotificationSent
                  (fst (advanceStep cfg tk (currentState l)))))
          (savedMarkers (calls l))).
      { eapply Forall_impl; [ | exact Hbelow ].
        intros m Hm. exact (cooldown_apart_trans _ _ _ Hm Hstep). }
      destruct (IH (pollCycle cfg tk l) Hrest) as [Hs' Hm'].
      * rewrite Hcalls, !savedMarkers_app, advanceStep_no_save,
          shiftStartedStep_no_save.
        cbn [app savedMarkers LastAdvanceNotificationSent].
        apply StronglySorted_snoc; assumption.
      * rewrite Hcalls, Hst, !savedMarkers_app, advanceStep_no_save,
          shiftStartedStep_no_save.
        cbn [app savedMarkers LastAdvanceNotificationSent].
        apply Forall_app. split; [ exact Hall | ].
        constructor; [ apply cooldown_apart_refl | constructor ].
      * split; [ exact Hs' | ].
        refine (cooldown_apart_trans _ _ _ _ Hm').
        rewrite Hst. exact Hstep.
    + assert (E : pollCycle cfg tk l = l)
        by (unfold pollCycle; rewrite Hb; reflexivity).
      rewrite E. apply IH; assumption.
Qed.

(** X6. With a clock that does not run backwards between the decision and
    the record of a cycle, the dedup marker only changes by a full
    cooldown: of two markers a run hands to [Save], the later one is
    the earlier one or at least 24 hours past it, and the same holds
    from the marker that was loaded to the one the run ends with.
    Two advance notifications are never recorded less than 24 hours
    apart. *)
Theorem advance_notifications_a_day_apart :
  forall (cfg : Config) (file : os.node) (ticks : list Tick)
         (st0 : State) (l : Loop),
    (forall tk, In tk ticks -> nanos (nowCheck tk) <= nanos (nowRecord tk)) ->
    Load file = Ok st0 ->
    runPollingLoop cfg file ticks = Ok l ->
    StronglySorted cooldown_apart (savedMarkers (calls l))
    /\ cooldown_apart (LastAdvanceNotificationSent st0)
         (LastAdvanceNotificationSent (currentState l)).
Proof.
  intros cfg file ticks st0 l Hclock Hload Hrun.
  unfold runPollingLoop in Hrun. rewrite Hload in Hrun.
  injection Hrun as <-.
  apply (pollCycles_cooldown cfg ticks
           {| currentState := st0; stateFile := file; calls := [] |} Hclock);
    cbn; constructor.
Qed.

(** *** The file system and the decisions *)

Lemma advanceStep_same_answers (cfg : Config) (tk tk' : Tick) (st : State) :
  sameButSaveIO tk tk' -> advanceStep cfg tk st = advanceStep cfg tk' st.
Proof.
  intros (_ & Hu & Hc & Hn & Hr & _). unfold advanceStep.
  rewrite Hu, Hc, Hn, Hr. reflexivity.
Qed.

Lemma shiftStartedStep_same_answers (tk tk' : Tick) (st : State) (b : bool) :
  sameButSaveIO tk tk' -> shiftStartedStep tk st b = shiftStartedStep tk' st b.
Proof.
  intros (_ & _ & _ & _ & _ & Hs & Hn). unfold shiftStartedStep.
  rewrite Hs, Hn. reflexivity.
Qed.

Lemma notifications_app (a b : list call) :
  notifications (a ++ b) = notifications a ++ notifications b.
Proof. apply filter_app. Qed.

Lemma notifications_advanceStep (cfg : Config) (tk : Tick) (st : State) :
  notifications (snd (advanceStep cfg tk st)) = snd (advanceStep cfg tk st).
Proof.
  unfold advanceStep.
  destruct (AdvanceNotificationTime cfg >? 0); [ | reflexivity ].
  destruct (upcomingShift tk) as [[shift |] | e]; try reflexivity.
  destruct (ShouldSendAdvanceNotification _ _ _ _); [ | reflexivity ].
  destruct (notifyUpcoming tk); reflexivity.
Qed.

Lemma notifications_shiftStartedStep (tk : Tick) (st : State) (b : bool) :
  notifications (shiftStartedStep tk st b) = shiftStartedStep tk st b.
Proof.
  unfold shiftStartedStep. destruct (HasTransitionToOnCall st b); reflexivity.
Qed.

Lemma pollCycle_notifications (cfg : Config) (tk : Tick) (l : Loop) (b : bool) :
  isOnCall tk = Ok b ->
  notifications (calls (pollCycle cfg tk l))
  = notifications (calls l)
    ++ snd (advanceStep cfg tk (currentState l))
    ++ shiftStartedStep tk (fst (advanceStep cfg tk (currentState l))) b.
Proof.
  intros Hb. destruct (pollCycle_answered cfg tk l b Hb) as (_ & _ & ->).
  rewrite !notifications_app, notifications_advanceStep,
    notifications_shiftStartedStep.
  cbn [notifications filter isSave negb]. rewrite app_nil_r. reflexivity.
Qed.

Lemma pollCycles_same_answers (cfg : Config) (ticks ticks' : list Tick) :
  Forall2 sameButSaveIO ticks ticks' ->
  forall l l' : Loop,
    currentState l = currentState l' ->
    notifications (calls l) = notifications (calls l') ->
    currentState (pollCycles cfg ticks l)
    = currentState (pollCycles cfg ticks' l')
    /\ notifications (calls (pollCycles cfg ticks l))
       = notifications (calls (pollCycles cfg ticks' l')).
Proof.
  induction 1 as [| tk tk' ticks ticks' Hsame _ IH]; intros l l' Hst Hn.
  - split; assumption.
  - rewrite !pollCycles_cons.
    pose proof Hsame as (Hb & _).
    destruct (isOnCall tk) as [b | e] eqn:Eb.
    + symmetry in Hb.
      destruct (pollCycle_answered cfg tk l b Eb) as (Hs1 & _).
      destruct (pollCycle_answered cfg tk' l' b Hb) as (Hs2 & _).
      apply IH.
      * rewrite Hs1, Hs2, Hst,
          (advanceStep_same_answers cfg tk tk' _ Hsame).
        reflexivity.
      * rewrite (pollCycle_notifications cfg tk l b Eb),
          (pollCycle_notifications cfg tk' l' b Hb), Hn, Hst,
          (advanceStep_same_answers cfg tk tk' _ Hsame),
          (shiftStartedStep_same_answers tk tk' _ b Hsame).
        reflexivity.
    + symmetry in Hb.
      assert (E1 : pollCycle cfg tk l = l)
        by (unfold pollCycle; rewrite Eb; reflexivity).
      assert (E2 : pollCycle cfg tk' l' = l')
        by (unfold pollCycle; rewrite Hb; reflexivity).
      rewrite E1, E2. apply IH; assumption.
Qed.

(** X7. What the file system does to the writes of a run has no bearing on
    what the run decides: two runs from the same record whose ticks
    differ in the outcome of [Save] only end in the same state and
    make the same calls to the notifier. *)
Theorem save_failures_do_not_change_decisions :
  forall (cfg : Config) (file : os.node) (ticks ticks' : list Tick)
         (l l' : Loop),
    Forall2 sameButSaveIO ticks ticks' ->
    runPollingLoop cfg file ticks = Ok l ->
    runPollingLoop cfg file ticks' = Ok l' ->
    currentState l = currentState l'
    /\ notifications (calls l) = notifications (calls l').
Proof.
  intros cfg file ticks ticks' l l' Hsame Hrun Hrun'.
  unfold runPollingLoop in Hrun, Hrun'.
  destruct (Load file) as [st0 | e]; [ | discriminate ].
  injection Hrun as <-. injection Hrun' as <-.
  apply pollCycles_same_answers; [ exact Hsame | reflexivity .. ].
Qed.

(** *** Stopping and starting again *)

Lemma lastSaveError_app (a b : list call) (sofar : error) :
  lastSaveError (a ++ b) sofar = lastSaveError b (lastSaveError a sofar).
Proof.
  revert sofar. induction a as [| [ev t e | st e] a IH]; intros sofar;
    cbn; [ reflexivity | apply IH .. ].
Qed.

Lemma lastSaveError_no_save (cs : list call) (sofar : error) :
  savedMarkers cs = [] -> lastSaveError cs sofar = sofar.
Proof.
  induction cs as [| [ev t e | st e] cs IH]; cbn;
    [ reflexivity | exact IH | discriminate ].
Qed.

(** After a [Save] that returned [nil], and before any [Save], the
    state file reads back as the state of the loop. *)
Lemma pollCycles_in_sync (cfg : Config) (ticks : list Tick) :
  forall l : Loop,
    (lastSaveError (calls l) None = None ->
     Load (stateFile l) = Ok (currentState l)) ->
    lastSaveError (calls (pollCycles cfg ticks l)) None = None ->
    Load (stateFile (pollCycles cfg ticks l))
    = Ok (currentState (pollCycles cfg ticks l)).
Proof.
  induction ticks as [| tk ticks IH]; intros l Hsync; [ exact Hsync | ].
  rewrite pollCycles_cons. apply IH.
  destruct (isOnCall tk) as [b | e] eqn:Hb.
  - destruct (pollCycle_answered cfg tk l b Hb) as (Hst & Hf & Hc).
    cbv zeta in Hst, Hf, Hc.
    rewrite Hc, Hst, Hf, !lastSaveError_app.
    cbn [lastSaveError]. intros Herr.
    match goal with
    | |- context [Save ?io ?f ?st] => destruct (Save io f st) as [f' e] eqn:Es
    end.
    cbn [fst snd] in *. subst e.
    exact (Save_nil_Load _ _ _ _ Es).
  - unfold pollCycle. rewrite Hb. exact Hsync.
Qed.

Lemma pollCycle_prepend (cfg : Config) (tk : Tick) (earlier : list call)
    (l : Loop) :
  pollCycle cfg tk (prepend earlier l) = prepend earlier (pollCycle cfg tk l).
Proof.
  unfold pollCycle, prepend. cbn [currentState stateFile calls].
  destruct (isOnCall tk); [ | reflexivity ].
  destruct (advanceStep cfg tk (currentState l)) as [st1 cs1].
  destruct (Save _ _ _) as [f' e].
  cbn [currentState stateFile calls]. rewrite <- !app_assoc. reflexivity.
Qed.

Lemma pollCycles_prepend (cfg : Config) (ticks : list Tick)
    (earlier : list call) :
  forall l : Loop,
    pollCycles cfg ticks (prepend earlier l)
    = prepend earlier (pollCycles cfg ticks l).
Proof.
  induction ticks as [| tk ticks IH]; intros l; [ reflexivity | ].
  rewrite !pollCycles_cons, pollCycle_prepend. apply IH.
Qed.

(** X8. A run that stops after a [Save] that returned [nil] (or before any
    [Save]) can be picked up from the state file: the new process
    loads the state the old one ended with, and running it over the
    ticks that follow gives the state, the file and, put after the
    old log, the calls of a run that never stopped. *)
Theorem restart_resumes_the_run :
  forall (cfg : Config) (file : os.node) (ticks1 ticks2 : list Tick)
         (l1 : Loop),
    runPollingLoop cfg file ticks1 = Ok l1 ->
    lastSaveError (calls l1) None = None ->
    Load (stateFile l1) = Ok (currentState l1)
    /\ exists l2,
         runPollingLoop cfg (stateFile l1) ticks2 = Ok l2
         /\ runPollingLoop cfg file (ticks1 ++ ticks2)
            = Ok (prepend (calls l1) l2).
Proof.
  intros cfg file ticks1 ticks2 l1 Hrun Hlast.
  unfold runPollingLoop in Hrun |- *.
  destruct (Load file) as [st0 | e] eqn:Hload; [ | discriminate ].
  injection Hrun as <-.
  set (l0 := {| currentState := st0; stateFile := file; calls := [] |}) in *.
  assert (Hsync :
    Load (stateFile (pollCycles cfg ticks1 l0))
    = Ok (currentState (pollCycles cfg ticks1 l0))).
  { apply pollCycles_in_sync; [ | exact Hlast ]. intros _. exact Hload. }
  split; [ exact Hsync | ].
  rewrite Hsync. eexists. split; [ reflexivity | ].
  rewrite pollCycles_app, <- pollCycles_prepend. f_equal. f_equal.
  unfold prepend. cbn [currentState stateFile calls].
  rewrite app_nil_r. destruct (pollCycles cfg ticks1 l0); reflexivity.
Qed.

(** *** One [Save] per answer *)

Lemma savedStates_app (a b : list call) :
  savedStates (a ++ b) = savedStates a ++ savedStates b.
Proof.
  induction a as [| [ev t e | st e] a IH]; cbn [app savedStates];
    [ reflexivity | exact IH | ].
  f_equal. exact IH.
Qed.

Lemma advanceStep_saves_nothing (cfg : Config) (tk : Tick) (st : State) :
  savedStates (snd (advanceStep cfg tk st)) = [].
Proof.
  unfold advanceStep.
  destruct (AdvanceNotificationTime cfg >? 0); [ | reflexivity ].
  destruct (upcomingShift tk) as [[shift |] | e]; try reflexivity.
  destruct (ShouldSendAdvanceNotification _ _ _ _); [ | reflexivity ].
  destruct (notifyUpcoming tk); reflexivity.
Qed.

Lemma shiftStartedStep_saves_nothing (tk : Tick) (st : State) (b : bool) :
  savedStates (shiftStartedStep tk st b) = [].
Proof.
  unfold shiftStartedStep.
  destruct (HasTransitionToOnCall st b); reflexivity.
Qed.

Lemma last_snoc {A : Type} (xs : list A) (x d : A) :
  last (xs ++ [x]) d = x.
Proof.
  induction xs as [| y xs IH]; [ reflexivity | ].
  cbn [app]. destruct (xs ++ [x]) eqn:E; [ | exact IH ].
  destruct xs; discriminate.
Qed.

Lemma pollCycles_saved (cfg : Config) (ticks : list Tick) (d : State) :
  forall l : Loop,
    currentState l = last (savedStates (calls l)) d ->
    map WasOnCall (savedStates (calls (pollCycles cfg ticks l)))
    = map WasOnCall (savedStates (calls l)) ++ observations ticks
    /\ currentState (pollCycles cfg ticks l)
       = last (savedStates (calls (pollCycles cfg ticks l))) d.
Proof.
  induction ticks as [| tk ticks IH]; intros l Hl.
  - cbn [observations]. rewrite app_nil_r. split; [ reflexivity | exact Hl ].
  - rewrite pollCycles_cons. cbn [observations].
    destruct (isOnCall tk) as [b | e] eqn:Hb.
    + destruct (pollCycle_answered cfg tk l b Hb) as (Hst & _ & Hc).
      cbv zeta in Hst, Hc.
      assert (Hsaved :
        savedStates (calls (pollCycle cfg tk l))
        = savedStates (calls l) ++ [currentState (pollCycle cfg tk l)]).
      { rewrite Hc, Hst, !savedStates_app, advanceStep_saves_nothing,
          shiftStartedStep_saves_nothing.
        reflexivity. }
      destruct (IH (pollCycle cfg tk l)) as [Hobs Hlast].
      { rewrite Hsaved, last_snoc. reflexivity. }
      split; [ | exact Hlast ].
      rewrite Hobs, Hsaved, map_app, <- app_assoc. cbn [map app].
      rewrite Hst. reflexivity.
    + assert (E : pollCycle cfg tk l = l)
        by (unfold pollCycle; rewrite Hb; reflexivity).
      rewrite E. apply IH. exact Hl.
Qed.

(** X9. Every tick on which PagerDuty answers ends with one [Save],
    whether the state changed or not: the states handed to [Save]
    carry the answers in order, and the state the loop holds is the
    last one handed to [Save], or the loaded one before any. *)
Theorem every_answer_is_saved :
  forall (cfg : Config) (file : os.node) (ticks : list Tick)
         (st0 : State) (l : Loop),
    Load file = Ok st0 ->
    runPollingLoop cfg file ticks = Ok l ->
    map WasOnCall (savedStates (calls l)) = observations ticks
    /\ currentState l = last (savedStates (calls l)) st0.
Proof.
  intros cfg file ticks st0 l Hload Hrun.
  unfold runPollingLoop in Hrun. rewrite Hload in Hrun.
  injection Hrun as <-.
  apply (pollCycles_saved cfg ticks st0
           {| currentState := st0; stateFile := file; calls := [] |}).
  reflexivity.
Qed.

End Runs.

(** ** More on the state store *)

Section StoreEdges.
Import GoTime state.

Lemma marshalable_or_not (st : State) : marshalable st \/ ~ marshalable st.
Proof.
  unfold marshalable.
  destruct (LastAdvanceNotificationSent st) as [t |]; [ lia | now left ].
Qed.

Lemma MarshalIndent_Ok_marshalable (st : State) (data : string) :
  MarshalIndent st = Ok data -> marshalable st.
Proof.
  intros Hd. destruct (marshalable_or_not st) as [Hv | Hn]; [ exact Hv | ].
  apply encode_error in Hn. destruct Hn as [e He].
  unfold MarshalIndent in Hd. rewrite He in Hd. discriminate.
Qed.

Lemma MarshalIndent_Err_not_marshalable (st : State) (e : string) :
  MarshalIndent st = Err e -> ~ marshalable st.
Proof.
  intros He Hv. destruct (MarshalIndent_ok st Hv) as [data Hd].
  rewrite Hd in He. discriminate.
Qed.

Lemma Save_nil_iff (io : os.outcome) (file : os.node) (st : State) :
  snd (Save io file st) = None <-> io = os.Written /\ marshalable st.
Proof.
  unfold Save.
  destruct io as [| reason | reason residue]; cbn [os.MkdirAll os.WriteFile].
  - destruct (MarshalIndent st) as [data | e] eqn:Ed; cbn [snd].
    + split; [ intros _ | reflexivity ].
      split; [ reflexivity | exact (MarshalIndent_Ok_marshalable _ _ Ed) ].
    + split; [ discriminate | intros [_ Hv] ].
      destruct (MarshalIndent_Err_not_marshalable _ _ Ed Hv).
  - cbn [snd]. split; [ discriminate | intros [H _]; discriminate ].
  - destruct (MarshalIndent st); cbn [snd];
      (split; [ discriminate | intros [H _]; discriminate ]).
Qed.

Lemma Save_nil_file (io : os.outcome) (file : os.node) (st : State) :
  snd (Save io file st) = None ->
  exists data,
    MarshalIndent st = Ok data /\ fst (Save io file st) = os.Regular data.
Proof.
  intros Hnil. pose proof Hnil as Hs.
  apply Save_nil_iff in Hs. destruct Hs as [-> Hv].
  destruct (MarshalIndent_ok st Hv) as [data Hd].
  exists data. split; [ exact Hd | ].
  unfold Save. cbn [os.MkdirAll]. rewrite Hd. reflexivity.
Qed.

Lemma Save_untouched (io : os.outcome) (file : os.node) (st : State) :
  (exists reason, io = os.MkdirAllFails reason) \/ ~ marshalable st ->
  fst (Save io file st) = file /\ snd (Save io file st) <> None.
Proof.
  intros [[reason ->] | Hn].
  - unfold Save. cbn [os.MkdirAll fst snd]. split; [ reflexivity | discriminate ].
  - apply encode_error in Hn. destruct Hn as [e He].
    unfold Save, MarshalIndent. rewrite He. cbn [bind].
    destruct (os.MkdirAll io); cbn [fst snd];
      (split; [ reflexivity | discriminate ]).
Qed.

(** X10. [Save] returns [nil] exactly when the file system takes the write
    and the state can be marshalled (its timestamp absent, or with a
    year from 0 to 9999 on the calendar of its own zone and a zone
    offset under 24 hours), and the file then holds the marshalled
    state; when the directory cannot be made or the state cannot be
    marshalled, [Save] returns an error and what was at the path is
    left as it was. *)
Theorem Save_outcomes :
  forall (io : os.outcome) (file : os.node) (st : State),
    (snd (Save io file st) = None <-> io = os.Written /\ marshalable st)
    /\ (snd (Save io file st) = None ->
        exists data,
          MarshalIndent st = Ok data
          /\ fst (Save io file st) = os.Regular data)
    /\ ((exists reason, io = os.MkdirAllFails reason) \/ ~ marshalable st ->
        fst (Save io file st) = file /\ snd (Save io file st) <> None).
Proof.
  intros io file st. split; [ | split ].
  - apply Save_nil_iff.
  - apply Save_nil_file.
  - apply Save_untouched.
Qed.

Lemma decodeMembers_app (st : State) (a b : list (string * json.value)) :
  decodeMembers st (a ++ b)
  = bind (decodeMembers st a) (fun st' => decodeMembers st' b).
Proof.
  revert st. induction a as [| [k v] a IH]; intros st; [ reflexivity | ].
  cbn [app decodeMembers].
  destruct (decodeMember st k v) as [st' | e]; cbn [bind];
    [ apply IH | reflexivity ].
Qed.

(** X11. A member whose key names neither field of the state (exactly or
    up to case) is passed over: the record reads the same with it and
    without it, whatever its value and wherever it stands. *)
Theorem unknown_members_are_ignored :
  forall (ms ms' : list (string * json.value)) (key : string)
         (v : json.value),
    json.fieldFor fields (json.unquote key) = None ->
    decode (json.JObject (ms ++ (key, v) :: ms'))
    = decode (json.JObject (ms ++ ms')).
Proof.
  intros ms ms' key v Hk. cbn [decode].
  rewrite !decodeMembers_app.
  destruct (decodeMembers defaultState ms) as [st | e]; cbn [bind];
    [ | reflexivity ].
  cbn [decodeMembers]. unfold decodeMember at 1. rewrite Hk.
  reflexivity.
Qed.

End StoreEdges.

(** ** The PagerDuty client *)

Section Client.
Import GoTime pagerduty client.

Lemma anyOnCall_true_iff (userID : string) (onCalls : list OnCall) :
  anyOnCall userID onCalls = true
  <-> exists oncall, In oncall onCalls /\ User_ID oncall = userID.
Proof.
  induction onCalls as [| oc rest IH]; cbn [anyOnCall In].
  - split; [ discriminate | intros (oc & [] & _) ].
  - destruct (String.eqb_spec (User_ID oc) userID) as [Heq | Hne].
    + split; [ intros _ | reflexivity ].
      exists oc. split; [ now left | exact Heq ].
    + rewrite IH. split.
      * intros (oc' & Hin & Hid). exists oc'. split; [ now right | exact Hid ].
      * intros (oc' & [<- | Hin] & Hid); [ contradiction | ].
        exists oc'. split; assumption.
Qed.

(** X12. [IsOnCall] answers true exactly when an entry of the response
    carries the user's id, whatever else the response holds; when the
    API call fails it returns the wrapped error and no answer. *)
Theorem IsOnCall_spec :
  forall (userID : string),
    (forall (onCalls : list OnCall),
        exists b,
          IsOnCall userID (Ok onCalls) = Ok b
          /\ (b = true
              <-> exists oncall,
                    In oncall onCalls /\ User_ID oncall = userID))
    /\ (forall (err : string),
           IsOnCall userID (Err err)
           = Err (wrap "failed to fetch on-call status" err)).
Proof.
  intros userID. split.
  - intros onCalls. exists (anyOnCall userID onCalls).
    split; [ reflexivity | apply anyOnCall_true_iff ].
  - reflexivity.
Qed.

Section Upcoming.
Variable Parse_RFC3339 : string -> option Time.
Variable userID : string.
Variable now : Time.

Let is_candidate := candidate Parse_RFC3339 userID now.

Let earliest := earliest_of Parse_RFC3339 userID now.

Lemma earliest_of_skip (start : option UpcomingShift) (oc : OnCall)
    (rest : list OnCall) (found : option UpcomingShift) :
  (forall shift, ~ is_candidate oc shift) ->
  earliest start rest found -> earliest start (oc :: rest) found.
Proof.
  intros Hno. unfold earliest, earliest_of.
  destruct found as [shift |].
  - intros ([Hs | (oc' & Hin & Hc)] & Hmin & Hstart); repeat split.
    + now left.
    + intros oc' shift' [<- | Hin] Hc; [ destruct (Hno _ Hc) | eauto ].
    + exact Hstart.
    + right. exists oc'. split; [ now right | exact Hc ].
    + intros oc'' shift' [<- | Hin'] Hc'; [ destruct (Hno _ Hc') | eauto ].
    + exact Hstart.
  - intros (Hs & Hnone). split; [ exact Hs | ].
    intros oc' shift [<- | Hin]; [ apply Hno | eauto ].
Qed.

Lemma candidate_times (oc : OnCall) (shift : UpcomingShift)
    (startTime endTime : Time) :
  Parse_RFC3339 (Start oc) = Some startTime ->
  Parse_RFC3339 (End' oc) = Some endTime ->
  is_candidate oc shift ->
  shift = {| StartTime := startTime; EndTime := endTime |}.
Proof.
  intros Hs He (Hs' & _ & _ & He').
  rewrite Hs in Hs'. rewrite He in He'.
  injection Hs' as Hs'. injection He' as He'.
  destruct shift as [s e]. cbn in *. subst. reflexivity.
Qed.

Lemma nextShiftLoop_earliest (onCalls : list OnCall) :
  forall start : option UpcomingShift,
    earliest start onCalls
      (nextShiftLoop Parse_RFC3339 userID now start onCalls).
Proof.
  induction onCalls as [| oc rest IH]; intros start.
  - cbn [nextShiftLoop]. unfold earliest, earliest_of.
    destruct start as [s |].
    + repeat split; [ now left | intros ? ? [] | ].
      intros s' Hs'. injection Hs' as <-. lia.
    + split; [ reflexivity | intros ? ? [] ].
  - cbn [nextShiftLoop].
    destruct (Parse_RFC3339 (Start oc)) as [startTime |] eqn:Hs.
    2:{ apply earliest_of_skip; [ | apply IH ].
        intros shift (Hs' & _). rewrite Hs in Hs'. discriminate. }
    destruct (String.eqb_spec (User_ID oc) userID) as [Hid | Hid];
      cbn [andb].
    2:{ apply earliest_of_skip; [ | apply IH ].
        intros shift (_ & Hid' & _). contradiction. }
    unfold After.
    destruct (Z.ltb_spec (nanos now) (nanos startTime)) as [Hfut | Hpast].
    2:{ apply earliest_of_skip; [ | apply IH ].
        intros shift (Hs' & _ & Hlt & _). rewrite Hs in Hs'.
        injection Hs' as Hs'. rewrite <- Hs' in Hlt. lia. }
    destruct (Parse_RFC3339 (End' oc)) as [endTime |] eqn:He.
    2:{ apply earliest_of_skip; [ | apply IH ].
        intros shift (_ & _ & _ & He'). rewrite He in He'. discriminate. }
    pose (shift := {| StartTime := startTime; EndTime := endTime |}).
    assert (Hc : is_candidate oc shift)
      by (unfold is_candidate, candidate; cbn; repeat split; assumption).
    destruct start as [current |].
    + unfold Before. cbn [StartTime].
      destruct (Z.ltb_spec (nanos startTime) (nanos (StartTime current)))
        as [Hlt | Hge].
      * specialize (IH (Some shift)). unfold earliest, earliest_of in IH |- *.
        destruct (nextShiftLoop _ _ _ _ rest) as [found |].
        -- destruct IH as ([Hf | (oc' & Hin & Hc')] & Hmin & Hstart).
           ++ injection Hf as <-. repeat split.
              ** right. exists oc. split; [ now left | exact Hc ].
              ** intros oc' shift' [<- | Hin] Hc'; [ | eauto ].
                 rewrite (candidate_times _ _ _ _ Hs He Hc'). cbn. lia.
              ** intros s Hcur. injection Hcur as <-. cbn. lia.
           ++ repeat split.
              ** right. exists oc'. split; [ now right | exact Hc' ].
              ** intros oc'' shift' [<- | Hin'] Hc''; [ | eauto ].
                 rewrite (candidate_times _ _ _ _ Hs He Hc'').
                 exact (Hstart shift eq_refl).
              ** intros s Hcur. injection Hcur as <-.
                 specialize (Hstart shift eq_refl). cbn in Hstart. lia.
        -- destruct IH as [Hd _]. discriminate.
      * specialize (IH (Some current)). unfold earliest, earliest_of in IH |- *.
        destruct (nextShiftLoop _ _ _ _ rest) as [found |].
        -- destruct IH as (Hfrom & Hmin & Hstart).
           specialize (Hstart current eq_refl).
           repeat split.
           ++ destruct Hfrom as [Hf | (oc' & Hin & Hc')];
                [ now left | right ].
              exists oc'. split; [ now right | exact Hc' ].
           ++ intros oc' shift' [<- | Hin] Hc'; [ | eauto ].
              rewrite (candidate_times _ _ _ _ Hs He Hc'). cbn. lia.
           ++ intros s Hcur. injection Hcur as <-. exact Hstart.
        -- destruct IH as [Hd _]. discriminate.
    + specialize (IH (Some shift)). unfold earliest, earliest_of in IH |- *.
      destruct (nextShiftLoop _ _ _ _ rest) as [found |].
      * destruct IH as ([Hf | (oc' & Hin & Hc')] & Hmin & Hstart).
        -- injection Hf as <-. repeat split.
           ++ right. exists oc. split; [ now left | exact Hc ].
           ++ intros oc' shift' [<- | Hin] Hc'; [ | eauto ].
              rewrite (candidate_times _ _ _ _ Hs He Hc'). cbn. lia.
           ++ intros s Hcur. discriminate.
        -- repeat split.
           ++ right. exists oc'. split; [ now right | exact Hc' ].
           ++ intros oc'' shift' [<- | Hin'] Hc''; [ | eauto ].
              rewrite (candidate_times _ _ _ _ Hs He Hc'').
              exact (Hstart shift eq_refl).
           ++ intros s Hcur. discriminate.
      * destruct IH as [Hd _]. discriminate.
Qed.

(** X13. [GetUpcomingShift] returns the earliest of the shifts it takes
    into account: the entries of the user whose two timestamps parse
    and whose start is after [now].  The shift returned is one of
    them, starts after [now] and no later than any other; nothing is
    returned only when there is none.  Entries of other users, entries
    that started already and entries with a timestamp that does not
    parse have no effect. *)
Theorem GetUpcomingShift_earliest :
  forall (onCalls : list OnCall),
    match GetUpcomingShift Parse_RFC3339 userID now (Ok onCalls) with
    | Ok (Some shift) =>
        (exists oncall,
            In oncall onCalls
            /\ candidate Parse_RFC3339 userID now oncall shift)
        /\ nanos now < nanos (StartTime shift)
        /\ (forall oncall shift',
               In oncall onCalls ->
               candidate Parse_RFC3339 userID now oncall shift' ->
               nanos (StartTime shift) <= nanos (StartTime shift'))
    | Ok None =>
        forall oncall shift,
          In oncall onCalls ->
          ~ candidate Parse_RFC3339 userID now oncall shift
    | Err _ => False
    end.
Proof.
  intros onCalls. cbn [GetUpcomingShift].
  pose proof (nextShiftLoop_earliest onCalls None) as H.
  unfold earliest, earliest_of in H.
  destruct (nextShiftLoop Parse_RFC3339 userID now None onCalls) as [shift |].
  - destruct H as ([Hd | (oc & Hin & Hc)] & Hmin & _); [ discriminate | ].
    repeat split.
    + exists oc. split; assumption.
    + destruct Hc as (_ & _ & Hlt & _). exact Hlt.
    + exact Hmin.
  - destruct H as [_ Hnone]. exact Hnone.
Qed.

End Upcoming.

End Client.

(** ** The window [GetUpcomingShift] asks for *)

Section QueryWindow.
Import GoTime pagerduty client.







End QueryWindow.

(** ** The configuration *)

Section Configuration.
Import GoTime configload.
Local Open Scope string_scope.
Local Open Scope Z_scope.

Lemma isEmpty_false (s : string) : isEmpty s = false -> s <> EmptyString.
Proof. destruct s; [ discriminate | discriminate ]. Qed.

Lemma isEmpty_true (s : string) : isEmpty s = true -> s = EmptyString.
Proof. destruct s; [ reflexivity | discriminate ]. Qed.

Lemma backendSettings_ok (Getenv : string -> string) (backend : string)
    (url server topic key : string) :
  backendSettings Getenv backend = Ok (url, server, topic, key) ->
  negb (String.eqb backend BackendWebhook)
  && negb (String.eqb backend BackendNtfy) = false ->
  (backend = BackendWebhook /\ url = Getenv "NOTIFICATION_WEBHOOK_URL"
   /\ url <> EmptyString)
  \/ (backend = BackendNtfy /\ server = Getenv "NTFY_SERVER_URL"
      /\ server <> EmptyString /\ topic = Getenv "NTFY_TOPIC"
      /\ topic <> EmptyString /\ key = Getenv "NTFY_API_KEY").
Proof.
  unfold backendSettings.
  destruct (String.eqb_spec backend BackendWebhook) as [Hw | Hw].
  - destruct (isEmpty (Getenv "NOTIFICATION_WEBHOOK_URL")) eqn:Eu;
      [ discriminate | ].
    intros Hok _. inversion Hok. subst.
    left. repeat split. exact (isEmpty_false _ Eu).
  - destruct (String.eqb_spec backend BackendNtfy) as [Hn | Hn];
      [ | intros _; discriminate ].
    destruct (isEmpty (Getenv "NTFY_SERVER_URL")) eqn:Es; [ discriminate | ].
    destruct (isEmpty (Getenv "NTFY_TOPIC")) eqn:Et; [ discriminate | ].
    intros Hok _. inversion Hok. subst.
    right. repeat split;
      [ exact (isEmpty_false _ Es) | exact (isEmpty_false _ Et) ].
Qed.

Lemma advanceNotificationTime_ok (Getenv : string -> string)
    (ParseDuration : string -> result Duration) (advance : Duration) :
  advanceNotificationTime Getenv ParseDuration = Ok advance ->
  (Getenv "ADVANCE_NOTIFICATION_TIME" = EmptyString /\ advance = 0)
  \/ (Getenv "ADVANCE_NOTIFICATION_TIME" <> EmptyString
      /\ ParseDuration (Getenv "ADVANCE_NOTIFICATION_TIME") = Ok advance
      /\ 0 < advance).
Proof.
  unfold advanceNotificationTime.
  destruct (isEmpty (Getenv "ADVANCE_NOTIFICATION_TIME")) eqn:Ee.
  - intros H. injection H as <-. left.
    split; [ exact (isEmpty_true _ Ee) | reflexivity ].
  - destruct (ParseDuration _) as [a | e] eqn:Ep; [ | discriminate ].
    destruct (Z.leb_spec a 0) as [Hle | Hpos]; [ discriminate | ].
    intros Hok. injection Hok as <-. right.
    repeat split; [ exact (isEmpty_false _ Ee) | exact Hpos ].
Qed.

(** X15. What [Load] has checked of a configuration it returns: the three
    PagerDuty settings are those of the environment and not empty; the
    backend is [webhook] with a webhook URL or [ntfy] with a server
    and a topic; the state file path is not empty; the advance window
    is zero exactly when [ADVANCE_NOTIFICATION_TIME] is not set and is
    otherwise the positive duration that variable parses to. *)
Theorem Load_validated :
  forall (Getenv : string -> string)
         (ParseDuration : string -> result Duration) (cfg : Config),
    Load Getenv ParseDuration = Ok cfg ->
    (PagerDutyAPIToken cfg = Getenv "PD_API_TOKEN"
     /\ PagerDutyAPIToken cfg <> EmptyString)
    /\ (PagerDutyScheduleID cfg = Getenv "PD_SCHEDULE_ID"
        /\ PagerDutyScheduleID cfg <> EmptyString)
    /\ (PagerDutyUserID cfg = Getenv "PD_USER_ID"
        /\ PagerDutyUserID cfg <> EmptyString)
    /\ ((NotificationBackend cfg = BackendWebhook
         /\ NotificationWebhookURL cfg <> EmptyString)
        \/ (NotificationBackend cfg = BackendNtfy
            /\ NtfyServerURL cfg <> EmptyString
            /\ NtfyTopic cfg <> EmptyString))
    /\ StateFilePath cfg <> EmptyString
    /\ ((Getenv "ADVANCE_NOTIFICATION_TIME" = EmptyString
         /\ AdvanceNotificationTime cfg = 0)
        \/ (Getenv "ADVANCE_NOTIFICATION_TIME" <> EmptyString
            /\ ParseDuration (Getenv "ADVANCE_NOTIFICATION_TIME")
               = Ok (AdvanceNotificationTime cfg)
            /\ 0 < AdvanceNotificationTime cfg)).
Proof.
  intros Getenv ParseDuration cfg. unfold Load.
  destruct (isEmpty (Getenv "PD_API_TOKEN")) eqn:E1; [ discriminate | ].
  destruct (isEmpty (Getenv "PD_SCHEDULE_ID")) eqn:E2; [ discriminate | ].
  destruct (isEmpty (Getenv "PD_USER_ID")) eqn:E3; [ discriminate | ].
  destruct (isEmpty (Getenv "NOTIFICATION_BACKEND")) eqn:E4;
    [ discriminate | ].
  destruct (negb (String.eqb (Getenv "NOTIFICATION_BACKEND") BackendWebhook)
            && negb (String.eqb (Getenv "NOTIFICATION_BACKEND") BackendNtfy))
    eqn:E5; [ discriminate | ].
  destruct (backendSettings Getenv (Getenv "NOTIFICATION_BACKEND"))
    as [[[[url server] topic] key] | e] eqn:E6; [ | discriminate ].
  destruct (checkInterval Getenv) as [interval | e]; [ | discriminate ].
  destruct (advanceNotificationTime Getenv ParseDuration)
    as [advance | e] eqn:E8; [ | discriminate ].
  cbn [bind]. intros H. injection H as <-.
  cbn [PagerDutyAPIToken PagerDutyScheduleID PagerDutyUserID
       NotificationBackend NotificationWebhookURL NtfyServerURL NtfyTopic
       StateFilePath AdvanceNotificationTime].
  split; [ split; [ reflexivity | exact (isEmpty_false _ E1) ] | ].
  split; [ split; [ reflexivity | exact (isEmpty_false _ E2) ] | ].
  split; [ split; [ reflexivity | exact (isEmpty_false _ E3) ] | ].
  split.
  { destruct (backendSettings_ok _ _ _ _ _ _ E6 E5)
      as [(Hb & _ & Hu) | (Hb & _ & Hs & _ & Ht & _)];
      [ left | right ]; repeat split; assumption. }
  split.
  { destruct (isEmpty (Getenv "STATE_FILE_PATH")) eqn:E9;
      [ discriminate | exact (isEmpty_false _ E9) ]. }
  exact (advanceNotificationTime_ok _ _ _ E8).
Qed.

Lemma digitsValue_nonneg (s : string) :
  forall acc u : Z, 0 <= acc -> strconv.digitsValue acc s = Some u -> 0 <= u.
Proof.
  induction s as [| c s IH]; intros acc u Hacc; cbn [strconv.digitsValue].
  - intros H. injection H as <-. exact Hacc.
  - destruct (isDigit c) eqn:Hd; [ | discriminate ].
    apply IH. unfold isDigit in Hd. apply andb_prop in Hd as [Hlo _].
    apply N.leb_le in Hlo. unfold digitVal. lia.
Qed.

Lemma Atoi_range (s : string) (n : Z) :
  strconv.Atoi s = Ok n -> strconv.minInt <= n <= strconv.maxInt.
Proof.
  unfold strconv.Atoi.
  destruct (match s with
            | String "-" s' => (true, s')
            | String "+" s' => (false, s')
            | _ => (false, s)
            end) as [neg body].
  destruct body as [| c body]; [ discriminate | ].
  destruct (strconv.digitsValue 0 (String c body)) as [u |];
    [ | discriminate ].
  cbv zeta.
  destruct (Z.ltb_spec (if neg then - u else u) strconv.minInt)
    as [| Hlo]; [ discriminate | ].
  destruct (Z.ltb_spec strconv.maxInt (if neg then - u else u))
    as [| Hhi]; [ discriminate | ].
  cbn [orb]. intros Hok. injection Hok as <-. lia.
Qed.

Lemma wrap64_range (z : Z) : - 2 ^ 63 <= wrap64 z < 2 ^ 63.
Proof.
  unfold wrap64. change (2 ^ 63) with 9223372036854775808.
  change (2 ^ 64) with 18446744073709551616. div_lia.
Qed.

Lemma wrap64_small (z : Z) : - 2 ^ 63 <= z < 2 ^ 63 -> wrap64 z = z.
Proof.
  unfold wrap64. change (2 ^ 63) with 9223372036854775808.
  change (2 ^ 64) with 18446744073709551616. intros H. div_lia.
Qed.

(** X16. The polling interval of a configuration [Load] returns is five
    minutes when [CHECK_INTERVAL] is not set.  When it is set it must
    read as a positive integer of seconds, and the interval is that
    many seconds as long as the product fits a [Duration], that is up
    to 9223372036 seconds; past that the check of [Load] still passes
    and the interval is the wrapped product, not that many seconds. *)
Theorem Load_check_interval :
  forall (Getenv : string -> string)
         (ParseDuration : string -> result Duration) (cfg : Config),
    Load Getenv ParseDuration = Ok cfg ->
    (Getenv "CHECK_INTERVAL" = EmptyString
     /\ CheckInterval cfg = 5 * Minute)
    \/ (exists n,
           strconv.Atoi (Getenv "CHECK_INTERVAL") = Ok n
           /\ 0 < n <= strconv.maxInt
           /\ CheckInterval cfg = wrap64 (n * Second)
           /\ (n <= 9223372036 ->
               CheckInterval cfg = n * Second /\ 0 < CheckInterval cfg)
           /\ (9223372036 < n -> CheckInterval cfg <> n * Second)).
Proof.
  intros Getenv ParseDuration cfg. unfold Load.
  destruct (isEmpty (Getenv "PD_API_TOKEN")); [ discriminate | ].
  destruct (isEmpty (Getenv "PD_SCHEDULE_ID")); [ discriminate | ].
  destruct (isEmpty (Getenv "PD_USER_ID")); [ discriminate | ].
  destruct (isEmpty (Getenv "NOTIFICATION_BACKEND")); [ discriminate | ].
  destruct (negb _ && negb _); [ discriminate | ].
  destruct (backendSettings Getenv (Getenv "NOTIFICATION_BACKEND"))
    as [[[[url server] topic] key] | e]; [ | discriminate ].
  destruct (checkInterval Getenv) as [interval | e] eqn:Ei;
    [ | discriminate ].
  destruct (advanceNotificationTime Getenv ParseDuration)
    as [advance | e]; [ | discriminate ].
  cbn [bind]. intros H. injection H as <-. cbn [CheckInterval].
  unfold checkInterval in Ei.
  destruct (isEmpty (Getenv "CHECK_INTERVAL")) eqn:Ee.
  - injection Ei as <-. left.
    split; [ exact (isEmpty_true _ Ee) | reflexivity ].
  - destruct (strconv.Atoi (Getenv "CHECK_INTERVAL")) as [n | e] eqn:Ea;
      [ | discriminate ].
    destruct (Z.leb_spec n 0) as [| Hpos]; [ discriminate | ].
    injection Ei as <-. right. exists n.
    pose proof (Atoi_range _ _ Ea) as [_ Hmax].
    pose proof (wrap64_range (n * Second)) as Hr.
    change Second with 1000000000 in *.
    change (2 ^ 63) with 9223372036854775808 in Hr.
    repeat split; try assumption.
    + rewrite wrap64_small; [ reflexivity | ].
      change (2 ^ 63) with 9223372036854775808. lia.
    + rewrite wrap64_small; [ lia | ].
      change (2 ^ 63) with 9223372036854775808. lia.
    + lia.
Qed.

Lemma isEmpty_of_nonempty (s : string) :
  s <> EmptyString -> isEmpty s = false.
Proof. destruct s; [ intros Hs; now contradiction Hs | reflexivity ]. Qed.

Lemma Load_CheckInterval (Getenv : string -> string)
    (ParseDuration : string -> result Duration) (cfg : Config) :
  Load Getenv ParseDuration = Ok cfg ->
  checkInterval Getenv = Ok (CheckInterval cfg).
Proof.
  unfold Load.
  destruct (isEmpty (Getenv "PD_API_TOKEN")); [ discriminate | ].
  destruct (isEmpty (Getenv "PD_SCHEDULE_ID")); [ discriminate | ].
  destruct (isEmpty (Getenv "PD_USER_ID")); [ discriminate | ].
  destruct (isEmpty (Getenv "NOTIFICATION_BACKEND")); [ discriminate | ].
  destruct (negb _ && negb _); [ discriminate | ].
  destruct (backendSettings Getenv (Getenv "NOTIFICATION_BACKEND"))
    as [[[[url server] topic] key] | e]; [ | discriminate ].
  destruct (checkInterval Getenv) as [interval | e]; [ | discriminate ].
  destruct (advanceNotificationTime Getenv ParseDuration)
    as [advance | e]; [ | discriminate ].
  cbn [bind]. intros Hok. injection Hok as <-. reflexivity.
Qed.

(** X17. Between 9223372037 and 18446744073 seconds the product with
    [time.Second] is at least 2^63 and less than 2^64: the polling
    interval of a configuration [Load] returns is then that product
    less 2^64, a negative duration. *)
Theorem Load_check_interval_overflow :
  forall (Getenv : string -> string)
         (ParseDuration : string -> result Duration) (cfg : Config)
         (n : Z),
    Load Getenv ParseDuration = Ok cfg ->
    strconv.Atoi (Getenv "CHECK_INTERVAL") = Ok n ->
    9223372036 < n <= 18446744073 ->
    CheckInterval cfg = n * Second - 2 ^ 64 /\ CheckInterval cfg < 0.
Proof.
  intros Getenv ParseDuration cfg n Hcfg Hn Hrange.
  apply Load_CheckInterval in Hcfg. unfold checkInterval in Hcfg.
  destruct (isEmpty (Getenv "CHECK_INTERVAL")) eqn:Ee.
  - apply isEmpty_true in Ee. rewrite Ee in Hn. discriminate.
  - rewrite Hn in Hcfg.
    destruct (Z.leb_spec n 0) as [Hle | Hpos]; [ discriminate | ].
    injection Hcfg as <-.
    assert (E : wrap64 (n * Second) = n * Second - 2 ^ 64).
    { unfold wrap64. change Second with 1000000000.
      change (2 ^ 63) with 9223372036854775808.
      change (2 ^ 64) with 18446744073709551616. div_lia. }
    rewrite E. split; [ reflexivity | ].
    change Second with 1000000000.
    change (2 ^ 64) with 18446744073709551616. lia.
Qed.

(** X18. [Load] returns a configuration whenever the three PagerDuty
    settings are set, the backend is [webhook] with its URL or [ntfy]
    with its server and topic, [CHECK_INTERVAL] is not set or reads as
    a positive integer, and [ADVANCE_NOTIFICATION_TIME] is not set or
    parses to a positive duration.  Nothing else in the environment
    can make it fail. *)
Theorem Load_accepts :
  forall (Getenv : string -> string)
         (ParseDuration : string -> result Duration),
    Getenv "PD_API_TOKEN" <> EmptyString ->
    Getenv "PD_SCHEDULE_ID" <> EmptyString ->
    Getenv "PD_USER_ID" <> EmptyString ->
    (Getenv "NOTIFICATION_BACKEND" = BackendWebhook
     /\ Getenv "NOTIFICATION_WEBHOOK_URL" <> EmptyString)
    \/ (Getenv "NOTIFICATION_BACKEND" = BackendNtfy
        /\ Getenv "NTFY_SERVER_URL" <> EmptyString
        /\ Getenv "NTFY_TOPIC" <> EmptyString) ->
    (Getenv "CHECK_INTERVAL" = EmptyString
     \/ exists n, strconv.Atoi (Getenv "CHECK_INTERVAL") = Ok n /\ 0 < n) ->
    (Getenv "ADVANCE_NOTIFICATION_TIME" = EmptyString
     \/ exists d,
          ParseDuration (Getenv "ADVANCE_NOTIFICATION_TIME") = Ok d
          /\ 0 < d) ->
    exists cfg, Load Getenv ParseDuration = Ok cfg.
Proof.
  intros Getenv ParseDuration Ht Hs Hu Hb Hi Ha.
  assert (Ei : exists interval, checkInterval Getenv = Ok interval).
  { unfold checkInterval. destruct Hi as [Hi | (n & Hn & Hpos)].
    - rewrite Hi. eexists. reflexivity.
    - destruct (isEmpty _); [ eexists; reflexivity | ].
      rewrite Hn. destruct (Z.leb_spec n 0) as [Hle | _]; [ lia | ].
      eexists. reflexivity. }
  assert (Ea : exists advance,
             advanceNotificationTime Getenv ParseDuration = Ok advance).
  { unfold advanceNotificationTime. destruct Ha as [Ha | (d & Hd & Hpos)].
    - rewrite Ha. eexists. reflexivity.
    - destruct (isEmpty _); [ eexists; reflexivity | ].
      rewrite Hd. destruct (Z.leb_spec d 0) as [Hle | _]; [ lia | ].
      eexists. reflexivity. }
  destruct Ei as [interval Ei]. destruct Ea as [advance Ea].
  unfold Load. cbv zeta.
  rewrite (isEmpty_of_nonempty _ Ht), (isEmpty_of_nonempty _ Hs),
    (isEmpty_of_nonempty _ Hu), Ei, Ea.
  unfold backendSettings. cbv zeta.
  destruct Hb as [(Hb & Hurl) | (Hb & Hsrv & Htopic)]; rewrite Hb.
  - rewrite (isEmpty_of_nonempty _ Hurl).
    change (String.eqb BackendWebhook BackendWebhook) with true.
    change (isEmpty BackendWebhook) with false.
    cbn [negb andb bind]. eexists. reflexivity.
  - rewrite (isEmpty_of_nonempty _ Hsrv), (isEmpty_of_nonempty _ Htopic).
    change (String.eqb BackendNtfy BackendWebhook) with false.
    change (String.eqb BackendNtfy BackendNtfy) with true.
    change (isEmpty BackendNtfy) with false.
    cbn [negb andb bind]. eexists. reflexivity.
Qed.

End Configuration.

(** ** From the configuration to the loop *)

Section ConfiguredRuns.
Import GoTime state main runs.

(** X19. When [ADVANCE_NOTIFICATION_TIME] is not set, a run under the
    configuration [Load] returns sends no upcoming-shift event and
    never touches the dedup marker, whatever PagerDuty answers. *)
Theorem unset_advance_time_disables_advance_notifications :
  forall (Getenv : string -> string)
         (ParseDuration : string -> result Duration)
         (cfg : configload.Config) (file : os.node) (ticks : list Tick)
         (st0 : State) (l : Loop),
    configload.Load Getenv ParseDuration = Ok cfg ->
    Getenv "ADVANCE_NOTIFICATION_TIME"%string = EmptyString ->
    Load file = Ok st0 ->
    runPollingLoop (configload.forLoop cfg) file ticks = Ok l ->
    filter isUpcomingShift (calls l) = []
    /\ LastAdvanceNotificationSent (currentState l)
       = LastAdvanceNotificationSent st0.
Proof.
  intros Getenv ParseDuration cfg file ticks st0 l Hcfg Hunset Hload Hrun.
  assert (Hzero : configload.AdvanceNotificationTime cfg = 0).
  { revert Hcfg. unfold configload.Load.
    destruct (configload.isEmpty (Getenv "PD_API_TOKEN"%string));
      [ discriminate | ].
    destruct (configload.isEmpty (Getenv "PD_SCHEDULE_ID"%string));
      [ discriminate | ].
    destruct (configload.isEmpty (Getenv "PD_USER_ID"%string));
      [ discriminate | ].
    destruct (configload.isEmpty (Getenv "NOTIFICATION_BACKEND"%string));
      [ discriminate | ].
    destruct (negb _ && negb _); [ discriminate | ].
    destruct (configload.backendSettings Getenv _)
      as [[[[url server] topic] key] | e]; [ | discriminate ].
    destruct (configload.checkInterval Getenv); [ | discriminate ].
    unfold configload.advanceNotificationTime. rewrite Hunset.
    cbn [configload.isEmpty bind]. intros H. injection H as <-.
    reflexivity. }
  unfold runPollingLoop in Hrun. rewrite Hload in Hrun.
  injection Hrun as <-.
  apply pollCycles_disabled.
  unfold configload.forLoop. cbn [config.AdvanceNotificationTime]. lia.
Qed.

End ConfiguredRuns.

(** ** The further properties at concrete inputs *)

Section FurtherInstances.
Import GoTime state notifier pagerduty config main runs client sample.
Import scenario.

Example day_log :
  map isSave (calls (pollCycles cfg1 day loop0))
  = [false; true; false; true; true; true; false; true].
Proof. vm_compute. reflexivity. Qed.

Example roster_next_shift :
  GetUpcomingShift parseRFC3339 "PUSER01" t0 (Ok roster)
  = Ok (Some nextOnRoster).
Proof. vm_compute. reflexivity. Qed.

Example environments_load :
  configload.Load ntfyEnv sampleDurations = Ok fromNtfyEnv
  /\ configload.Load webhookEnv sampleDurations = Ok fromWebhookEnv.
Proof. split; vm_compute; reflexivity. Qed.

Example Atoi_reads :
  strconv.Atoi "-9223372036854775808" = Ok strconv.minInt
  /\ strconv.Atoi "+0060" = Ok 60
  /\ strconv.Atoi "9223372036854775808"
     = Err "strconv.Atoi: value out of range"
  /\ strconv.Atoi "-" = Err "strconv.Atoi: invalid syntax"
  /\ strconv.Atoi "6 0" = Err "strconv.Atoi: invalid syntax".
Proof. repeat split; vm_compute; reflexivity. Qed.

Lemma run_tracks_last_observation_witness :
  WasOnCall (currentState (pollCycles cfg1 day loop0)) = true.
Proof.
  exact (run_tracks_last_observation cfg1 os.Absent day defaultState
           (pollCycles cfg1 day loop0) eq_refl eq_refl).
Defined.

Lemma shift_started_once_per_period_witness :
  shiftStartedCount (calls (pollCycles cfg1 day loop0)) = 2%nat.
Proof.
  exact (shift_started_once_per_period cfg1 os.Absent day defaultState
           (pollCycles cfg1 day loop0) eq_refl eq_refl).
Defined.

Lemma disabled_window_sends_nothing_witness :
  filter isUpcomingShift (calls (pollCycles cfgOff day loop0)) = []
  /\ LastAdvanceNotificationSent (currentState (pollCycles cfgOff day loop0))
     = None.
Proof.
  apply (disabled_window_sends_nothing cfgOff os.Absent day defaultState
           (pollCycles cfgOff day loop0)).
  - vm_compute. discriminate.
  - reflexivity.
  - reflexivity.
Defined.

Lemma upcoming_events_are_within_window_witness :
  exists tk shift,
    In tk day
    /\ upcomingShift tk = Ok (Some shift)
    /\ StartTime shift = StartTime shift1
    /\ notifyUpcoming tk = None
    /\ 0 < Sub (StartTime shift1) (nowCheck tk) <= AdvanceNotificationTime cfg1.
Proof.
  apply (upcoming_events_are_within_window cfg1 os.Absent day
           (pollCycles cfg1 day loop0) (StartTime shift1) None eq_refl).
  vm_compute. left. reflexivity.
Defined.

Lemma day_clock_forward :
  forall tk, In tk day -> nanos (nowCheck tk) <= nanos (nowRecord tk).
Proof.
  intros tk Hin.
  repeat (destruct Hin as [<- | Hin]; [ vm_compute; discriminate | ]).
  destruct Hin.
Defined.

Lemma advance_notifications_a_day_apart_witness :
  StronglySorted cooldown_apart
    (savedMarkers (calls (pollCycles cfg1 day loop0)))
  /\ cooldown_apart None
       (LastAdvanceNotificationSent (currentState (pollCycles cfg1 day loop0))).
Proof.
  exact (advance_notifications_a_day_apart cfg1 os.Absent day defaultState
           (pollCycles cfg1 day loop0) day_clock_forward eq_refl eq_refl).
Defined.

Lemma day_on_read_only_disk :
  Forall2 sameButSaveIO day (map onReadOnlyDisk day).
Proof.
  unfold day. cbn [map]. repeat constructor.
Defined.

Lemma save_failures_do_not_change_decisions_witness :
  currentState (pollCycles cfg1 day loop0)
  = currentState (pollCycles cfg1 (map onReadOnlyDisk day) loop0)
  /\ notifications (calls (pollCycles cfg1 day loop0))
     = notifications (calls (pollCycles cfg1 (map onReadOnlyDisk day) loop0)).
Proof.
  exact (save_failures_do_not_change_decisions cfg1 os.Absent day
           (map onReadOnlyDisk day) (pollCycles cfg1 day loop0)
           (pollCycles cfg1 (map onReadOnlyDisk day) loop0)
           day_on_read_only_disk eq_refl eq_refl).
Defined.

Lemma restart_resumes_the_run_witness :
  Load (stateFile stopped) = Ok (currentState stopped)
  /\ exists l2,
       runPollingLoop cfg1 (stateFile stopped) [tick2] = Ok l2
       /\ runPollingLoop cfg1 os.Absent ([tick1] ++ [tick2])
          = Ok (prepend (calls stopped) l2).
Proof.
  apply (restart_resumes_the_run cfg1 os.Absent [tick1] [tick2] stopped).
  - reflexivity.
  - vm_compute. reflexivity.
Defined.

Lemma Save_outcomes_witness :
  snd (Save os.Written os.Absent marked) = None
  /\ fst (Save (os.MkdirAllFails "read-only file system") os.Absent marked)
     = os.Absent.
Proof.
  split.
  - apply (proj1 (Save_outcomes os.Written os.Absent marked)).
    split; [ reflexivity | exact marked_marshalable ].
  - apply (proj2 (proj2 (Save_outcomes
                           (os.MkdirAllFails "read-only file system")
                           os.Absent marked))).
    left. eexists. reflexivity.
Defined.

Lemma unknown_members_are_ignored_witness :
  decode (json.JObject
            ([("was_on_call"%string, json.JBool true)]
             ++ ("schema"%string, json.JNumber "2")
                :: [("last_advance_notification_sent"%string, json.JNull)]))
  = decode (json.JObject
              ([("was_on_call"%string, json.JBool true)]
               ++ [("last_advance_notification_sent"%string, json.JNull)])).
Proof.
  apply (unknown_members_are_ignored
           [("was_on_call"%string, json.JBool true)]
           [("last_advance_notification_sent"%string, json.JNull)]
           "schema" (json.JNumber "2")).
  vm_compute. reflexivity.
Defined.

Lemma IsOnCall_spec_witness :
  IsOnCall "PUSER01" (Err "context deadline exceeded")
  = Err (wrap "failed to fetch on-call status" "context deadline exceeded").
Proof.
  exact (proj2 (IsOnCall_spec "PUSER01") "context deadline exceeded"%string).
Defined.

Lemma GetUpcomingShift_earliest_witness :
  (exists oncall,
      In oncall roster
      /\ candidate parseRFC3339 "PUSER01" t0 oncall nextOnRoster)
  /\ nanos t0 < nanos (StartTime nextOnRoster).
Proof.
  pose proof (GetUpcomingShift_earliest parseRFC3339 "PUSER01" t0 roster)
    as Hmin.
  assert (E : GetUpcomingShift parseRFC3339 "PUSER01" t0 (Ok roster)
              = Ok (Some nextOnRoster)) by (vm_compute; reflexivity).
  rewrite E in Hmin.
  exact (conj (proj1 Hmin) (proj1 (proj2 Hmin))).
Defined.


Lemma Load_validated_witness :
  configload.NtfyTopic fromNtfyEnv <> EmptyString
  /\ configload.StateFilePath fromNtfyEnv <> EmptyString.
Proof.
  pose proof (Load_validated ntfyEnv sampleDurations fromNtfyEnv eq_refl)
    as (_ & _ & _ & Hbackend & Hpath & _).
  split; [ | exact Hpath ].
  destruct Hbackend as [(Hb & _) | (_ & _ & Ht)];
    [ discriminate Hb | exact Ht ].
Defined.

Lemma Load_check_interval_witness :
  (ntfyEnv "CHECK_INTERVAL"%string = EmptyString
   /\ configload.CheckInterval fromNtfyEnv = 5 * Minute)
  \/ (exists n,
         strconv.Atoi (ntfyEnv "CHECK_INTERVAL"%string) = Ok n
         /\ 0 < n <= strconv.maxInt
         /\ configload.CheckInterval fromNtfyEnv
            = configload.wrap64 (n * Second)
         /\ (n <= 9223372036 ->
             configload.CheckInterval fromNtfyEnv = n * Second
             /\ 0 < configload.CheckInterval fromNtfyEnv)
         /\ (9223372036 < n ->
             configload.CheckInterval fromNtfyEnv <> n * Second)).
Proof.
  exact (Load_check_interval ntfyEnv sampleDurations fromNtfyEnv eq_refl).
Defined.

Lemma unset_advance_time_disables_advance_notifications_witness :
  filter isUpcomingShift
    (calls (pollCycles (configload.forLoop fromWebhookEnv) day loop0)) = []
  /\ LastAdvanceNotificationSent
       (currentState (pollCycles (configload.forLoop fromWebhookEnv) day loop0))
     = None.
Proof.
  exact (unset_advance_time_disables_advance_notifications webhookEnv
           sampleDurations fromWebhookEnv os.Absent day defaultState
           (pollCycles (configload.forLoop fromWebhookEnv) day loop0)
           eq_refl eq_refl eq_refl eq_refl).
Defined.

Lemma every_answer_is_saved_witness :
  map WasOnCall (savedStates (calls (pollCycles cfg1 day loop0)))
  = [false; true; true; false; true]
  /\ currentState (pollCycles cfg1 day loop0)
     = last (savedStates (calls (pollCycles cfg1 day loop0))) defaultState.
Proof.
  exact (every_answer_is_saved cfg1 os.Absent day defaultState
           (pollCycles cfg1 day loop0) eq_refl eq_refl).
Defined.

Lemma Load_check_interval_overflow_witness :
  configload.CheckInterval fromOverflowEnv = 9223372037 * Second - 2 ^ 64
  /\ configload.CheckInterval fromOverflowEnv < 0.
Proof.
  apply (Load_check_interval_overflow overflowEnv sampleDurations
           fromOverflowEnv 9223372037).
  - vm_compute. reflexivity.
  - vm_compute. reflexivity.
  - lia.
Defined.

Lemma Load_accepts_witness :
  exists cfg, configload.Load ntfyEnv sampleDurations = Ok cfg.
Proof.
  apply (Load_accepts ntfyEnv sampleDurations).
  - vm_compute. discriminate.
  - vm_compute. discriminate.
  - vm_compute. discriminate.
  - right. repeat split; vm_compute; try reflexivity; discriminate.
  - right. exists 60. split; [ vm_compute; reflexivity | lia ].
  - right. exists (2 * Hour). split; [ vm_compute; reflexivity | ].
    vm_compute. reflexivity.
Defined.

End FurtherInstances.
